(** * Keyword ranking over the in-memory ticket index

    A shallow embedding of [app/services/vector_store.py]
    ([SimpleVectorStoreService]) together with the parts of
    [app/models/ticket.py] it reads, and the properties of the ranked
    search that the design document states about it.

    Conventions of the embedding:
    - a Python [str] is a [string]; its characters are the code points
      U+0000..U+00FF, on which [str.lower], [str.split] and [in] are
      written out as CPython computes them;
    - a Python [float] is a binary64 value, [spec_float] with precision 53
      and maximal exponent 1024, and the arithmetic is the correctly
      rounded one of [SpecFloat];
    - a Python [int] is a [Z];
    - a [dict] that is iterated is an association list in insertion order,
      because the order of [tickets_store.items()] decides the order of
      equal scores after the stable sort;
    - the service object is a record holding [tickets_store] and
      [_initialized]; every method takes the state and returns its result
      together with the state it leaves;
    - the methods are coroutines that await nothing but each other, so a
      call runs from its first statement to its [return] without
      interleaving, and on arguments of the annotated types no statement
      of a [try] block raises: the [except] branches are left out;
    - [list.sort(key=..., reverse=True)] is the stable arrangement by
      descending key; it is written as an insertion sort and shown below
      to be a permutation, ordered and stable. *)

From Stdlib Require Import ZArith Lia Bool List Ascii String.
From Stdlib Require Import Floats.SpecFloat.
From Stdlib Require Import Sorting.Sorted Sorting.Permutation.
From Stdlib Require Import DecimalString.
Import ListNotations.

Local Open Scope Z_scope.
Local Open Scope string_scope.
Local Open Scope list_scope.

(** ** binary64 arithmetic *)

Module F64.

Definition prec : Z := 53.
Definition emax : Z := 1024.

Definition float : Type := spec_float.

Definition add : float -> float -> float := SFadd prec emax.
Definition mul : float -> float -> float := SFmul prec emax.
Definition div : float -> float -> float := SFdiv prec emax.
Definition ltb : float -> float -> bool := SFltb.
Definition leb : float -> float -> bool := SFleb.

(** [float(n)] for a Python [int]. *)
Definition of_int (n : Z) : float := binary_normalize prec emax n 0 false.

(** The literals of the source. *)
Definition f0_0 : float := S754_zero false.
Definition f1_0 : float := S754_finite false 4503599627370496 (-52).
Definition f2_0 : float := S754_finite false 4503599627370496 (-51).
Definition f3_0 : float := S754_finite false 6755399441055744 (-51).
Definition f0_5 : float := S754_finite false 4503599627370496 (-53).
Definition f0_3 : float := S754_finite false 5404319552844595 (-54).

(** The builtin [min(a, b)] on two arguments: [b] replaces [a] only when
    [b < a]. *)
Definition py_min (a b : float) : float := if ltb b a then b else a.

Definition is_nan (x : float) : bool :=
  match x with S754_nan => true | _ => false end.

(** [x == 0]. *)
Definition is_zero (x : float) : bool := SFeqb x f0_0.

(** Neither a negative number nor the negative zero. *)
Definition sign_clear (x : float) : Prop :=
  match x with
  | S754_zero s | S754_finite s _ _ | S754_infinity s => s = false
  | S754_nan => True
  end.

End F64.

(** ** Python strings *)

Module Py.

(** [c.isspace()] on U+0000..U+00FF. *)
Definition isspace (c : ascii) : bool :=
  let n := nat_of_ascii c in
  ((9 <=? n) && (n <=? 13))%nat || ((28 <=? n) && (n <=? 32))%nat
  || (n =? 133)%nat || (n =? 160)%nat.

(** [c.lower()] on U+0000..U+00FF: the letters A-Z, and the Latin-1
    capitals U+00C0..U+00DE other than the multiplication sign U+00D7. *)
Definition lower_char (c : ascii) : ascii :=
  let n := nat_of_ascii c in
  if ((65 <=? n) && (n <=? 90))%nat
     || ((192 <=? n) && (n <=? 222) && negb (n =? 215))%nat
  then ascii_of_nat (n + 32)
  else c.

Fixpoint lower (s : string) : string :=
  match s with
  | EmptyString => EmptyString
  | String c s' => String (lower_char c) (lower s')
  end.

(** [s.split()]: the maximal runs of non-whitespace characters.  [cur] is
    the run being read. *)
Fixpoint split_from (cur : string) (s : string) : list string :=
  match s with
  | EmptyString =>
      match cur with EmptyString => [] | _ => [cur] end
  | String c s' =>
      if isspace c then
        match cur with
        | EmptyString => split_from EmptyString s'
        | _ => cur :: split_from EmptyString s'
        end
      else split_from (cur ++ String c EmptyString)%string s'
  end.

Definition split (s : string) : list string := split_from EmptyString s.

(** [sub in s] for two strings. *)
Fixpoint contains (sub s : string) : bool :=
  prefix sub s
  || match s with
     | EmptyString => false
     | String _ s' => contains sub s'
     end.

(** [sep.join(parts)]. *)
Definition join (sep : string) (parts : list string) : string :=
  String.concat sep parts.

(** [l[:n]] on a list, for any [int] bound: a negative bound counts from
    the end. *)
Definition slice_to {A : Type} (n : Z) (l : list A) : list A :=
  if (0 <=? n)%Z then firstn (Z.to_nat n) l
  else firstn (List.length l - Z.to_nat (- n)) l.

End Py.

(** ** Python values

    The values a filter can carry ([Dict[str, Any]]) and the values
    [ticket_data.get(key)] can return: [None], booleans, integers, strings
    and lists of these. *)

#[local] Set Warnings "-register-all".

Inductive pyval : Type :=
| PNone
| PBool (b : bool)
| PInt (n : Z)
| PStr (s : string)
| PList (l : list pyval).

(** [a == b]: a [bool] is the integer 0 or 1, lists are equal element by
    element, values of different kinds differ. *)
Fixpoint py_eq (a b : pyval) {struct a} : bool :=
  match a, b with
  | PNone, PNone => true
  | PBool x, PBool y => Bool.eqb x y
  | PBool x, PInt y => (Z.b2z x =? y)%Z
  | PInt x, PBool y => (x =? Z.b2z y)%Z
  | PInt x, PInt y => (x =? y)%Z
  | PStr x, PStr y => String.eqb x y
  | PList x, PList y =>
      (fix all2 (x y : list pyval) {struct x} : bool :=
         match x, y with
         | [], [] => true
         | a' :: x', b' :: y' => py_eq a' b' && all2 x' y'
         | _, _ => false
         end) x y
  | _, _ => false
  end.

(** [a != b]. *)
Definition py_ne (a b : pyval) : bool := negb (py_eq a b).

(** [a in l] for a list [l]. *)
Definition py_in (a : pyval) (l : list pyval) : bool := existsb (py_eq a) l.

(** ** app/models/ticket.py *)

Inductive TicketStatus := OPEN | IN_PROGRESS | PENDING | RESOLVED | CLOSED.
Inductive TicketPriority := LOW | MEDIUM | HIGH | CRITICAL.
Inductive TicketCategory :=
  HARDWARE | SOFTWARE | NETWORK | ACCESS | PERFORMANCE | SECURITY | OTHER.

Definition status_value (s : TicketStatus) : string :=
  match s with
  | OPEN => "open" | IN_PROGRESS => "in_progress" | PENDING => "pending"
  | RESOLVED => "resolved" | CLOSED => "closed"
  end.

Definition priority_value (p : TicketPriority) : string :=
  match p with
  | LOW => "low" | MEDIUM => "medium" | HIGH => "high" | CRITICAL => "critical"
  end.

Definition category_value (c : TicketCategory) : string :=
  match c with
  | HARDWARE => "hardware" | SOFTWARE => "software" | NETWORK => "network"
  | ACCESS => "access" | PERFORMANCE => "performance"
  | SECURITY => "security" | OTHER => "other"
  end.

(** A [datetime] is kept as the text [isoformat()] renders it to; nothing
    else of it is read by the index. *)
Record datetime := { isoformat : string }.

Module Ticket.
Record t := {
  id : Z;
  title : string;
  description : string;
  priority : TicketPriority;
  category : TicketCategory;
  assignee : option string;
  reporter : string;
  tags : option (list string);
  status : TicketStatus;
  created_at : datetime;
  updated_at : option datetime;
  resolved_at : option datetime;
  resolution_notes : option string
}.
End Ticket.

(** Truthiness of an [Optional[str]] and of an [Optional[List[str]]]:
    [None] and the empty value are false. *)
Definition truthy_str (o : option string) : bool :=
  match o with
  | Some (String _ _) => true
  | _ => false
  end.

Definition truthy_list {A : Type} (o : option (list A)) : bool :=
  match o with
  | Some (_ :: _) => true
  | _ => false
  end.

(** [o or default]. *)
Definition str_or (o : option string) (default : string) : string :=
  match o with
  | Some (String c s) => String c s
  | _ => default
  end.

Definition list_or {A : Type} (o : option (list A)) (default : list A) : list A :=
  match o with
  | Some (x :: l) => x :: l
  | _ => default
  end.

(** ** The indexed document: the dict literal of [add_ticket] *)

Module Doc.
Record t := {
  ticket_id : Z;
  document_text : string;
  title : string;
  description : string;
  status : string;
  priority : string;
  category : string;
  assignee : string;
  reporter : string;
  created_at : string;
  updated_at : string;
  tags : string
}.

(** [ticket_data.get(key)]: [None] for a key the dict does not have. *)
Definition get (d : t) (key : string) : pyval :=
  if String.eqb key "ticket_id" then PInt (ticket_id d)
  else if String.eqb key "document_text" then PStr (document_text d)
  else if String.eqb key "title" then PStr (title d)
  else if String.eqb key "description" then PStr (description d)
  else if String.eqb key "status" then PStr (status d)
  else if String.eqb key "priority" then PStr (priority d)
  else if String.eqb key "category" then PStr (category d)
  else if String.eqb key "assignee" then PStr (assignee d)
  else if String.eqb key "reporter" then PStr (reporter d)
  else if String.eqb key "created_at" then PStr (created_at d)
  else if String.eqb key "updated_at" then PStr (updated_at d)
  else if String.eqb key "tags" then PStr (tags d)
  else PNone.

(** The keys of the dict literal. *)
Definition keys : list string :=
  ["ticket_id"; "document_text"; "title"; "description"; "status";
   "priority"; "category"; "assignee"; "reporter"; "created_at";
   "updated_at"; "tags"].
End Doc.

(** ** The insertion-ordered dict [tickets_store] *)

Definition store : Type := list (Z * Doc.t).

(** [k in m]. *)
Definition dict_mem (k : Z) (m : store) : bool :=
  existsb (fun kv => (fst kv =? k)%Z) m.

(** [m[k] = v]: an existing key keeps its place, a new key goes last. *)
Fixpoint dict_set (k : Z) (v : Doc.t) (m : store) : store :=
  match m with
  | [] => [(k, v)]
  | (k', v') :: m' =>
      if (k' =? k)%Z then (k', v) :: m' else (k', v') :: dict_set k v m'
  end.

(** [del m[k]]. *)
Definition dict_del (k : Z) (m : store) : store :=
  filter (fun kv => negb (fst kv =? k)%Z) m.

(** [m.get(k)]. *)
Fixpoint dict_get (k : Z) (m : store) : option Doc.t :=
  match m with
  | [] => None
  | (k', v) :: m' => if (k' =? k)%Z then Some v else dict_get k m'
  end.

Definition dict_keys (m : store) : list Z := map fst m.

(** ** SimpleVectorStoreService *)

Record service := {
  tickets_store : store;
  _initialized : bool
}.

(** [__init__]. *)
Definition init : service :=
  {| tickets_store := []; _initialized := false |}.

Definition initialize (self : service) : service :=
  if _initialized self then self
  else {| tickets_store := []; _initialized := true |}.

Definition _create_document_text (ticket : Ticket.t) : string :=
  let text_parts :=
    [ ("Title: " ++ Ticket.title ticket)%string;
      ("Description: " ++ Ticket.description ticket)%string;
      ("Status: " ++ status_value (Ticket.status ticket))%string;
      ("Priority: " ++ priority_value (Ticket.priority ticket))%string;
      ("Category: " ++ category_value (Ticket.category ticket))%string;
      ("Reporter: " ++ Ticket.reporter ticket)%string ] in
  let text_parts :=
    if truthy_str (Ticket.assignee ticket)
    then text_parts ++ [("Assignee: " ++ str_or (Ticket.assignee ticket) "")%string]
    else text_parts in
  let text_parts :=
    if truthy_list (Ticket.tags ticket)
    then text_parts
         ++ [("Tags: " ++ Py.join ", " (list_or (Ticket.tags ticket) []))%string]
    else text_parts in
  let text_parts :=
    if truthy_str (Ticket.resolution_notes ticket)
    then text_parts
         ++ [("Resolution: " ++ str_or (Ticket.resolution_notes ticket) "")%string]
    else text_parts in
  Py.join " | " text_parts.

(** The dict literal stored under [ticket.id]. *)
Definition make_document (ticket : Ticket.t) : Doc.t :=
  let document_text := Py.lower (_create_document_text ticket) in
  {| Doc.ticket_id := Ticket.id ticket;
     Doc.document_text := document_text;
     Doc.title := Py.lower (Ticket.title ticket);
     Doc.description := Py.lower (Ticket.description ticket);
     Doc.status := status_value (Ticket.status ticket);
     Doc.priority := priority_value (Ticket.priority ticket);
     Doc.category := category_value (Ticket.category ticket);
     Doc.assignee := str_or (Ticket.assignee ticket) "";
     Doc.reporter := Ticket.reporter ticket;
     Doc.created_at := isoformat (Ticket.created_at ticket);
     Doc.updated_at :=
       match Ticket.updated_at ticket with
       | Some u => isoformat u
       | None => ""
       end;
     Doc.tags := Py.lower (Py.join " " (list_or (Ticket.tags ticket) [])) |}.

Definition add_ticket (self : service) (ticket : Ticket.t) : bool * service :=
  let self := initialize self in
  let document := make_document ticket in
  (true,
   {| tickets_store := dict_set (Ticket.id ticket) document (tickets_store self);
      _initialized := _initialized self |}).

Definition update_ticket (self : service) (ticket : Ticket.t) : bool * service :=
  let self := initialize self in
  add_ticket self ticket.

Definition remove_ticket (self : service) (ticket_id : Z) : bool * service :=
  let self := initialize self in
  let self :=
    if dict_mem ticket_id (tickets_store self)
    then {| tickets_store := dict_del ticket_id (tickets_store self);
            _initialized := _initialized self |}
    else self in
  (true, self).

(** *** search_tickets *)

Definition filters_t : Type := option (list (string * pyval)).

(** The inner [for key, value in filters.items()] loop; the result is the
    value of [skip_ticket] when the loop ends or breaks. *)
Fixpoint filter_loop (ticket_data : Doc.t) (items : list (string * pyval)) : bool :=
  match items with
  | [] => false
  | (key, value) :: rest =>
      match value with
      | PNone => filter_loop ticket_data rest
      | PList l =>
          if negb (py_in (Doc.get ticket_data key) l) then true
          else filter_loop ticket_data rest
      | _ =>
          if py_ne (Doc.get ticket_data key) value then true
          else filter_loop ticket_data rest
      end
  end.

(** [if filters: ...]: [None] and the empty dict are false. *)
Definition skip_ticket (filters : filters_t) (ticket_data : Doc.t) : bool :=
  match filters with
  | Some (kv :: items) => filter_loop ticket_data (kv :: items)
  | _ => false
  end.

(** One turn of [for term in query_terms]. *)
Definition term_step (ticket_data : Doc.t) (score : F64.float) (term : string) : F64.float :=
  if Py.contains term (Doc.title ticket_data) then F64.add score F64.f3_0
  else if Py.contains term (Doc.description ticket_data) then F64.add score F64.f2_0
  else if Py.contains term (Doc.tags ticket_data) then F64.add score F64.f2_0
  else if Py.contains term (Doc.document_text ticket_data) then F64.add score F64.f1_0
  else score.

(** The value of [score] at line 167, before the test [score > 0]. *)
Definition raw_score (query_lower : string) (query_terms : list string)
    (ticket_data : Doc.t) : F64.float :=
  let score := F64.f0_0 in
  let total_terms := Z.of_nat (List.length query_terms) in
  let score :=
    if (0 <? total_terms)%Z then
      let score := fold_left (term_step ticket_data) query_terms score in
      F64.div score (F64.mul (F64.of_int total_terms) F64.f3_0)
    else score in
  if Py.contains query_lower (Doc.title ticket_data) then F64.add score F64.f0_5
  else if Py.contains query_lower (Doc.description ticket_data) then F64.add score F64.f0_3
  else score.

(** The [for ticket_id, ticket_data in self.tickets_store.items()] loop:
    the pairs appended to [results], in the order they are appended. *)
Fixpoint scan (query_lower : string) (query_terms : list string)
    (filters : filters_t) (items : store) : list (Z * F64.float) :=
  match items with
  | [] => []
  | (ticket_id, ticket_data) :: rest =>
      if skip_ticket filters ticket_data then
        scan query_lower query_terms filters rest
      else
        let score := raw_score query_lower query_terms ticket_data in
        if F64.ltb F64.f0_0 score then
          (ticket_id, F64.py_min score F64.f1_0)
            :: scan query_lower query_terms filters rest
        else scan query_lower query_terms filters rest
  end.

(** [results.sort(key=lambda x: x[1], reverse=True)]: the stable
    arrangement by descending score.  An element is put in front of the
    first element whose score is not greater than its own, so equal scores
    keep the order they were appended in. *)
Fixpoint insert_desc (x : Z * F64.float) (l : list (Z * F64.float)) : list (Z * F64.float) :=
  match l with
  | [] => [x]
  | y :: l' =>
      if F64.ltb (snd x) (snd y) then y :: insert_desc x l' else x :: y :: l'
  end.

Fixpoint sort_desc (l : list (Z * F64.float)) : list (Z * F64.float) :=
  match l with
  | [] => []
  | x :: l' => insert_desc x (sort_desc l')
  end.

(** The candidates of a query: [results] after the sort and before the
    slice. *)
Definition ranked (self : service) (query : string) (filters : filters_t) : list (Z * F64.float) :=
  let query_lower := Py.lower query in
  let query_terms := Py.split query_lower in
  sort_desc (scan query_lower query_terms filters (tickets_store self)).

Definition search_tickets (self : service) (query : string) (limit : Z)
    (filters : filters_t) : list (Z * F64.float) * service :=
  let self := initialize self in
  let results := ranked self query filters in
  let results := Py.slice_to limit results in
  (results, self).

(** *** get_similar_tickets *)

Definition get_similar_tickets (self : service) (ticket : Ticket.t) (limit : Z)
    : list (Z * F64.float) * service :=
  let search_query :=
    (Ticket.title ticket ++ " " ++ Ticket.description ticket)%string in
  let '(results, self) := search_tickets self search_query (limit + 1) None in
  let filtered_results :=
    filter (fun r => negb (fst r =? Ticket.id ticket)%Z) results in
  (Py.slice_to limit filtered_results, self).

(** *** get_collection_stats and reset_collection *)

Record stats := {
  total_documents : Z;
  collection_name : string;
  embedding_model : string
}.

Definition get_collection_stats (self : service) : stats * service :=
  let self := initialize self in
  ({| total_documents := Z.of_nat (List.length (tickets_store self));
      collection_name := "simple_tickets_store";
      embedding_model := "simple_text_matching" |},
   self).

Definition reset_collection (self : service) : bool * service :=
  (true, {| tickets_store := []; _initialized := _initialized self |}).

(** ** The scoring rule as the design document words it

    [S] is the sum over the tokens of the weight of the first field the
    token occurs in, [B] the phrase bonus, and the score of a document is
    [min(1.0, S / (n * 3.0) + B)]. *)

Module Spec.

Definition token_weight (d : Doc.t) (token : string) : F64.float :=
  if Py.contains token (Doc.title d) then F64.f3_0
  else if Py.contains token (Doc.description d) then F64.f2_0
  else if Py.contains token (Doc.tags d) then F64.f2_0
  else if Py.contains token (Doc.document_text d) then F64.f1_0
  else F64.f0_0.

Definition S (d : Doc.t) (tokens : list string) : F64.float :=
  fold_left (fun acc token => F64.add acc (token_weight d token)) tokens F64.f0_0.

Definition B (d : Doc.t) (query_lower : string) : F64.float :=
  if Py.contains query_lower (Doc.title d) then F64.f0_5
  else if Py.contains query_lower (Doc.description d) then F64.f0_3
  else F64.f0_0.

(** [S / (n * 3.0) + B], the combined score before the clamp. *)
Definition combined (query : string) (d : Doc.t) : F64.float :=
  let tokens := Py.split (Py.lower query) in
  let n := Z.of_nat (List.length tokens) in
  F64.add (F64.div (S d tokens) (F64.mul (F64.of_int n) F64.f3_0))
          (B d (Py.lower query)).

Definition score (query : string) (d : Doc.t) : F64.float :=
  F64.py_min F64.f1_0 (combined query d).

(** A stored document satisfies one filter: nothing is asked by [None],
    a list asks for membership, any other value for equality. *)
Definition satisfies (d : Doc.t) (kv : string * pyval) : Prop :=
  match snd kv with
  | PNone => True
  | PList l => py_in (Doc.get d (fst kv)) l = true
  | v => py_eq (Doc.get d (fst kv)) v = true
  end.

Definition satisfies_all (filters : filters_t) (d : Doc.t) : Prop :=
  match filters with
  | None => True
  | Some items => forall kv, In kv items -> satisfies d kv
  end.

(** What the sort establishes between neighbours: the later score is
    not greater. *)
Definition not_lt (a b : Z * F64.float) : Prop :=
  F64.ltb (snd a) (snd b) = false.

(** Scores that do not increase along the list. *)
Definition score_ge (a b : Z * F64.float) : Prop :=
  F64.leb (snd b) (snd a) = true.

Definition non_increasing (l : list (Z * F64.float)) : Prop :=
  Sorted score_ge l.

End Spec.

(** ** Calls on the service and the states they reach *)

Inductive call : Type :=
| Add (ticket : Ticket.t)
| Update (ticket : Ticket.t)
| Remove (ticket_id : Z)
| Search (query : string) (limit : Z) (filters : filters_t)
| Similar (ticket : Ticket.t) (limit : Z)
| Stats
| Reset.

(** The state a call leaves. *)
Definition step (self : service) (c : call) : service :=
  match c with
  | Add ticket => snd (add_ticket self ticket)
  | Update ticket => snd (update_ticket self ticket)
  | Remove ticket_id => snd (remove_ticket self ticket_id)
  | Search query limit filters => snd (search_tickets self query limit filters)
  | Similar ticket limit => snd (get_similar_tickets self ticket limit)
  | Stats => snd (get_collection_stats self)
  | Reset => snd (reset_collection self)
  end.

Definition run (self : service) (calls : list call) : service :=
  fold_left step calls self.

(** The states of a service object that was built by [__init__] and then
    only used through its methods. *)
Definition reachable (self : service) : Prop :=
  exists calls, self = run init calls.

(** What every reachable state satisfies: a key occurs once, and a store
    that was never initialized is empty. *)
Definition wf (self : service) : Prop :=
  NoDup (dict_keys (tickets_store self))
  /\ (_initialized self = false -> tickets_store self = []).

(** A call that indexes [ticket_id] again. *)
Definition reindexes (ticket_id : Z) (c : call) : bool :=
  match c with
  | Add ticket | Update ticket => (Ticket.id ticket =? ticket_id)%Z
  | _ => false
  end.

(** ** Sample tickets *)

Module Examples.

Definition ticket1 : Ticket.t :=
  {| Ticket.id := 1;
     Ticket.title := "Server performance issue";
     Ticket.description := "Users report slow response times";
     Ticket.priority := HIGH;
     Ticket.category := PERFORMANCE;
     Ticket.assignee := None;
     Ticket.reporter := "alice";
     Ticket.tags := Some ["server"; "performance"];
     Ticket.status := OPEN;
     Ticket.created_at := {| isoformat := "2024-01-15T09:30:00" |};
     Ticket.updated_at := None;
     Ticket.resolved_at := None;
     Ticket.resolution_notes := None |}.

Definition ticket2 : Ticket.t :=
  {| Ticket.id := 2;
     Ticket.title := "Server down";
     Ticket.description := "The mail server does not answer";
     Ticket.priority := LOW;
     Ticket.category := NETWORK;
     Ticket.assignee := Some "bob";
     Ticket.reporter := "carol";
     Ticket.tags := None;
     Ticket.status := IN_PROGRESS;
     Ticket.created_at := {| isoformat := "2024-01-16T11:00:00" |};
     Ticket.updated_at := Some {| isoformat := "2024-01-17T08:15:00" |};
     Ticket.resolved_at := None;
     Ticket.resolution_notes := None |}.

(** The service after [add_ticket(ticket1)]. *)
Definition one_ticket : service := run init [Add ticket1].

(** The service after [add_ticket(ticket1)] and [add_ticket(ticket2)]. *)
Definition two_tickets : service := run init [Add ticket1; Add ticket2].

End Examples.

(** ** Calls that write *)

(** [add_ticket] and [update_ticket], the two methods that store a
    document. *)
Definition writes (c : call) : bool :=
  match c with
  | Add _ | Update _ => true
  | _ => false
  end.

(** The pairs [results] holds without the pairs of one id, as the list
    comprehension of [get_similar_tickets] leaves them. *)
Definition without_id (ticket_id : Z) (results : list (Z * F64.float)) : list (Z * F64.float) :=
  filter (fun r => negb (fst r =? ticket_id)%Z) results.

(** Every stored document was built from a ticket with the id it is
    stored under. *)
Definition built_from_tickets (m : store) : Prop :=
  forall k d, In (k, d) m -> exists t, Ticket.id t = k /\ d = make_document t.

(** ** app/models/ticket.py: validators, enum lookup, search request *)

Module PyText.

(** [s.lstrip()], [s.rstrip()] and [s.strip()]: the whitespace at the ends
    is taken off. *)
Fixpoint lstrip (s : string) : string :=
  match s with
  | EmptyString => EmptyString
  | String c s' => if Py.isspace c then lstrip s' else s
  end.

Fixpoint rstrip (s : string) : string :=
  match s with
  | EmptyString => EmptyString
  | String c s' =>
      match rstrip s' with
      | EmptyString => if Py.isspace c then EmptyString else String c EmptyString
      | r => String c r
      end
  end.

Definition strip (s : string) : string := rstrip (lstrip s).

(** [str(n)] for an [int]. *)
Definition str_of_int (n : Z) : string := NilZero.string_of_int (Z.to_int n).

(** The line break of a triple-quoted literal. *)
Definition nl : string := String (ascii_of_nat 10) EmptyString.

End PyText.

(** What a pydantic validator gives: the value it returns, or the
    [ValueError] it raises. *)
Inductive validated : Type :=
| Accepted (v : string)
| ValueError (msg : string).

(** [TicketBase.validate_title]. *)
Definition validate_title (v : string) : validated :=
  if String.eqb v "" || String.eqb (PyText.strip v) ""
  then ValueError "Title cannot be empty"
  else Accepted (PyText.strip v).

(** [TicketBase.validate_description]. *)
Definition validate_description (v : string) : validated :=
  if String.eqb v "" || String.eqb (PyText.strip v) ""
  then ValueError "Description cannot be empty"
  else Accepted (PyText.strip v).

(** [TicketStatus(value)], [TicketPriority(value)], [TicketCategory(value)]:
    the member with that value; [None] stands for the [ValueError] of a
    value no member has. *)
Definition status_of_value (value : string) : option TicketStatus :=
  find (fun m => String.eqb (status_value m) value)
       [OPEN; IN_PROGRESS; PENDING; RESOLVED; CLOSED].

Definition priority_of_value (value : string) : option TicketPriority :=
  find (fun m => String.eqb (priority_value m) value)
       [LOW; MEDIUM; HIGH; CRITICAL].

Definition category_of_value (value : string) : option TicketCategory :=
  find (fun m => String.eqb (category_value m) value)
       [HARDWARE; SOFTWARE; NETWORK; ACCESS; PERFORMANCE; SECURITY; OTHER].

Module SearchRequest.
Record t := {
  query : string;
  status : option (list TicketStatus);
  priority : option (list TicketPriority);
  category : option (list TicketCategory);
  assignee : option string;
  reporter : option string;
  limit : Z;
  use_semantic_search : bool
}.

(** The [Field] constraints of the model: [min_length=1] on the query,
    [ge=1, le=100] on the limit. *)
Definition valid (r : t) : Prop :=
  (1 <= String.length (query r))%nat /\ (1 <= limit r <= 100)%Z.
End SearchRequest.

(** ** app/services/rag_service.py *)

Record SimpleRAGService := {
  rag_initialized : bool
}.

(** [SimpleRAGService.initialize]. *)
Definition rag_initialize (self : SimpleRAGService) : SimpleRAGService :=
  if rag_initialized self then self else {| rag_initialized := true |}.

(** Lines 50-60 of [search_tickets_with_context]: the dict [filters]. *)
Definition build_filters (search_request : SearchRequest.t) : list (string * pyval) :=
  let filters := [] in
  let filters :=
    if truthy_list (SearchRequest.status search_request)
    then filters ++ [("status",
                      PList (map (fun s => PStr (status_value s))
                               (list_or (SearchRequest.status search_request) [])))]
    else filters in
  let filters :=
    if truthy_list (SearchRequest.priority search_request)
    then filters ++ [("priority",
                      PList (map (fun p => PStr (priority_value p))
                               (list_or (SearchRequest.priority search_request) [])))]
    else filters in
  let filters :=
    if truthy_list (SearchRequest.category search_request)
    then filters ++ [("category",
                      PList (map (fun c => PStr (category_value c))
                               (list_or (SearchRequest.category search_request) [])))]
    else filters in
  let filters :=
    if truthy_str (SearchRequest.assignee search_request)
    then filters ++ [("assignee", PStr (str_or (SearchRequest.assignee search_request) ""))]
    else filters in
  let filters :=
    if truthy_str (SearchRequest.reporter search_request)
    then filters ++ [("reporter", PStr (str_or (SearchRequest.reporter search_request) ""))]
    else filters in
  filters.

(** [m[k] = v] on a dict from ids to scores. *)
Fixpoint score_dict_set (k : Z) (v : F64.float) (m : list (Z * F64.float)) : list (Z * F64.float) :=
  match m with
  | [] => [(k, v)]
  | (k', v') :: m' =>
      if (k' =? k)%Z then (k', v) :: m' else (k', v') :: score_dict_set k v m'
  end.

(** [{result[0]: result[1] for result in ticket_results}]. *)
Definition similarity_dict (ticket_results : list (Z * F64.float)) : list (Z * F64.float) :=
  fold_left (fun m result => score_dict_set (fst result) (snd result) m)
            ticket_results [].

(** The dict [search_tickets_with_context] returns. *)
Record search_context := {
  ticket_ids : list Z;
  similarity_scores : list (Z * F64.float);
  search_time_ms : F64.float;
  total_results : Z
}.

(** [search_time] is the time the two readings of the clock give, in
    milliseconds. *)
Definition search_tickets_with_context
    (self : SimpleRAGService) (vector_store : service)
    (search_request : SearchRequest.t) (search_time : F64.float)
    : search_context * SimpleRAGService * service :=
  let self := rag_initialize self in
  if SearchRequest.use_semantic_search search_request then
    let filters := build_filters search_request in
    let '(ticket_results, vector_store) :=
      search_tickets vector_store
        (SearchRequest.query search_request)
        (SearchRequest.limit search_request)
        (Some filters) in
    let ticket_ids := map fst ticket_results in
    let similarity_scores := similarity_dict ticket_results in
    ({| ticket_ids := ticket_ids;
        similarity_scores := similarity_scores;
        search_time_ms := search_time;
        total_results := Z.of_nat (List.length ticket_ids) |},
     self, vector_store)
  else
    ({| ticket_ids := [];
        similarity_scores := [];
        search_time_ms := search_time;
        total_results := Z.of_nat (List.length (@nil Z)) |},
     self, vector_store).

(** *** analyze_ticket_sentiment *)

Definition urgent_keywords : list string :=
  ["urgent"; "critical"; "emergency"; "asap"; "immediately"; "broken";
   "down"; "failed"].
Definition negative_keywords : list string :=
  ["frustrated"; "angry"; "unacceptable"; "terrible"; "awful"; "worst"].
Definition positive_keywords : list string :=
  ["thank"; "appreciate"; "good"; "excellent"; "working"].

(** [sum(1 for word in keywords if word in text)]. *)
Definition count_keywords (keywords : list string) (text : string) : Z :=
  fold_left (fun n word => if Py.contains word text then (n + 1)%Z else n)
            keywords 0%Z.

(** The literal [0.7]. *)
Definition f0_7 : F64.float := S754_finite false 6305039478318694 (-53).

Record sentiment_analysis := {
  analysis : string;
  confidence : F64.float;
  model_used : string;
  sentiment : string;
  urgency : string;
  concerns : list string;
  recommended_action : string
}.

Definition analyze_ticket_sentiment (self : SimpleRAGService) (ticket : Ticket.t)
    : option sentiment_analysis * SimpleRAGService :=
  let self := rag_initialize self in
  let text_to_analyze :=
    Py.lower (Ticket.title ticket ++ " " ++ Ticket.description ticket)%string in
  let urgent_count := count_keywords urgent_keywords text_to_analyze in
  let negative_count := count_keywords negative_keywords text_to_analyze in
  let positive_count := count_keywords positive_keywords text_to_analyze in
  let sentiment :=
    if (negative_count <? positive_count)%Z then "positive"
    else if (0 <? negative_count)%Z || (0 <? urgent_count)%Z then "negative"
    else "neutral" in
  let priority := priority_value (Ticket.priority ticket) in
  let urgency :=
    if String.eqb priority "critical" || (2 <=? urgent_count)%Z then "critical"
    else if String.eqb priority "high" || (1 <=? urgent_count)%Z then "high"
    else if String.eqb priority "medium" then "medium"
    else "low" in
  let concerns := [] in
  let concerns :=
    if (0 <? urgent_count)%Z then concerns ++ ["User indicates urgency"]
    else concerns in
  let concerns :=
    if (0 <? negative_count)%Z then concerns ++ ["User expresses frustration"]
    else concerns in
  let concerns :=
    if existsb (String.eqb priority) ["critical"; "high"]
    then concerns ++ ["High priority issue"]
    else concerns in
  let concerns :=
    match concerns with
    | [] => concerns ++ ["Standard support request"]
    | _ => concerns
    end in
  let action :=
    if String.eqb urgency "critical" then "immediate"
    else if String.eqb urgency "high" then "priority"
    else "standard" in
  let analysis :=
    ("Sentiment: " ++ sentiment ++ PyText.nl
     ++ "Urgency Level: " ++ urgency ++ PyText.nl
     ++ "Key Concerns: " ++ Py.join ", " concerns ++ PyText.nl
     ++ "Recommended Action: " ++ action ++ " response")%string in
  (Some {| analysis := analysis;
           confidence := f0_7;
           model_used := "rule_based_analyzer";
           sentiment := sentiment;
           urgency := urgency;
           concerns := concerns;
           recommended_action := action |},
   self).

(** How pressing a priority or an urgency is: "low", "medium", "high",
    "critical" in rising order. *)
Definition level (name : string) : Z :=
  if String.eqb name "critical" then 3
  else if String.eqb name "high" then 2
  else if String.eqb name "medium" then 1
  else 0.

(** *** generate_ticket_insights *)

(** A dict from enum values to counts, in insertion order. *)
Definition counts : Type := list (string * Z).

(** [m.get(k, 0)]. *)
Fixpoint counts_get (k : string) (m : counts) : Z :=
  match m with
  | [] => 0
  | (k', n) :: m' => if String.eqb k' k then n else counts_get k m'
  end.

(** [m[k] = v]. *)
Fixpoint counts_set (k : string) (v : Z) (m : counts) : counts :=
  match m with
  | [] => [(k, v)]
  | (k', n) :: m' =>
      if String.eqb k' k then (k', v) :: m' else (k', n) :: counts_set k v m'
  end.

(** The three counting loops: [m[k] = m.get(k, 0) + 1] for every key in
    turn. *)
Definition tally (keys : list string) : counts :=
  fold_left (fun m k => counts_set k (counts_get k m + 1)%Z m) keys [].

(** [max(m, key=m.get)] on a dict that is not empty: the first key with
    the greatest count. *)
Fixpoint max_key_from (best : string) (m_all : counts) (keys : list string) : string :=
  match keys with
  | [] => best
  | k :: rest =>
      if (counts_get best m_all <? counts_get k m_all)%Z
      then max_key_from k m_all rest
      else max_key_from best m_all rest
  end.

Definition max_key (m : counts) : option string :=
  match map fst m with
  | [] => None
  | k :: rest => Some (max_key_from k m rest)
  end.

(** [', '.join([f'{key}: {count}' for key, count in m.items()])]. *)
Definition distribution_text (m : counts) : string :=
  Py.join ", "
    (map (fun kc => (fst kc ++ ": " ++ PyText.str_of_int (snd kc))%string) m).

Record insights_statistics := {
  status_distribution : counts;
  priority_distribution : counts;
  category_distribution : counts
}.

Record ticket_insights := {
  insights : string;
  analyzed_tickets : Z;
  sample_size : Z;
  generated_at : string;
  statistics : insights_statistics
}.

(** [now] is the reading of the clock at line 349. *)
Definition generate_ticket_insights
    (self : SimpleRAGService) (tickets : list Ticket.t) (now : datetime)
    : option ticket_insights * SimpleRAGService :=
  let self := rag_initialize self in
  match tickets with
  | [] => (None, self)
  | _ =>
      let total_tickets := Z.of_nat (List.length tickets) in
      let status_counts :=
        tally (map (fun t => status_value (Ticket.status t)) tickets) in
      let priority_counts :=
        tally (map (fun t => priority_value (Ticket.priority t)) tickets) in
      let category_counts :=
        tally (map (fun t => category_value (Ticket.category t)) tickets) in
      match max_key category_counts, max_key priority_counts with
      | Some most_common_category, Some most_common_priority =>
          let insights_text :=
            ("Analysis of " ++ PyText.str_of_int total_tickets ++ " tickets:"
             ++ PyText.nl ++ PyText.nl
             ++ "1. Common Themes:" ++ PyText.nl
             ++ "   - Most common category: " ++ most_common_category ++ " ("
             ++ PyText.str_of_int (counts_get most_common_category category_counts)
             ++ " tickets)" ++ PyText.nl
             ++ "   - Most common priority: " ++ most_common_priority ++ " ("
             ++ PyText.str_of_int (counts_get most_common_priority priority_counts)
             ++ " tickets)" ++ PyText.nl ++ PyText.nl
             ++ "2. Status Distribution:" ++ PyText.nl
             ++ "   " ++ distribution_text status_counts ++ PyText.nl ++ PyText.nl
             ++ "3. Priority Distribution:" ++ PyText.nl
             ++ "   " ++ distribution_text priority_counts ++ PyText.nl ++ PyText.nl
             ++ "4. Category Distribution:" ++ PyText.nl
             ++ "   " ++ distribution_text category_counts ++ PyText.nl ++ PyText.nl
             ++ "5. Recommendations:" ++ PyText.nl
             ++ "   - Focus on " ++ most_common_category
             ++ " issues for process improvement" ++ PyText.nl
             ++ "   - Consider dedicated resources for " ++ most_common_priority
             ++ " priority tickets" ++ PyText.nl
             ++ "   - Monitor trends in ticket volume and resolution times")%string in
          (Some {| insights := insights_text;
                   analyzed_tickets := total_tickets;
                   sample_size := total_tickets;
                   generated_at := isoformat now;
                   statistics :=
                     {| status_distribution := status_counts;
                        priority_distribution := priority_counts;
                        category_distribution := category_counts |} |},
           self)
      | _, _ => (None, self)
      end
  end.

(** ** The callers of [get_similar_tickets] *)

(** [routers/tickets.py], [get_similar_tickets], lines 182-185: the ids
    the route looks up.  [ticket] is what [service.get_ticket(ticket_id)]
    returned. *)
Definition route_similar_ticket_ids
    (vector_store : service) (ticket_id : Z) (ticket : Ticket.t) (limit : Z)
    : list Z * service :=
  let '(similar_results, vector_store) :=
    get_similar_tickets vector_store ticket (limit + 1) in
  let similar_ticket_ids :=
    Py.slice_to limit
      (map fst (filter (fun r => negb (fst r =? ticket_id)%Z) similar_results)) in
  (similar_ticket_ids, vector_store).

(** [ticket_service.py], [get_ticket_with_ai_insights], lines 389-398: the
    value of ["similar_ticket_ids"]. *)
Definition insights_similar_ticket_ids
    (vector_store : service) (ticket : Ticket.t) : list Z * service :=
  let '(similar_tickets_data, vector_store) :=
    get_similar_tickets vector_store ticket 5 in
  let similar_ticket_ids :=
    map fst (filter (fun r => negb (fst r =? Ticket.id ticket)%Z)
               similar_tickets_data) in
  (Py.slice_to 3 similar_ticket_ids, vector_store).

(** The sum of the counts of a distribution. *)
Definition counts_total (m : counts) : Z := fold_right Z.add 0%Z (map snd m).

(** The counting loops from a dict [m] on. *)
Definition tally_from (m : counts) (keys : list string) : counts :=
  fold_left (fun m k => counts_set k (counts_get k m + 1)%Z m) keys m.

(** ** Sample requests *)

Module MoreExamples.

(** A search for "server" among the open and pending tickets reported by
    "alice". *)
Definition request_open : SearchRequest.t :=
  {| SearchRequest.query := "server";
     SearchRequest.status := Some [OPEN; PENDING];
     SearchRequest.priority := None;
     SearchRequest.category := Some [];
     SearchRequest.assignee := Some "";
     SearchRequest.reporter := Some "alice";
     SearchRequest.limit := 10;
     SearchRequest.use_semantic_search := true |}.

Definition rag0 : SimpleRAGService := {| rag_initialized := false |}.

(** A ticket whose text holds keywords of the sentiment rules. *)
Definition ticket3 : Ticket.t :=
  {| Ticket.id := 3;
     Ticket.title := "URGENT: printer broken";
     Ticket.description := "Thank you for the quick help last time";
     Ticket.priority := MEDIUM;
     Ticket.category := HARDWARE;
     Ticket.assignee := None;
     Ticket.reporter := "dave";
     Ticket.tags := Some ["printer"];
     Ticket.status := PENDING;
     Ticket.created_at := {| isoformat := "2024-01-18T10:00:00" |};
     Ticket.updated_at := None;
     Ticket.resolved_at := None;
     Ticket.resolution_notes := None |}.

End MoreExamples.

(** * Properties *)

(** ** Comparison and sign of binary64 values *)

Module F64Facts.
Import F64.

Lemma compare_cont_swap (p q : positive) :
  Pos.compare_cont Eq q p = CompOpp (Pos.compare_cont Eq p q).
Proof. exact (Pos.compare_antisym p q). Qed.

Lemma compare_swap (x y : float) :
  SFcompare y x = option_map CompOpp (SFcompare x y).
Proof.
  destruct x as [sx|sx| |sx mx ex], y as [sy|sy| |sy my ey];
    simpl; try reflexivity;
    try (destruct sx; reflexivity); try (destruct sy; reflexivity);
    try (destruct sx, sy; reflexivity).
  destruct sx, sy; simpl; try reflexivity;
    rewrite (Z.compare_antisym ex ey);
    destruct (ex ?= ey)%Z; simpl; try reflexivity;
    rewrite compare_cont_swap;
    destruct (Pos.compare_cont Eq mx my); reflexivity.
Qed.

Lemma ltb_asym (x y : float) : ltb x y = true -> ltb y x = false.
Proof.
  unfold ltb, SFltb. rewrite (compare_swap x y).
  destruct (SFcompare x y) as [[ | | ]|]; simpl; congruence.
Qed.

Lemma ltb_irrefl (x : float) : ltb x x = false.
Proof.
  destruct (ltb x x) eqn:E; [|reflexivity].
  pose proof (ltb_asym _ _ E). congruence.
Qed.

Lemma ltb_not_nan_r (x y : float) : ltb x y = true -> is_nan y = false.
Proof.
  unfold ltb, SFltb.
  destruct x as [?|?| |? ? ?], y as [?|?| |? ? ?]; simpl; congruence.
Qed.

Lemma compare_defined (x y : float) :
  is_nan x = false -> is_nan y = false -> exists c, SFcompare x y = Some c.
Proof.
  destruct x as [?|?| |? ? ?], y as [?|?| |? ? ?]; simpl;
    intros; try discriminate; eexists; reflexivity.
Qed.

(** On comparable values, [not (a < b)] is [b <= a]. *)
Lemma not_ltb_leb (a b : float) :
  is_nan a = false -> is_nan b = false -> ltb a b = false -> leb b a = true.
Proof.
  intros Ha Hb. unfold ltb, leb, SFltb, SFleb.
  rewrite (compare_swap a b).
  destruct (compare_defined a b Ha Hb) as [c ->].
  destruct c; simpl; congruence.
Qed.

Lemma compare_eq_finite (x : float) (m0 : positive) (e0 : Z) :
  SFcompare x (S754_finite false m0 e0) = Some Eq ->
  x = S754_finite false m0 e0.
Proof.
  destruct x as [s|s| |s m e]; simpl; try discriminate.
  - destruct s; discriminate.
  - destruct s; try discriminate.
    destruct (e ?= e0)%Z eqn:E; try discriminate.
    apply Z.compare_eq in E. subst e. intros H.
    injection H as H. apply Pos.compare_eq in H. subst m. reflexivity.
Qed.

Lemma compare_eq_one (x : float) :
  SFcompare x f1_0 = Some Eq -> x = f1_0.
Proof. apply compare_eq_finite. Qed.

(** [min(score, 1.0)] and [min(1.0, score)] are the same value once
    [score] is comparable. *)
Lemma py_min_one_comm (x : float) :
  is_nan x = false -> py_min x f1_0 = py_min f1_0 x.
Proof.
  intros Hx. unfold py_min, ltb, SFltb.
  rewrite (compare_swap x f1_0).
  destruct (compare_defined x f1_0 Hx eq_refl) as [c Hc]. rewrite Hc.
  destruct c; simpl; try reflexivity.
  apply compare_eq_one. exact Hc.
Qed.

(** The clamp keeps a positive score positive and puts it at most at
    1.0. *)
Lemma py_min_one_bounds (x : float) :
  ltb f0_0 x = true ->
  ltb f0_0 (py_min x f1_0) = true /\ leb (py_min x f1_0) f1_0 = true.
Proof.
  intros Hpos. unfold py_min.
  destruct (ltb f1_0 x) eqn:E.
  - split; reflexivity.
  - split; [exact Hpos|].
    apply not_ltb_leb; [reflexivity | | exact E].
    exact (ltb_not_nan_r _ _ Hpos).
Qed.

(** The literals of the source are the correctly rounded decimals. *)
Lemma literals :
  f1_0 = of_int 1 /\ f2_0 = of_int 2 /\ f3_0 = of_int 3
  /\ f0_5 = div (of_int 1) (of_int 2)
  /\ f0_3 = div (of_int 3) (of_int 10).
Proof. vm_compute. repeat split. Qed.

Lemma leb_trans (a b c : float) :
  leb a b = true -> leb b c = true -> leb a c = true.
Proof.
  unfold leb, SFleb.
  destruct a as [sa|sa| |sa ma ea], b as [sb|sb| |sb mb eb],
           c as [sc|sc| |sc mc ec];
    simpl; try discriminate;
    try (destruct sa; simpl; try discriminate; try reflexivity);
    try (destruct sb; simpl; try discriminate; try reflexivity);
    try (destruct sc; simpl; try discriminate; try reflexivity);
    try (intros; assumption).
  all: change (Pos.compare_cont Eq ma mb) with (Pos.compare ma mb);
    change (Pos.compare_cont Eq mb mc) with (Pos.compare mb mc);
    change (Pos.compare_cont Eq ma mc) with (Pos.compare ma mc).
  all: destruct (Z.compare_spec ea eb), (Z.compare_spec eb ec),
         (Z.compare_spec ea ec);
    try lia;
    destruct (Pos.compare_spec ma mb), (Pos.compare_spec mb mc),
      (Pos.compare_spec ma mc);
    simpl; intros; try reflexivity; try discriminate; lia.
Qed.

(** *** Signs *)

Lemma sign_clear_round_aux (m e : Z) (l : location) :
  sign_clear (binary_round_aux prec emax false m e l).
Proof.
  unfold binary_round_aux.
  destruct (shr_fexp prec emax m e l) as [mrs' e'].
  destruct (shr_fexp prec emax _ e' loc_Exact) as [mrs'' e''].
  destruct (shr_m mrs''); [reflexivity | | exact I].
  match goal with
  | |- context [if ?b then _ else _] => destruct b
  end; reflexivity.
Qed.

Lemma sign_clear_round (m : positive) (e : Z) :
  sign_clear (binary_round prec emax false m e).
Proof.
  unfold binary_round.
  destruct (shl_align m e _) as [mz ez]. apply sign_clear_round_aux.
Qed.

Lemma sign_clear_of_int (n : Z) : (0 <= n)%Z -> sign_clear (of_int n).
Proof.
  intros Hn. unfold of_int, binary_normalize.
  destruct n as [|p|p]; simpl; auto.
  - apply sign_clear_round.
  - lia.
Qed.

Lemma sign_clear_add (x y : float) :
  sign_clear x -> sign_clear y -> sign_clear (add x y).
Proof.
  destruct x as [sx|sx| |sx mx ex], y as [sy|sy| |sy my ey];
    simpl; intros Hx Hy; subst; simpl; auto.
  unfold add, SFadd. simpl. apply sign_clear_round.
Qed.

Lemma sign_clear_mul (x y : float) :
  sign_clear x -> sign_clear y -> sign_clear (mul x y).
Proof.
  destruct x as [sx|sx| |sx mx ex], y as [sy|sy| |sy my ey];
    simpl; intros Hx Hy; subst; simpl; auto.
  apply sign_clear_round_aux.
Qed.

Lemma sign_clear_div (x y : float) :
  sign_clear x -> sign_clear y -> sign_clear (div x y).
Proof.
  destruct x as [sx|sx| |sx mx ex], y as [sy|sy| |sy my ey];
    simpl; intros Hx Hy; subst; simpl; auto.
  unfold div, SFdiv.
  destruct (SFdiv_core_binary prec emax (Z.pos mx) ex (Z.pos my) ey) as [[mz ez] lz].
  apply sign_clear_round_aux.
Qed.

(** Adding the literal [0.0] changes nothing but the negative zero. *)
Lemma add_zero_r (x : float) : sign_clear x -> add x f0_0 = x.
Proof.
  destruct x as [sx|sx| |sx mx ex]; simpl; intros Hx; subst; reflexivity.
Qed.

End F64Facts.

(** ** Strings *)

Module PyFacts.
Import Py.

Lemma prefix_empty (s : string) : prefix "" s = true.
Proof. destruct s; reflexivity. Qed.

(** The empty string occurs in every string. *)
Lemma contains_empty (s : string) : contains "" s = true.
Proof. destruct s; reflexivity. Qed.

Lemma prefix_app_l (p q s : string) :
  prefix (p ++ q) s = true -> prefix p s = true.
Proof.
  revert s. induction p as [|c p IH]; intros s H.
  - apply prefix_empty.
  - destruct s as [|c' s]; simpl in *; [discriminate|].
    destruct (ascii_dec c c'); [auto | discriminate].
Qed.

(** Where a string occurs, its prefixes occur. *)
Lemma contains_app_l (p q s : string) :
  contains (p ++ q) s = true -> contains p s = true.
Proof.
  induction s as [|c s IH]; cbn [contains]; intros H.
  - rewrite orb_false_r in *. eapply prefix_app_l; eassumption.
  - apply orb_true_iff in H. apply orb_true_iff. destruct H as [H|H].
    + left. eapply (prefix_app_l p q (String c s)). exact H.
    + right. auto.
Qed.

Lemma prefix_lower (p s : string) :
  prefix p s = true -> prefix (Py.lower p) (Py.lower s) = true.
Proof.
  revert s. induction p as [|c p IH]; intros s H; [apply prefix_empty|].
  destruct s as [|c' s]; simpl in *; [discriminate|].
  destruct (ascii_dec c c') as [->|]; [|discriminate].
  destruct (ascii_dec (lower_char c') (lower_char c')); [auto | congruence].
Qed.

(** Lower-casing both strings keeps an occurrence. *)
Lemma contains_lower (p s : string) :
  contains p s = true -> contains (Py.lower p) (Py.lower s) = true.
Proof.
  induction s as [|c s IH]; cbn [contains Py.lower]; intros H.
  - rewrite orb_false_r in *. apply (prefix_lower p EmptyString). exact H.
  - apply orb_true_iff in H. apply orb_true_iff. destruct H as [H|H].
    + left. apply (prefix_lower p (String c s)). exact H.
    + right. auto.
Qed.

Lemma isspace_lower_char (c : ascii) : isspace (lower_char c) = isspace c.
Proof.
  destruct c as [[] [] [] [] [] [] [] []]; vm_compute; reflexivity.
Qed.

Lemma lower_app (s t : string) : lower (s ++ t) = (lower s ++ lower t)%string.
Proof. induction s as [|c s IH]; simpl; [reflexivity | rewrite IH; reflexivity]. Qed.

Lemma split_from_lower (s cur : string) :
  split_from (lower cur) (lower s) = map lower (split_from cur s).
Proof.
  revert cur. induction s as [|c s IH]; intros cur; simpl.
  - destruct cur; reflexivity.
  - rewrite isspace_lower_char. destruct (isspace c).
    + destruct cur; simpl; [apply (IH EmptyString) | f_equal; apply (IH EmptyString)].
    + rewrite <- IH. rewrite lower_app. reflexivity.
Qed.

(** Lower-casing a string lower-cases its tokens and keeps their
    number. *)
Lemma split_lower (s : string) : split (lower s) = map lower (split s).
Proof. exact (split_from_lower s EmptyString). Qed.

Lemma split_lower_nonempty (s : string) :
  split s <> [] -> split (lower s) <> [].
Proof.
  rewrite split_lower. destruct (split s); [congruence | discriminate].
Qed.

(** *** Slices *)

Lemma slice_to_prefix {A : Type} (n : Z) (l : list A) :
  exists k, slice_to n l = firstn k l.
Proof. unfold slice_to. destruct (0 <=? n)%Z; eexists; reflexivity. Qed.

Lemma In_firstn {A : Type} (k : nat) (l : list A) (x : A) :
  In x (firstn k l) -> In x l.
Proof.
  revert l. induction k as [|k IH]; intros [|y l]; simpl; try tauto.
  intros [H|H]; auto.
Qed.

Lemma In_slice_to {A : Type} (n : Z) (l : list A) (x : A) :
  In x (slice_to n l) -> In x l.
Proof.
  destruct (slice_to_prefix n l) as [k ->]. apply In_firstn.
Qed.

Lemma length_slice_to_nonneg {A : Type} (n : Z) (l : list A) :
  (0 <= n)%Z ->
  Z.of_nat (List.length (slice_to n l)) = Z.min n (Z.of_nat (List.length l)).
Proof.
  intros Hn. unfold slice_to.
  destruct (0 <=? n)%Z eqn:E; [|apply Z.leb_gt in E; lia].
  rewrite length_firstn. lia.
Qed.

Lemma length_slice_to_le {A : Type} (n : Z) (l : list A) :
  (List.length (slice_to n l) <= List.length l)%nat.
Proof.
  destruct (slice_to_prefix n l) as [k ->]. rewrite length_firstn. lia.
Qed.

(** A slice never gets longer when the list it is taken from gets
    shorter. *)
Lemma length_slice_to_mono {A B : Type} (n : Z) (l : list A) (l' : list B) :
  (List.length l <= List.length l')%nat ->
  (List.length (slice_to n l) <= List.length (slice_to n l'))%nat.
Proof.
  intros H. unfold slice_to.
  destruct (0 <=? n)%Z; rewrite !length_firstn; lia.
Qed.

Lemma slice_to_all {A : Type} (n : Z) (l : list A) :
  (Z.of_nat (List.length l) <= n)%Z -> slice_to n l = l.
Proof.
  intros H. unfold slice_to.
  destruct (0 <=? n)%Z eqn:E; [|apply Z.leb_gt in E; lia].
  apply firstn_all2. lia.
Qed.

End PyFacts.

(** ** The scan, the sort and the slice *)

Module RankFacts.
Import F64 F64Facts.

(** *** The filter loop *)

Lemma filter_loop_false (d : Doc.t) (items : list (string * pyval)) :
  filter_loop d items = false ->
  forall kv, In kv items -> Spec.satisfies d kv.
Proof.
  induction items as [|[key value] rest IH]; simpl; intros H kv Hin.
  - contradiction.
  - destruct Hin as [<-|Hin].
    + unfold Spec.satisfies; simpl.
      destruct value as [ |b|n|s|l]; try exact I;
        try (unfold py_ne in H;
             destruct (py_eq (Doc.get d key) _); simpl in H;
             [reflexivity | discriminate]).
      destruct (py_in (Doc.get d key) l); simpl in H;
        [reflexivity | discriminate].
    + apply IH; [|exact Hin].
      destruct value as [ |b|n|s|l]; try exact H;
        try (destruct (py_ne (Doc.get d key) _); [discriminate | exact H]).
      destruct (negb (py_in (Doc.get d key) l)); [discriminate | exact H].
Qed.

Lemma filter_loop_true (d : Doc.t) (items : list (string * pyval)) :
  (exists kv, In kv items /\ ~ Spec.satisfies d kv) ->
  filter_loop d items = true.
Proof.
  intros [kv [Hin Hno]].
  destruct (filter_loop d items) eqn:E; [reflexivity|].
  exfalso. apply Hno. eapply filter_loop_false; eassumption.
Qed.

Lemma skip_ticket_false (filters : filters_t) (d : Doc.t) :
  skip_ticket filters d = false -> Spec.satisfies_all filters d.
Proof.
  destruct filters as [[|kv items]|]; simpl; intros H; try exact I.
  - intros ? [].
  - apply (filter_loop_false d (kv :: items)). exact H.
Qed.

Lemma skip_ticket_none (d : Doc.t) : skip_ticket None d = false.
Proof. reflexivity. Qed.

(** *** The scan *)

Lemma In_scan (ql : string) (ts : list string) (filters : filters_t)
    (items : store) (i : Z) (s : float) :
  In (i, s) (scan ql ts filters items) <->
  exists d, In (i, d) items
            /\ skip_ticket filters d = false
            /\ ltb f0_0 (raw_score ql ts d) = true
            /\ s = py_min (raw_score ql ts d) f1_0.
Proof.
  induction items as [|[k d0] rest IH]; simpl.
  - split; [contradiction | intros [d [[] _]]].
  - destruct (skip_ticket filters d0) eqn:Hskip;
      [|destruct (ltb f0_0 (raw_score ql ts d0)) eqn:Hpos]; simpl;
      rewrite ?IH; split.
    + intros [d [Hin Hrest]]. exists d. auto.
    + intros [d [[Heq|Hin] [H1 Hrest]]].
      * inversion Heq; subst. congruence.
      * exists d. auto.
    + intros [Heq|[d [Hin Hrest]]].
      * inversion Heq; subst. exists d0. auto.
      * exists d. auto.
    + intros [d [[Heq|Hin] [H1 [H2 H3]]]].
      * inversion Heq; subst. left. reflexivity.
      * right. exists d. auto.
    + intros [d [Hin Hrest]]. exists d. auto.
    + intros [d [[Heq|Hin] [H1 [H2 H3]]]].
      * inversion Heq; subst. congruence.
      * exists d. auto.
Qed.

Lemma scan_ids (ql : string) (ts : list string) (filters : filters_t)
    (items : store) (i : Z) :
  In i (map fst (scan ql ts filters items)) -> In i (dict_keys items).
Proof.
  intros H. apply in_map_iff in H. destruct H as [[i' s] [Heq Hin]].
  simpl in Heq. subst i'. apply In_scan in Hin.
  destruct Hin as [d [Hin _]].
  apply in_map_iff. exists (i, d). auto.
Qed.

(** With filters the scan appends a part of what it appends without. *)
Lemma scan_filters_incl (ql : string) (ts : list string) (filters : filters_t)
    (items : store) :
  incl (scan ql ts filters items) (scan ql ts None items).
Proof.
  intros [i s] H. apply In_scan in H. apply In_scan.
  destruct H as [d [H1 [_ H3]]]. exists d. auto.
Qed.

Lemma scan_filters_length (ql : string) (ts : list string) (filters : filters_t)
    (items : store) :
  (List.length (scan ql ts filters items)
   <= List.length (scan ql ts None items))%nat.
Proof.
  induction items as [|[k d0] rest IH]; simpl; [lia|].
  destruct (skip_ticket filters d0);
    destruct (ltb f0_0 (raw_score ql ts d0)); simpl; lia.
Qed.

Lemma scan_length (ql : string) (ts : list string) (filters : filters_t)
    (items : store) :
  (List.length (scan ql ts filters items) <= List.length items)%nat.
Proof.
  induction items as [|[k d0] rest IH]; simpl; [lia|].
  destruct (skip_ticket filters d0);
    [|destruct (ltb f0_0 (raw_score ql ts d0))]; simpl; lia.
Qed.

(** *** The sort *)

Lemma insert_desc_perm (x : Z * float) (l : list (Z * float)) :
  Permutation (x :: l) (insert_desc x l).
Proof.
  induction l as [|y l IH]; simpl; [apply Permutation_refl|].
  destruct (ltb (snd x) (snd y)); [|apply Permutation_refl].
  eapply perm_trans; [apply perm_swap|]. apply perm_skip. exact IH.
Qed.

Lemma sort_desc_perm (l : list (Z * float)) : Permutation l (sort_desc l).
Proof.
  induction l as [|x l IH]; simpl; [apply perm_nil|].
  eapply perm_trans; [apply perm_skip; exact IH | apply insert_desc_perm].
Qed.

Lemma In_sort_desc (l : list (Z * float)) (x : Z * float) :
  In x (sort_desc l) <-> In x l.
Proof.
  split; apply Permutation_in;
    [apply Permutation_sym|]; apply sort_desc_perm.
Qed.

Lemma length_sort_desc (l : list (Z * float)) :
  List.length (sort_desc l) = List.length l.
Proof. symmetry. apply Permutation_length, sort_desc_perm. Qed.

Lemma insert_desc_hd (R : Z * float -> Z * float -> Prop)
    (a x : Z * float) (l : list (Z * float)) :
  R a x -> HdRel R a l -> HdRel R a (insert_desc x l).
Proof.
  intros Hax Hal. destruct l as [|y l]; simpl.
  - constructor. exact Hax.
  - destruct (ltb (snd x) (snd y)); constructor;
      [inversion Hal; assumption | exact Hax].
Qed.

Lemma insert_desc_sorted (x : Z * float) (l : list (Z * float)) :
  Sorted Spec.not_lt l -> Sorted Spec.not_lt (insert_desc x l).
Proof.
  induction l as [|y l IH]; simpl; intros Hs.
  - repeat constructor.
  - inversion Hs as [|? ? Hl Hy]; subst.
    destruct (ltb (snd x) (snd y)) eqn:E.
    + constructor; [apply IH; exact Hl|].
      apply insert_desc_hd; [|exact Hy].
      unfold Spec.not_lt. apply ltb_asym. exact E.
    + constructor; [exact Hs|]. constructor. exact E.
Qed.

Lemma sort_desc_sorted (l : list (Z * float)) : Sorted Spec.not_lt (sort_desc l).
Proof.
  induction l as [|x l IH]; simpl; [constructor|].
  apply insert_desc_sorted. exact IH.
Qed.

(** Between comparable scores, [not_lt] is the order of the claim. *)
Lemma sorted_not_lt_ge (l : list (Z * float)) :
  Forall (fun p => is_nan (snd p) = false) l ->
  Sorted Spec.not_lt l -> Spec.non_increasing l.
Proof.
  intros Hall Hs. induction Hs as [|a l Hl IH Ha]; [constructor|].
  inversion Hall as [|? ? Hna Hnl]; subst.
  constructor; [apply IH; exact Hnl|].
  destruct Ha as [|b l' Hab]; constructor.
  inversion Hnl; subst.
  apply not_ltb_leb; assumption.
Qed.

Lemma sorted_firstn (R : Z * float -> Z * float -> Prop) (k : nat)
    (l : list (Z * float)) :
  Sorted R l -> Sorted R (firstn k l).
Proof.
  revert l. induction k as [|k IH]; intros l Hs; simpl; [constructor|].
  destruct Hs as [|a l Hl Ha]; [constructor|].
  constructor; [apply IH; exact Hl|].
  destruct Ha as [|b l' Hab]; [destruct k; constructor|].
  destruct k; simpl; constructor. exact Hab.
Qed.

(** Equal scores keep the order they had: the pairs whose score equals
    a given one come out of the sort as they went in. *)
Lemma same_score_not_lt (c x y : float) :
  SFeqb x c = true -> SFeqb y c = true -> ltb x y = false.
Proof.
  unfold SFeqb. intros Hx Hy.
  assert (Hyc : leb y c = true).
  { unfold leb, SFleb. destruct (SFcompare y c) as [[ | | ]|]; congruence. }
  assert (Hcx : leb c x = true).
  { unfold leb, SFleb. rewrite (compare_swap x c).
    destruct (SFcompare x c) as [[ | | ]|]; simpl; congruence. }
  pose proof (leb_trans _ _ _ Hyc Hcx) as Hyx.
  unfold leb, SFleb in Hyx. unfold ltb, SFltb. rewrite (compare_swap y x).
  destruct (SFcompare y x) as [[ | | ]|]; simpl; congruence.
Qed.

Lemma insert_desc_filter (P : Z * float -> bool) (x : Z * float)
    (l : list (Z * float)) :
  (forall y, P x = true -> P y = true -> ltb (snd x) (snd y) = false) ->
  filter P (insert_desc x l) = filter P (x :: l).
Proof.
  intros HP. induction l as [|y l IH]; [reflexivity|].
  cbn [insert_desc]. destruct (ltb (snd x) (snd y)) eqn:E; [|reflexivity].
  cbn [filter] in *. rewrite IH.
  destruct (P x) eqn:Ex, (P y) eqn:Ey; try reflexivity.
  rewrite (HP y eq_refl Ey) in E. discriminate.
Qed.

Lemma insert_desc_stable (c : float) (x : Z * float) (l : list (Z * float)) :
  filter (fun p => SFeqb (snd p) c) (insert_desc x l)
  = filter (fun p => SFeqb (snd p) c) (x :: l).
Proof.
  apply insert_desc_filter. intros y Hx Hy.
  exact (same_score_not_lt c _ _ Hx Hy).
Qed.

Lemma sort_desc_stable (c : float) (l : list (Z * float)) :
  filter (fun p => SFeqb (snd p) c) (sort_desc l)
  = filter (fun p => SFeqb (snd p) c) l.
Proof.
  induction l as [|x l IH]; [reflexivity|].
  cbn [sort_desc]. rewrite insert_desc_stable. cbn [filter].
  rewrite IH. reflexivity.
Qed.

(** The order holds between every earlier and every later pair, not only
    between neighbours. *)
Lemma non_increasing_strongly (l : list (Z * float)) :
  Spec.non_increasing l -> StronglySorted Spec.score_ge l.
Proof.
  apply Sorted_StronglySorted.
  intros a b c Hab Hbc. unfold Spec.score_ge in *.
  eapply leb_trans; eassumption.
Qed.

Lemma strongly_sorted_nth (R : Z * float -> Z * float -> Prop)
    (l : list (Z * float)) :
  StronglySorted R l ->
  forall i j a b, (i < j)%nat ->
    nth_error l i = Some a -> nth_error l j = Some b -> R a b.
Proof.
  induction 1 as [|x l Hl IH Hx]; intros i j a b Hij Hi Hj.
  - destruct i; discriminate.
  - destruct j as [|j]; [lia|]. simpl in Hj.
    destruct i as [|i]; simpl in Hi.
    + injection Hi as <-. rewrite Forall_forall in Hx.
      apply Hx. eapply nth_error_In. exact Hj.
    + apply (IH i j); [lia | exact Hi | exact Hj].
Qed.

(** A list whose scores are all the same is left as it is. *)
Lemma sort_desc_constant (c : float) (l : list (Z * float)) :
  Forall (fun p => snd p = c) l -> sort_desc l = l.
Proof.
  induction 1 as [|x l Hx Hl IH]; simpl; [reflexivity|].
  rewrite IH. destruct l as [|y l]; [reflexivity|]. simpl.
  inversion Hl; subst. replace (snd y) with (snd x) by congruence.
  rewrite ltb_irrefl. reflexivity.
Qed.

End RankFacts.

(** ** The loop of the source computes the worded score *)

Module ScoreFacts.
Import F64 F64Facts.

Lemma sign_clear_token_weight (d : Doc.t) (t : string) :
  sign_clear (Spec.token_weight d t).
Proof.
  unfold Spec.token_weight.
  repeat match goal with
         | |- context [if ?b then _ else _] => destruct b
         end; reflexivity.
Qed.

Lemma sign_clear_B (d : Doc.t) (ql : string) : sign_clear (Spec.B d ql).
Proof.
  unfold Spec.B.
  repeat match goal with
         | |- context [if ?b then _ else _] => destruct b
         end; reflexivity.
Qed.

(** A turn of the loop adds the weight of the token; a token found
    nowhere adds nothing, which is adding [0.0]. *)
Lemma term_step_weight (d : Doc.t) (acc : float) (t : string) :
  sign_clear acc -> term_step d acc t = add acc (Spec.token_weight d t).
Proof.
  intros Hacc. unfold term_step, Spec.token_weight.
  repeat match goal with
         | |- context [if ?b then _ else _] => destruct b
         end; try reflexivity.
  symmetry. apply add_zero_r. exact Hacc.
Qed.

Lemma fold_term_step (d : Doc.t) (ts : list string) (acc : float) :
  sign_clear acc ->
  fold_left (term_step d) ts acc
  = fold_left (fun a t => add a (Spec.token_weight d t)) ts acc
  /\ sign_clear (fold_left (term_step d) ts acc).
Proof.
  revert acc. induction ts as [|t ts IH]; intros acc Hacc; simpl.
  - split; [reflexivity | exact Hacc].
  - rewrite (term_step_weight d acc t Hacc).
    apply IH. apply sign_clear_add; [exact Hacc|].
    apply sign_clear_token_weight.
Qed.

Lemma term_loop_S (d : Doc.t) (ts : list string) :
  fold_left (term_step d) ts f0_0 = Spec.S d ts.
Proof. apply (fold_term_step d ts f0_0). reflexivity. Qed.

Lemma sign_clear_S (d : Doc.t) (ts : list string) : sign_clear (Spec.S d ts).
Proof. rewrite <- term_loop_S. apply (fold_term_step d ts f0_0). reflexivity. Qed.

(** With at least one token, [score] before the test at line 167 is
    [S / (n * 3.0) + B]. *)
Lemma raw_score_combined (query : string) (d : Doc.t) :
  Py.split (Py.lower query) <> [] ->
  raw_score (Py.lower query) (Py.split (Py.lower query)) d
  = Spec.combined query d.
Proof.
  intros Hne. unfold raw_score, Spec.combined, Spec.B.
  set (ts := Py.split (Py.lower query)) in *.
  assert (Hn : (0 <? Z.of_nat (List.length ts))%Z = true).
  { apply Z.ltb_lt. destruct ts; [congruence | simpl; lia]. }
  rewrite Hn, term_loop_S.
  destruct (Py.contains (Py.lower query) (Doc.title d)); [reflexivity|].
  destruct (Py.contains (Py.lower query) (Doc.description d)); [reflexivity|].
  symmetry. apply add_zero_r.
  apply sign_clear_div; [apply sign_clear_S|].
  apply sign_clear_mul; [|reflexivity].
  apply sign_clear_of_int. lia.
Qed.

(** With no token the term loop is skipped. *)
Lemma raw_score_no_terms (ql : string) (d : Doc.t) :
  raw_score ql [] d
  = if Py.contains ql (Doc.title d) then add f0_0 f0_5
    else if Py.contains ql (Doc.description d) then add f0_0 f0_3
    else f0_0.
Proof. reflexivity. Qed.

Lemma clamp_spec (x : float) :
  ltb f0_0 x = true -> py_min x f1_0 = py_min f1_0 x.
Proof. intros H. apply py_min_one_comm. exact (ltb_not_nan_r _ _ H). Qed.

End ScoreFacts.

(** ** The store and the states of the service *)

Module StoreFacts.

Lemma initialize_initialized (self : service) :
  _initialized (initialize self) = true.
Proof. unfold initialize. destruct (_initialized self) eqn:E; [exact E | reflexivity]. Qed.

Lemma initialize_idem (self : service) :
  initialize (initialize self) = initialize self.
Proof.
  unfold initialize at 1. rewrite initialize_initialized. reflexivity.
Qed.

(** On a well-formed state [initialize] leaves the mapping as it is. *)
Lemma initialize_store (self : service) :
  wf self -> tickets_store (initialize self) = tickets_store self.
Proof.
  intros [_ H]. unfold initialize.
  destruct (_initialized self); [reflexivity|].
  simpl. symmetry. apply H. reflexivity.
Qed.

Lemma initialize_keys (self : service) (k : Z) :
  In k (dict_keys (tickets_store (initialize self))) ->
  In k (dict_keys (tickets_store self)).
Proof.
  unfold initialize. destruct (_initialized self); simpl; tauto.
Qed.

Lemma dict_mem_In (k : Z) (m : store) :
  dict_mem k m = true <-> In k (dict_keys m).
Proof.
  unfold dict_mem, dict_keys. rewrite existsb_exists, in_map_iff.
  split; intros [kv [H1 H2]]; exists kv.
  - apply Z.eqb_eq in H2. auto.
  - split; [exact H2 | apply Z.eqb_eq; exact H1].
Qed.

Lemma dict_set_keys (k : Z) (v : Doc.t) (m : store) :
  dict_keys (dict_set k v m)
  = if dict_mem k m then dict_keys m else dict_keys m ++ [k].
Proof.
  induction m as [|[k' v'] m IH]; simpl; [reflexivity|].
  destruct (k' =? k)%Z eqn:E; simpl; [reflexivity|].
  rewrite IH. destruct (dict_mem k m); reflexivity.
Qed.

Lemma dict_set_In_keys (k k0 : Z) (v : Doc.t) (m : store) :
  In k0 (dict_keys (dict_set k v m)) <-> k0 = k \/ In k0 (dict_keys m).
Proof.
  rewrite dict_set_keys. destruct (dict_mem k m) eqn:E.
  - apply dict_mem_In in E. split; [auto | intros [->|H]; auto].
  - rewrite in_app_iff. simpl. split; intros H; intuition auto.
Qed.

Lemma dict_set_NoDup (k : Z) (v : Doc.t) (m : store) :
  NoDup (dict_keys m) -> NoDup (dict_keys (dict_set k v m)).
Proof.
  intros H. rewrite dict_set_keys. destruct (dict_mem k m) eqn:E; [exact H|].
  assert (Hk : ~ In k (dict_keys m)).
  { intros Hin. apply dict_mem_In in Hin. congruence. }
  apply NoDup_rev in H. rewrite <- (rev_involutive (dict_keys m ++ [k])).
  apply NoDup_rev. rewrite rev_app_distr. simpl.
  constructor; [|exact H]. rewrite <- in_rev. exact Hk.
Qed.

Lemma dict_get_set_eq (k : Z) (v : Doc.t) (m : store) :
  dict_get k (dict_set k v m) = Some v.
Proof.
  induction m as [|[k' v'] m IH]; simpl.
  - rewrite Z.eqb_refl. reflexivity.
  - destruct (k' =? k)%Z eqn:E; simpl; rewrite E; [reflexivity | exact IH].
Qed.

Lemma dict_get_set_ne (k k0 : Z) (v : Doc.t) (m : store) :
  k0 <> k -> dict_get k0 (dict_set k v m) = dict_get k0 m.
Proof.
  intros Hne. induction m as [|[k' v'] m IH]; simpl.
  - destruct (k =? k0)%Z eqn:E; [apply Z.eqb_eq in E; congruence | reflexivity].
  - destruct (k' =? k)%Z eqn:E; simpl.
    + apply Z.eqb_eq in E. subst k'.
      destruct (k =? k0)%Z eqn:E'; [apply Z.eqb_eq in E'; congruence | reflexivity].
    + destruct (k' =? k0)%Z; [reflexivity | exact IH].
Qed.

Lemma dict_set_idem (k : Z) (v : Doc.t) (m : store) :
  dict_set k v (dict_set k v m) = dict_set k v m.
Proof.
  induction m as [|[k' v'] m IH]; simpl.
  - rewrite Z.eqb_refl. reflexivity.
  - destruct (k' =? k)%Z eqn:E; simpl; rewrite E; [reflexivity|].
    rewrite IH. reflexivity.
Qed.

Lemma dict_del_keys (k k0 : Z) (m : store) :
  In k0 (dict_keys (dict_del k m)) <-> k0 <> k /\ In k0 (dict_keys m).
Proof.
  unfold dict_keys, dict_del. rewrite !in_map_iff. split.
  - intros [kv [H1 H2]]. apply filter_In in H2. destruct H2 as [H2 H3].
    apply negb_true_iff, Z.eqb_neq in H3. subst k0. split; [exact H3|].
    exists kv. auto.
  - intros [Hne [kv [H1 H2]]]. exists kv. split; [exact H1|].
    apply filter_In. split; [exact H2|].
    apply negb_true_iff, Z.eqb_neq. congruence.
Qed.

Lemma dict_del_NoDup (k : Z) (m : store) :
  NoDup (dict_keys m) -> NoDup (dict_keys (dict_del k m)).
Proof.
  unfold dict_keys, dict_del.
  induction m as [|[k' v'] m IH]; simpl; intros H; [constructor|].
  inversion H as [|? ? Hk' Hm]; subst.
  destruct (k' =? k)%Z; simpl; [apply IH; exact Hm|].
  constructor; [|apply IH; exact Hm].
  intros Hin. apply Hk'. apply (dict_del_keys k k' m) in Hin. tauto.
Qed.

Lemma dict_get_del_ne (k k0 : Z) (m : store) :
  k0 <> k -> dict_get k0 (dict_del k m) = dict_get k0 m.
Proof.
  intros Hne. unfold dict_del.
  induction m as [|[k' v'] m IH]; simpl; [reflexivity|].
  destruct (k' =? k)%Z eqn:E; simpl.
  - apply Z.eqb_eq in E. subst k'.
    destruct (k =? k0)%Z eqn:E'; [apply Z.eqb_eq in E'; congruence | exact IH].
  - destruct (k' =? k0)%Z; [reflexivity | exact IH].
Qed.

Lemma dict_del_absent (k : Z) (m : store) :
  dict_mem k m = false -> dict_del k m = m.
Proof.
  unfold dict_mem, dict_del.
  induction m as [|[k' v'] m IH]; simpl; [reflexivity|].
  intros H. apply orb_false_iff in H. destruct H as [H1 H2].
  rewrite H1. simpl. rewrite IH; [reflexivity | exact H2].
Qed.

Lemma dict_get_In (k : Z) (v : Doc.t) (m : store) :
  NoDup (dict_keys m) -> In (k, v) m -> dict_get k m = Some v.
Proof.
  induction m as [|[k' v'] m IH]; simpl; intros Hnd Hin; [contradiction|].
  inversion Hnd as [|? ? Hk' Hm]; subst.
  destruct Hin as [Heq|Hin].
  - inversion Heq; subst. rewrite Z.eqb_refl. reflexivity.
  - destruct (k' =? k)%Z eqn:E; [|apply IH; assumption].
    apply Z.eqb_eq in E. subst k'. exfalso. apply Hk'.
    apply in_map_iff. exists (k, v). auto.
Qed.

(** *** Every call keeps the state well formed *)

Lemma wf_init : wf init.
Proof. split; [constructor | reflexivity]. Qed.

Lemma wf_initialize (self : service) : wf self -> wf (initialize self).
Proof.
  intros H. split.
  - rewrite initialize_store by exact H. apply H.
  - rewrite initialize_initialized. discriminate.
Qed.

Lemma search_tickets_state (self : service) (query : string) (limit : Z)
    (filters : filters_t) :
  snd (search_tickets self query limit filters) = initialize self.
Proof. reflexivity. Qed.

Lemma get_similar_tickets_state (self : service) (ticket : Ticket.t) (limit : Z) :
  snd (get_similar_tickets self ticket limit) = initialize self.
Proof. reflexivity. Qed.

Lemma wf_step (self : service) (c : call) : wf self -> wf (step self c).
Proof.
  intros H. pose proof (wf_initialize self H) as Hi.
  destruct c as [t|t|rid|q l f|t l| | ]; simpl; try exact Hi.
  - split; simpl.
    + apply dict_set_NoDup. apply Hi.
    + rewrite initialize_initialized. discriminate.
  - rewrite ?initialize_idem. split; simpl.
    + apply dict_set_NoDup. apply Hi.
    + rewrite initialize_initialized. discriminate.
  - destruct (dict_mem rid (tickets_store (initialize self))); [|exact Hi].
    split; simpl.
    + apply dict_del_NoDup. apply Hi.
    + rewrite initialize_initialized. discriminate.
  - split; simpl; [constructor | reflexivity].
Qed.

Lemma wf_run (calls : list call) (self : service) :
  wf self -> wf (run self calls).
Proof.
  revert self. induction calls as [|c calls IH]; intros self H; simpl;
    [exact H | apply IH, wf_step, H].
Qed.

Lemma reachable_wf (self : service) : reachable self -> wf self.
Proof. intros [calls ->]. apply wf_run, wf_init. Qed.

Lemma reachable_step (self : service) (c : call) :
  reachable self -> reachable (step self c).
Proof.
  intros [calls ->]. exists (calls ++ [c]).
  unfold run. rewrite fold_left_app. reflexivity.
Qed.

End StoreFacts.

(** ** What a search returns *)

Module SearchFacts.
Import F64 F64Facts RankFacts StoreFacts.

Lemma fst_search_tickets (self : service) (query : string) (limit : Z)
    (filters : filters_t) :
  fst (search_tickets self query limit filters)
  = Py.slice_to limit (ranked (initialize self) query filters).
Proof. reflexivity. Qed.

Lemma In_ranked (self : service) (query : string) (filters : filters_t)
    (i : Z) (s : float) :
  In (i, s) (ranked self query filters) <->
  exists d, In (i, d) (tickets_store self)
            /\ skip_ticket filters d = false
            /\ ltb f0_0 (raw_score (Py.lower query) (Py.split (Py.lower query)) d) = true
            /\ s = py_min (raw_score (Py.lower query) (Py.split (Py.lower query)) d) f1_0.
Proof. unfold ranked. rewrite In_sort_desc. apply In_scan. Qed.

Lemma In_search_ranked (self : service) (query : string) (limit : Z)
    (filters : filters_t) (x : Z * float) :
  In x (fst (search_tickets self query limit filters)) ->
  In x (ranked (initialize self) query filters).
Proof. rewrite fst_search_tickets. apply PyFacts.In_slice_to. Qed.

Lemma length_ranked (self : service) (query : string) (filters : filters_t) :
  (List.length (ranked self query filters)
   <= List.length (tickets_store self))%nat.
Proof. unfold ranked. rewrite length_sort_desc. apply scan_length. Qed.

(** The ids a search returns are keys of the store. *)
Lemma search_ids (self : service) (query : string) (limit : Z)
    (filters : filters_t) (i : Z) :
  In i (map fst (fst (search_tickets self query limit filters))) ->
  In i (dict_keys (tickets_store self)).
Proof.
  intros H. apply in_map_iff in H. destruct H as [[i' s] [Heq Hin]].
  simpl in Heq. subst i'. apply In_search_ranked, In_ranked in Hin.
  destruct Hin as [d [Hin _]]. apply initialize_keys.
  apply in_map_iff. exists (i, d). auto.
Qed.

Lemma ranked_not_nan (self : service) (query : string) (filters : filters_t) :
  Forall (fun p => is_nan (snd p) = false) (ranked self query filters).
Proof.
  apply Forall_forall. intros [i s] H. apply In_ranked in H.
  destruct H as [d [_ [_ [Hpos ->]]]]. simpl.
  destruct (py_min_one_bounds _ Hpos) as [H _].
  exact (ltb_not_nan_r _ _ H).
Qed.

Lemma ranked_non_increasing (self : service) (query : string)
    (filters : filters_t) :
  Spec.non_increasing (ranked self query filters).
Proof.
  apply sorted_not_lt_ge; [apply ranked_not_nan|].
  unfold ranked. apply sort_desc_sorted.
Qed.

Lemma is_zero_not_pos (x : float) : is_zero x = true -> ltb f0_0 x = false.
Proof.
  unfold is_zero, SFeqb, ltb, SFltb. rewrite (compare_swap x f0_0).
  destruct (SFcompare x f0_0) as [[ | | ]|]; simpl; congruence.
Qed.

End SearchFacts.

(** ** The statements of the design document *)

Module Claims.
Import F64 F64Facts PyFacts RankFacts ScoreFacts StoreFacts SearchFacts.

(** *** Scoring *)

Lemma slice_singleton {A : Type} (limit : Z) (x : A) :
  (1 <= limit)%Z -> Py.slice_to limit [x] = [x].
Proof. intros H. apply slice_to_all. simpl. lia. Qed.

(** Scenario 1 of the design document, for every ticket with the title
    of the scenario whose description holds "slow response times" and not
    the phrase "server slow". *)
Lemma server_slow_scenario (ticket : Ticket.t) (limit : Z) :
  Ticket.title ticket = "Server performance issue" ->
  Py.contains "slow response times" (Ticket.description ticket) = true ->
  Py.contains "server slow" (Py.lower (Ticket.description ticket)) = false ->
  (1 <= limit)%Z ->
  fst (search_tickets (snd (add_ticket init ticket)) "server slow" limit None)
  = [(Ticket.id ticket, div (of_int 5) (of_int 6))].
Proof.
  intros Htitle Hdesc Hphrase Hlimit.
  apply contains_lower in Hdesc.
  change (Py.lower "slow response times") with "slow response times" in Hdesc.
  rewrite fst_search_tickets. unfold ranked.
  change (tickets_store (initialize (snd (add_ticket init ticket))))
    with [(Ticket.id ticket, make_document ticket)].
  change (Py.lower "server slow") with "server slow".
  change (Py.split "server slow") with ["server"; "slow"].
  assert (Hraw : raw_score "server slow" ["server"; "slow"] (make_document ticket)
                 = div (of_int 5) (of_int 6)).
  { unfold raw_score. cbn [List.length fold_left]. unfold term_step.
    change (Doc.title (make_document ticket)) with (Py.lower (Ticket.title ticket)).
    change (Doc.description (make_document ticket))
      with (Py.lower (Ticket.description ticket)).
    rewrite Htitle.
    change (Py.contains "server" (Py.lower "Server performance issue")) with true.
    change (Py.contains "slow" (Py.lower "Server performance issue")) with false.
    change (Py.contains "server slow" (Py.lower "Server performance issue")) with false.
    rewrite (contains_app_l "slow" " response times" _ Hdesc), Hphrase.
    vm_compute. reflexivity. }
  cbn [scan skip_ticket]. rewrite Hraw.
  replace (ltb f0_0 (div (of_int 5) (of_int 6))) with true
    by (vm_compute; reflexivity).
  replace (py_min (div (of_int 5) (of_int 6)) f1_0) with (div (of_int 5) (of_int 6))
    by (vm_compute; reflexivity).
  cbn [scan sort_desc insert_desc].
  apply slice_singleton. exact Hlimit.
Qed.

(** C1: for a query with at least one token, the score the loop computes
    for a document is [S/(n*3.0) + B]; every pair a search returns
    carries, for a stored document that passed the filters, the score
    [min(1.0, S/(n*3.0) + B)]; every stored document that passes the
    filters and whose [S/(n*3.0) + B] is positive is ranked with that
    score, and returned with it when the limit covers the index.  A
    single indexed ticket titled "Server performance issue" whose
    description holds "slow response times" (and not the phrase "server
    slow") is returned for the query "server slow" with score 5.0/6.0. *)
Theorem C1_score_formula
    (self : service) (query : string) (limit : Z) (filters : filters_t) :
  reachable self ->
  Py.split query <> [] ->
  (forall d,
      raw_score (Py.lower query) (Py.split (Py.lower query)) d
      = Spec.combined query d)
  /\ (forall i s,
      In (i, s) (fst (search_tickets self query limit filters)) ->
      exists d, In (i, d) (tickets_store self)
                /\ skip_ticket filters d = false
                /\ s = Spec.score query d)
  /\ (forall i d,
         In (i, d) (tickets_store self) ->
         skip_ticket filters d = false ->
         ltb f0_0 (Spec.combined query d) = true ->
         In (i, Spec.score query d) (ranked self query filters)
         /\ ((Z.of_nat (List.length (tickets_store self)) <= limit)%Z ->
             In (i, Spec.score query d)
                (fst (search_tickets self query limit filters))))
  /\ (forall ticket,
         Ticket.title ticket = "Server performance issue" ->
         Py.contains "slow response times" (Ticket.description ticket) = true ->
         Py.contains "server slow" (Py.lower (Ticket.description ticket)) = false ->
         (1 <= limit)%Z ->
         fst (search_tickets (snd (add_ticket init ticket)) "server slow" limit None)
         = [(Ticket.id ticket, div (of_int 5) (of_int 6))]).
Proof.
  intros Hreach Htok.
  pose proof (initialize_store self (reachable_wf self Hreach)) as Hst.
  pose proof (split_lower_nonempty query Htok) as Hne.
  split; [|split; [|split]].
  - intros d. apply raw_score_combined. exact Hne.
  - intros i s Hin. apply In_search_ranked, In_ranked in Hin.
    destruct Hin as [d [Hin [Hskip [Hpos ->]]]].
    rewrite Hst in Hin. exists d. repeat split; try assumption.
    rewrite (clamp_spec _ Hpos).
    unfold Spec.score. rewrite raw_score_combined by exact Hne. reflexivity.
  - intros i d Hin Hskip Hpos.
    assert (Hr : In (i, Spec.score query d) (ranked self query filters)).
    { apply In_ranked. exists d.
      rewrite raw_score_combined by exact Hne.
      repeat split; try assumption.
      unfold Spec.score. symmetry. apply clamp_spec. exact Hpos. }
    split; [exact Hr|].
    intros Hlimit. rewrite fst_search_tickets.
    rewrite slice_to_all.
    + unfold ranked in *. rewrite Hst. exact Hr.
    + pose proof (length_ranked (initialize self) query filters) as Hlen.
      rewrite Hst in Hlen. lia.
  - intros ticket. apply server_slow_scenario.
Qed.

Lemma reachable_one_ticket : reachable Examples.one_ticket.
Proof. exists [Add Examples.ticket1]. reflexivity. Defined.

Lemma reachable_two_tickets : reachable Examples.two_tickets.
Proof. exists [Add Examples.ticket1; Add Examples.ticket2]. reflexivity. Defined.

Lemma C1_witness :
  In (1%Z, Spec.score "server slow" (make_document Examples.ticket1))
     (fst (search_tickets Examples.one_ticket "server slow" 10 None))
  /\ fst (search_tickets (snd (add_ticket init Examples.ticket1)) "server slow" 10 None)
     = [(1%Z, S754_finite false 7505999378950827 (-53))].
Proof.
  assert (Htok : Py.split "server slow" <> []) by (vm_compute; discriminate).
  destruct (C1_score_formula Examples.one_ticket "server slow" 10 None
              reachable_one_ticket Htok) as [_ [_ [Hb Hc]]].
  split.
  - apply (Hb 1%Z (make_document Examples.ticket1)).
    + left. reflexivity.
    + reflexivity.
    + vm_compute. reflexivity.
    + vm_compute. discriminate.
  - rewrite (Hc Examples.ticket1).
    + vm_compute. reflexivity.
    + reflexivity.
    + vm_compute. reflexivity.
    + vm_compute. reflexivity.
    + lia.
Defined.

(** C2: every pair a search returns has a score greater than 0 and at
    most 1.0, and a stored document whose combined score is 0 is not
    among the ids returned. *)
Theorem C2_score_bounds
    (self : service) (query : string) (limit : Z) (filters : filters_t) :
  (forall i s,
      In (i, s) (fst (search_tickets self query limit filters)) ->
      ltb f0_0 s = true /\ leb s f1_0 = true)
  /\ (reachable self ->
      forall i d,
        In (i, d) (tickets_store self) ->
        is_zero (raw_score (Py.lower query) (Py.split (Py.lower query)) d) = true ->
        ~ In i (map fst (fst (search_tickets self query limit filters)))).
Proof.
  split.
  - intros i s Hin. apply In_search_ranked, In_ranked in Hin.
    destruct Hin as [d [_ [_ [Hpos ->]]]].
    apply py_min_one_bounds. exact Hpos.
  - intros Hreach i d Hin Hzero Habs.
    pose proof (reachable_wf self Hreach) as Hwf.
    apply in_map_iff in Habs. destruct Habs as [[i' s] [Heq Hres]].
    simpl in Heq. subst i'.
    apply In_search_ranked, In_ranked in Hres.
    destruct Hres as [d' [Hin' [_ [Hpos _]]]].
    rewrite (initialize_store self Hwf) in Hin'.
    destruct Hwf as [Hnd _].
    pose proof (dict_get_In i d _ Hnd Hin) as H1.
    pose proof (dict_get_In i d' _ Hnd Hin') as H2.
    assert (d' = d) by congruence. subst d'.
    rewrite (is_zero_not_pos _ Hzero) in Hpos. discriminate.
Qed.

Lemma C2_witness :
  ~ In 1%Z (map fst (fst (search_tickets Examples.one_ticket "quantum" 10 None)))
  /\ ltb f0_0 (div (of_int 5) (of_int 6)) = true
  /\ leb (div (of_int 5) (of_int 6)) f1_0 = true.
Proof.
  split.
  - apply (proj2 (C2_score_bounds Examples.one_ticket "quantum" 10 None)
             reachable_one_ticket 1%Z (make_document Examples.ticket1)).
    + left. reflexivity.
    + vm_compute. reflexivity.
  - apply (proj1 (C2_score_bounds Examples.one_ticket "server slow" 10 None) 1%Z).
    vm_compute. left. reflexivity.
Defined.

(** *** Filters *)

(** C3, as the code has it: every document a search returns is stored
    with attribute values that satisfy every filter that is not [None]
    (a list by membership, any other value by equality); the candidates
    of a filtered query are candidates of the same query without
    filters; the filtered result is never longer than the unfiltered
    one; and it is included in the unfiltered one when the limit covers
    the index. *)
Theorem C3_filters_narrow
    (self : service) (query : string) (limit : Z) (filters : filters_t) :
  reachable self ->
  (forall i s,
      In (i, s) (fst (search_tickets self query limit filters)) ->
      exists d, dict_get i (tickets_store self) = Some d
                /\ Spec.satisfies_all filters d)
  /\ incl (ranked self query filters) (ranked self query None)
  /\ (List.length (fst (search_tickets self query limit filters))
      <= List.length (fst (search_tickets self query limit None)))%nat
  /\ ((Z.of_nat (List.length (tickets_store self)) <= limit)%Z ->
      incl (fst (search_tickets self query limit filters))
           (fst (search_tickets self query limit None))).
Proof.
  intros Hreach. pose proof (reachable_wf self Hreach) as Hwf.
  pose proof (initialize_store self Hwf) as Hst.
  assert (Hincl : forall s0, incl (ranked s0 query filters) (ranked s0 query None)).
  { intros s0 x Hx. unfold ranked in *.
    apply (proj1 (In_sort_desc _ _)) in Hx.
    apply (proj2 (In_sort_desc _ _)). eapply scan_filters_incl. exact Hx. }
  split; [|split; [|split]].
  - intros i s Hin. apply In_search_ranked, In_ranked in Hin.
    destruct Hin as [d [Hin [Hskip _]]]. rewrite Hst in Hin.
    exists d. split.
    + apply dict_get_In; [apply Hwf | exact Hin].
    + apply skip_ticket_false. exact Hskip.
  - apply Hincl.
  - rewrite !fst_search_tickets. apply length_slice_to_mono.
    unfold ranked. rewrite !length_sort_desc. apply scan_filters_length.
  - intros Hlimit. rewrite !fst_search_tickets.
    pose proof (length_ranked (initialize self) query filters) as H1.
    pose proof (length_ranked (initialize self) query None) as H2.
    rewrite Hst in H1, H2.
    rewrite !slice_to_all by lia. apply Hincl.
Qed.

Lemma C3_witness :
  exists d, dict_get 2 (tickets_store Examples.two_tickets) = Some d
            /\ Spec.satisfies_all
                 (Some [("priority", PList [PStr "low"; PStr "medium"])]) d.
Proof.
  apply (proj1 (C3_filters_narrow Examples.two_tickets "server" 10
                  (Some [("priority", PList [PStr "low"; PStr "medium"])])
                  reachable_two_tickets) 2%Z f1_0).
  vm_compute. left. reflexivity.
Defined.

(** C3 as it is worded fails: with limit 1 the query "server
    performance" returns ticket 1 without filters and ticket 2 under the
    filter priority = "low", so the filtered result is not a subset of
    the unfiltered one. *)
Lemma C3_counterexample :
  fst (search_tickets Examples.two_tickets "server performance" 1
         (Some [("priority", PStr "low")]))
  = [(2%Z, f0_5)]
  /\ fst (search_tickets Examples.two_tickets "server performance" 1 None)
     = [(1%Z, f1_0)]
  /\ ~ incl (fst (search_tickets Examples.two_tickets "server performance" 1
                    (Some [("priority", PStr "low")])))
            (fst (search_tickets Examples.two_tickets "server performance" 1 None)).
Proof.
  assert (H1 : fst (search_tickets Examples.two_tickets "server performance" 1
                      (Some [("priority", PStr "low")])) = [(2%Z, f0_5)])
    by (vm_compute; reflexivity).
  assert (H2 : fst (search_tickets Examples.two_tickets "server performance" 1 None)
               = [(1%Z, f1_0)])
    by (vm_compute; reflexivity).
  split; [exact H1 | split; [exact H2|]].
  rewrite H1, H2. intros Hincl.
  destruct (Hincl (2%Z, f0_5) (or_introl eq_refl)) as [Heq|[]].
  discriminate Heq.
Qed.

(** *** Limit and order *)

Lemma non_increasing_slice (limit : Z) (l : list (Z * float)) :
  Spec.non_increasing l -> Spec.non_increasing (Py.slice_to limit l).
Proof.
  intros H. destruct (slice_to_prefix limit l) as [k ->].
  apply sorted_firstn. exact H.
Qed.

(** C4: for a limit N >= 1 a search returns at most N pairs, and their
    scores do not increase along the list: the score of a pair is at most
    the score of the pair before it, and of every pair before it. *)
Theorem C4_limit_and_order
    (self : service) (query : string) (limit : Z) (filters : filters_t) :
  (1 <= limit)%Z ->
  (Z.of_nat (List.length (fst (search_tickets self query limit filters))) <= limit)%Z
  /\ Spec.non_increasing (fst (search_tickets self query limit filters))
  /\ (forall i j a b,
         (i < j)%nat ->
         nth_error (fst (search_tickets self query limit filters)) i = Some a ->
         nth_error (fst (search_tickets self query limit filters)) j = Some b ->
         leb (snd b) (snd a) = true).
Proof.
  intros Hlimit. rewrite fst_search_tickets.
  assert (Hs : Spec.non_increasing
                 (Py.slice_to limit (ranked (initialize self) query filters)))
    by apply non_increasing_slice, ranked_non_increasing.
  split; [|split].
  - rewrite length_slice_to_nonneg by lia. lia.
  - exact Hs.
  - apply (strongly_sorted_nth Spec.score_ge).
    apply non_increasing_strongly. exact Hs.
Qed.

Lemma C4_witness :
  (Z.of_nat (List.length (fst (search_tickets Examples.two_tickets "server" 1 None))) <= 1)%Z
  /\ Spec.non_increasing (fst (search_tickets Examples.two_tickets "server" 1 None)).
Proof.
  destruct (C4_limit_and_order Examples.two_tickets "server" 1 None) as [H1 [H2 _]].
  - lia.
  - split; [exact H1 | exact H2].
Defined.

(** *** Similar tickets *)

(** C5, as the code has it: the result of [get_similar_tickets] never
    holds the id of the ticket itself; for a limit that is not negative
    it has at most [limit] pairs; and it is the ranking for the query
    made of the title, one space and the description, asked for
    [limit + 1] results, without the pairs of the ticket's own id, cut
    to [limit]. *)
Theorem C5_similar_excludes_self
    (self : service) (ticket : Ticket.t) (limit : Z) :
  ~ In (Ticket.id ticket) (map fst (fst (get_similar_tickets self ticket limit)))
  /\ ((0 <= limit)%Z ->
      (Z.of_nat (List.length (fst (get_similar_tickets self ticket limit))) <= limit)%Z)
  /\ fst (get_similar_tickets self ticket limit)
     = Py.slice_to limit
         (filter (fun r => negb (fst r =? Ticket.id ticket)%Z)
            (fst (search_tickets self
                    (Ticket.title ticket ++ " " ++ Ticket.description ticket)%string
                    (limit + 1) None))).
Proof.
  assert (Heq : fst (get_similar_tickets self ticket limit)
     = Py.slice_to limit
         (filter (fun r => negb (fst r =? Ticket.id ticket)%Z)
            (fst (search_tickets self
                    (Ticket.title ticket ++ " " ++ Ticket.description ticket)%string
                    (limit + 1) None)))) by reflexivity.
  split; [|split; [|exact Heq]].
  - rewrite Heq. intros Hin. apply in_map_iff in Hin.
    destruct Hin as [[i s] [Hi Hin]]. simpl in Hi. subst i.
    apply In_slice_to, filter_In in Hin. destruct Hin as [_ Hne].
    simpl in Hne. rewrite Z.eqb_refl in Hne. discriminate.
  - intros Hlimit. rewrite Heq, length_slice_to_nonneg by exact Hlimit. lia.
Qed.

Lemma C5_witness :
  (Z.of_nat (List.length (fst (get_similar_tickets Examples.two_tickets Examples.ticket1 1))) <= 1)%Z.
Proof.
  apply (proj1 (proj2 (C5_similar_excludes_self Examples.two_tickets Examples.ticket1 1))).
  lia.
Defined.

(** C5 as it is worded fails: for the limit -1 the result is empty, and
    0 pairs are more than -1; and the query is not the bare
    concatenation of title and description, which for ticket 1 scores
    ticket 2 with 4.0/21.0 where the code scores it with 4.0/24.0. *)
Lemma C5_counterexample :
  fst (get_similar_tickets Examples.two_tickets Examples.ticket1 (-1)) = []
  /\ ~ (Z.of_nat (List.length
                    (fst (get_similar_tickets Examples.two_tickets Examples.ticket1 (-1))))
        <= -1)%Z
  /\ fst (get_similar_tickets Examples.two_tickets Examples.ticket1 5)
     = [(2%Z, div (of_int 4) (of_int 24))]
  /\ filter (fun r => negb (fst r =? 1)%Z)
       (fst (search_tickets Examples.two_tickets
               (Ticket.title Examples.ticket1 ++ Ticket.description Examples.ticket1)%string
               6 None))
     = [(2%Z, div (of_int 4) (of_int 21))]
  /\ div (of_int 4) (of_int 24) <> div (of_int 4) (of_int 21).
Proof.
  assert (H0 : fst (get_similar_tickets Examples.two_tickets Examples.ticket1 (-1)) = [])
    by (vm_compute; reflexivity).
  split; [exact H0|]. rewrite H0.
  split; [simpl; lia|].
  split; [vm_compute; reflexivity|].
  split; [vm_compute; reflexivity|].
  vm_compute. discriminate.
Qed.

(** *** Removal *)

Lemma absent_step (ticket_id : Z) (self : service) (c : call) :
  ~ In ticket_id (dict_keys (tickets_store self)) ->
  reindexes ticket_id c = false ->
  ~ In ticket_id (dict_keys (tickets_store (step self c))).
Proof.
  intros Habs Hc.
  assert (Hi : ~ In ticket_id (dict_keys (tickets_store (initialize self)))).
  { intros H. apply Habs, initialize_keys, H. }
  destruct c as [t|t|rid|q l f|t l| | ]; simpl in *; try exact Hi.
  - rewrite dict_set_In_keys. apply Z.eqb_neq in Hc. intros [H|H]; auto.
  - rewrite ?initialize_idem.
    rewrite dict_set_In_keys. apply Z.eqb_neq in Hc. intros [H|H]; auto.
  - destruct (dict_mem rid (tickets_store (initialize self))); [|exact Hi].
    simpl. rewrite dict_del_keys. tauto.
  - tauto.
Qed.

Lemma absent_run (ticket_id : Z) (calls : list call) (self : service) :
  ~ In ticket_id (dict_keys (tickets_store self)) ->
  forallb (fun c => negb (reindexes ticket_id c)) calls = true ->
  ~ In ticket_id (dict_keys (tickets_store (run self calls))).
Proof.
  revert self. induction calls as [|c calls IH]; intros self Habs Hall; simpl in *.
  - exact Habs.
  - apply andb_true_iff in Hall. destruct Hall as [Hc Hall].
    apply IH; [|exact Hall].
    apply absent_step; [exact Habs | apply negb_true_iff, Hc].
Qed.

Lemma absent_after_remove (self : service) (ticket_id : Z) :
  ~ In ticket_id (dict_keys (tickets_store (snd (remove_ticket self ticket_id)))).
Proof.
  unfold remove_ticket. simpl.
  destruct (dict_mem ticket_id (tickets_store (initialize self))) eqn:E; simpl.
  - rewrite dict_del_keys. tauto.
  - intros H. apply dict_mem_In in H. congruence.
Qed.

(** C6: [remove_ticket] returns [True] whether or not the id is indexed;
    removing an id that is not indexed leaves the store as it is; and
    after [remove_ticket(id)], through any calls among which none is an
    [add_ticket] or [update_ticket] of that id, no search returns
    the id. *)
Theorem C6_remove_is_final
    (self : service) (ticket_id : Z) (calls : list call)
    (query : string) (limit : Z) (filters : filters_t) :
  fst (remove_ticket self ticket_id) = true
  /\ (reachable self ->
      dict_mem ticket_id (tickets_store self) = false ->
      tickets_store (snd (remove_ticket self ticket_id)) = tickets_store self)
  /\ (forallb (fun c => negb (reindexes ticket_id c)) calls = true ->
      ~ In ticket_id
          (map fst (fst (search_tickets
                           (run (snd (remove_ticket self ticket_id)) calls)
                           query limit filters)))).
Proof.
  split; [reflexivity | split].
  - intros Hreach Hmem.
    pose proof (initialize_store self (reachable_wf self Hreach)) as Hst.
    unfold remove_ticket. simpl. rewrite Hst, Hmem. exact Hst.
  - intros Hcalls Hin. apply search_ids in Hin.
    revert Hin. apply absent_run; [apply absent_after_remove | exact Hcalls].
Qed.

Lemma C6_witness :
  tickets_store (snd (remove_ticket Examples.one_ticket 5)) = tickets_store Examples.one_ticket
  /\ ~ In 1%Z
       (map fst (fst (search_tickets
                        (run (snd (remove_ticket Examples.two_tickets 1))
                             [Search "server" 10 None; Update Examples.ticket2; Remove 7])
                        "server" 10 None))).
Proof.
  split.
  - apply (proj1 (proj2 (C6_remove_is_final Examples.one_ticket 5 [] "" 1 None))).
    + exact reachable_one_ticket.
    + reflexivity.
  - apply (proj2 (proj2 (C6_remove_is_final Examples.two_tickets 1
                           [Search "server" 10 None; Update Examples.ticket2; Remove 7]
                           "server" 10 None))).
    reflexivity.
Defined.

(** *** Reindexing *)

(** C7: a second [update_ticket] with the same ticket leaves the state
    of the first; the document stored under the id is the one built from
    the ticket, the count of [get_collection_stats] is the same, and
    [update_ticket] is [add_ticket]. *)
Theorem C7_update_idempotent (self : service) (ticket : Ticket.t) :
  let once := snd (update_ticket self ticket) in
  let twice := snd (update_ticket once ticket) in
  twice = once
  /\ dict_get (Ticket.id ticket) (tickets_store once) = Some (make_document ticket)
  /\ dict_get (Ticket.id ticket) (tickets_store twice) = Some (make_document ticket)
  /\ total_documents (fst (get_collection_stats twice))
     = total_documents (fst (get_collection_stats once))
  /\ update_ticket self ticket = add_ticket self ticket.
Proof.
  assert (Hadd : forall s, update_ticket s ticket = add_ticket s ticket).
  { intros s. unfold update_ticket, add_ticket. rewrite initialize_idem. reflexivity. }
  assert (Hinit : forall s, _initialized s = true -> initialize s = s).
  { intros s H. unfold initialize. rewrite H. reflexivity. }
  cbv zeta. rewrite !Hadd.
  assert (Htwice : snd (add_ticket (snd (add_ticket self ticket)) ticket)
                   = snd (add_ticket self ticket)).
  { unfold add_ticket at 1. cbn [snd].
    rewrite (Hinit (snd (add_ticket self ticket)))
      by (cbn; apply initialize_initialized).
    cbn [add_ticket snd tickets_store _initialized].
    rewrite dict_set_idem. reflexivity. }
  rewrite Htwice.
  repeat split; cbn [add_ticket snd tickets_store]; apply dict_get_set_eq.
Qed.

(** *** Unknown filter attributes *)

Lemma py_eq_none (v : pyval) : py_eq PNone v = true -> v = PNone.
Proof. destruct v; simpl; congruence. Qed.

Lemma py_in_none (l : list pyval) : py_in PNone l = true -> In PNone l.
Proof.
  unfold py_in. rewrite existsb_exists. intros [v [Hin Hv]].
  apply py_eq_none in Hv. subst v. exact Hin.
Qed.

Lemma doc_get_unknown (d : Doc.t) (key : string) :
  ~ In key Doc.keys -> Doc.get d key = PNone.
Proof.
  intros H. unfold Doc.get.
  repeat match goal with
         | |- context [String.eqb key ?k] =>
             destruct (String.eqb_spec key k) as [->|_];
             [exfalso; apply H; simpl; tauto|]
         end.
  reflexivity.
Qed.

(** C8: a filter on a name that is no key of the stored documents, with
    a value other than [None] (a list without [None], or any other
    value), makes the search return the empty list whatever the query. *)
Theorem C8_unknown_filter_key
    (self : service) (query : string) (limit : Z)
    (items : list (string * pyval)) (key : string) (value : pyval) :
  In (key, value) items ->
  ~ In key Doc.keys ->
  value <> PNone ->
  (forall l, value = PList l -> ~ In PNone l) ->
  fst (search_tickets self query limit (Some items)) = [].
Proof.
  intros Hin Hkey Hval Hlist.
  assert (Hskip : forall d, skip_ticket (Some items) d = true).
  { intros d. destruct items as [|kv rest]; [contradiction|].
    cbn [skip_ticket]. apply filter_loop_true. exists (key, value).
    split; [exact Hin|].
    unfold Spec.satisfies. cbn [fst snd]. rewrite (doc_get_unknown d key Hkey).
    destruct value as [ |b|n|s|l]; try (simpl; congruence).
    intros H. apply py_in_none in H. exact (Hlist l eq_refl H). }
  rewrite fst_search_tickets. unfold ranked.
  assert (Hscan : forall m, scan (Py.lower query) (Py.split (Py.lower query))
                              (Some items) m = []).
  { induction m as [|[k d] m IH]; [reflexivity|].
    cbn [scan]. rewrite Hskip. exact IH. }
  rewrite Hscan. unfold Py.slice_to. destruct (0 <=? limit)%Z; apply firstn_nil.
Qed.

Lemma C8_witness :
  fst (search_tickets Examples.two_tickets "server" 10
         (Some [("priority", PStr "low"); ("severity", PList [PStr "low"; PInt 3])]))
  = [].
Proof.
  apply (C8_unknown_filter_key Examples.two_tickets "server" 10
           [("priority", PStr "low"); ("severity", PList [PStr "low"; PInt 3])]
           "severity" (PList [PStr "low"; PInt 3])).
  - right. left. reflexivity.
  - simpl. intros H.
    repeat (destruct H as [H|H]; [discriminate H|]). exact H.
  - discriminate.
  - intros l H. injection H as <-. simpl.
    intros [H|[H|[]]]; discriminate H.
Defined.

(** *** The empty query *)

Lemma raw_score_empty_query (d : Doc.t) : raw_score "" [] d = f0_5.
Proof.
  rewrite raw_score_no_terms, contains_empty. reflexivity.
Qed.

Lemma scan_empty_query (filters : filters_t) (m : store) :
  filters = None \/ filters = Some [] ->
  scan "" [] filters m = map (fun kv => (fst kv, f0_5)) m.
Proof.
  intros Hf. induction m as [|[k d] m IH]; [reflexivity|].
  cbn [scan map fst].
  replace (skip_ticket filters d) with false
    by (destruct Hf as [->| ->]; reflexivity).
  rewrite raw_score_empty_query, IH. reflexivity.
Qed.

(** C9, as the code has it: for the empty query without filters every
    indexed document is a candidate with score 0.5, in the order of the
    store; every pair returned has score 0.5; and for a limit that is not
    negative the search returns min(limit, number of indexed documents)
    pairs. *)
Theorem C9_empty_query
    (self : service) (limit : Z) (filters : filters_t) :
  reachable self ->
  filters = None \/ filters = Some [] ->
  ranked self "" filters = map (fun kv => (fst kv, f0_5)) (tickets_store self)
  /\ (forall i s, In (i, s) (fst (search_tickets self "" limit filters)) -> s = f0_5)
  /\ ((0 <= limit)%Z ->
      Z.of_nat (List.length (fst (search_tickets self "" limit filters)))
      = Z.min limit (Z.of_nat (List.length (tickets_store self)))).
Proof.
  intros Hreach Hf.
  pose proof (initialize_store self (reachable_wf self Hreach)) as Hst.
  assert (Hr : forall s0, ranked s0 "" filters
                          = map (fun kv => (fst kv, f0_5)) (tickets_store s0)).
  { intros s0. unfold ranked.
    change (Py.lower "") with "". change (Py.split "") with (@nil string).
    rewrite (scan_empty_query filters _ Hf).
    apply (sort_desc_constant f0_5).
    apply Forall_forall. intros p Hp. apply in_map_iff in Hp.
    destruct Hp as [kv [<- _]]. reflexivity. }
  split; [apply Hr | split].
  - intros i s Hin. apply In_search_ranked in Hin. rewrite Hr in Hin.
    apply in_map_iff in Hin. destruct Hin as [kv [Heq _]]. congruence.
  - intros Hlimit. rewrite fst_search_tickets, Hr, Hst.
    rewrite length_slice_to_nonneg by exact Hlimit.
    rewrite length_map. reflexivity.
Qed.

Lemma C9_witness :
  Z.of_nat (List.length (fst (search_tickets Examples.two_tickets "" 1 None)))
  = Z.min 1 (Z.of_nat (List.length (tickets_store Examples.two_tickets))).
Proof.
  apply (proj2 (proj2 (C9_empty_query Examples.two_tickets 1 None
                         reachable_two_tickets (or_introl eq_refl)))).
  lia.
Defined.

(** C9 as it is worded fails: with two indexed documents and the limit
    -1 the empty query returns one pair, which is not min(-1, 2). *)
Lemma C9_counterexample :
  fst (search_tickets Examples.two_tickets "" (-1) None) = [(1%Z, f0_5)]
  /\ Z.of_nat (List.length (fst (search_tickets Examples.two_tickets "" (-1) None)))
     <> Z.min (-1) (Z.of_nat (List.length (tickets_store Examples.two_tickets))).
Proof.
  assert (H : fst (search_tickets Examples.two_tickets "" (-1) None) = [(1%Z, f0_5)])
    by (vm_compute; reflexivity).
  split; [exact H|]. rewrite H. vm_compute. discriminate.
Qed.

(** *** Frame *)

Lemma dict_del_set (k : Z) (v : Doc.t) (m : store) :
  dict_del k (dict_set k v m) = dict_del k m.
Proof.
  unfold dict_del. induction m as [|[k' v'] m IH]; simpl.
  - rewrite Z.eqb_refl. reflexivity.
  - destruct (k' =? k)%Z eqn:E; simpl; rewrite E; simpl;
      [reflexivity | rewrite IH; reflexivity].
Qed.

Lemma dict_del_idem (k : Z) (m : store) :
  dict_del k (dict_del k m) = dict_del k m.
Proof.
  unfold dict_del. induction m as [|[k' v'] m IH]; simpl; [reflexivity|].
  destruct (k' =? k)%Z eqn:E; simpl; [exact IH|].
  rewrite E. simpl. rewrite IH. reflexivity.
Qed.

(** C10: on a state of the service, [search_tickets],
    [get_similar_tickets] and [get_collection_stats] leave the store as
    it is; [add_ticket] and [update_ticket] leave every entry but the one
    of the ticket's id as it is and where it is, and so does
    [remove_ticket] for the id it is given. *)
Theorem C10_frame (self : service) :
  reachable self ->
  (forall query limit filters,
      tickets_store (snd (search_tickets self query limit filters))
      = tickets_store self)
  /\ (forall ticket limit,
         tickets_store (snd (get_similar_tickets self ticket limit))
         = tickets_store self)
  /\ tickets_store (snd (get_collection_stats self)) = tickets_store self
  /\ (forall ticket,
         dict_del (Ticket.id ticket) (tickets_store (snd (add_ticket self ticket)))
         = dict_del (Ticket.id ticket) (tickets_store self)
         /\ forall k, k <> Ticket.id ticket ->
                      dict_get k (tickets_store (snd (add_ticket self ticket)))
                      = dict_get k (tickets_store self))
  /\ (forall ticket,
         dict_del (Ticket.id ticket) (tickets_store (snd (update_ticket self ticket)))
         = dict_del (Ticket.id ticket) (tickets_store self)
         /\ forall k, k <> Ticket.id ticket ->
                      dict_get k (tickets_store (snd (update_ticket self ticket)))
                      = dict_get k (tickets_store self))
  /\ (forall ticket_id,
         dict_del ticket_id (tickets_store (snd (remove_ticket self ticket_id)))
         = dict_del ticket_id (tickets_store self)
         /\ forall k, k <> ticket_id ->
                      dict_get k (tickets_store (snd (remove_ticket self ticket_id)))
                      = dict_get k (tickets_store self)).
Proof.
  intros Hreach.
  pose proof (initialize_store self (reachable_wf self Hreach)) as Hst.
  assert (Hadd : forall ticket,
             dict_del (Ticket.id ticket) (tickets_store (snd (add_ticket self ticket)))
             = dict_del (Ticket.id ticket) (tickets_store self)
             /\ forall k, k <> Ticket.id ticket ->
                          dict_get k (tickets_store (snd (add_ticket self ticket)))
                          = dict_get k (tickets_store self)).
  { intros ticket. cbn [add_ticket snd tickets_store]. rewrite Hst. split.
    - apply dict_del_set.
    - intros k Hk. apply dict_get_set_ne. exact Hk. }
  assert (Hupd : forall ticket, update_ticket self ticket = add_ticket self ticket).
  { intros ticket. unfold update_ticket, add_ticket.
    rewrite initialize_idem. reflexivity. }
  split; [intros; exact Hst|].
  split; [intros; exact Hst|].
  split; [exact Hst|].
  split; [exact Hadd|].
  split; [intros ticket; rewrite Hupd; apply Hadd|].
  intros ticket_id. unfold remove_ticket. cbn [snd]. rewrite Hst.
  destruct (dict_mem ticket_id (tickets_store self)); cbn [tickets_store].
  - split; [apply dict_del_idem|].
    intros k Hk. apply dict_get_del_ne. exact Hk.
  - rewrite Hst. split; [reflexivity | intros; reflexivity].
Qed.

Lemma C10_witness :
  tickets_store (snd (search_tickets Examples.two_tickets "server" 1 None))
  = tickets_store Examples.two_tickets
  /\ dict_get 1 (tickets_store (snd (remove_ticket Examples.two_tickets 2)))
     = dict_get 1 (tickets_store Examples.two_tickets).
Proof.
  destruct (C10_frame Examples.two_tickets reachable_two_tickets)
    as [Hs [_ [_ [_ [_ Hr]]]]].
  split.
  - apply Hs.
  - apply (proj2 (Hr 2%Z)). discriminate.
Defined.

End Claims.

(** * Further properties of the index and of its callers *)

(** ** Strings, lists and the store *)

Module MoreFacts.
Import F64 F64Facts PyFacts RankFacts ScoreFacts StoreFacts SearchFacts.

(** *** Occurrences *)

Lemma append_assoc (a b c : string) : ((a ++ b) ++ c = a ++ (b ++ c))%string.
Proof. induction a as [|x a IH]; simpl; [reflexivity | rewrite IH; reflexivity]. Qed.

Lemma append_empty_r (a : string) : (a ++ "" = a)%string.
Proof. induction a as [|x a IH]; simpl; [reflexivity | rewrite IH; reflexivity]. Qed.

Lemma prefix_iff (a s : string) :
  prefix a s = true <-> exists q, s = (a ++ q)%string.
Proof.
  revert s. induction a as [|x a IH]; intros s.
  - rewrite prefix_empty. split; [intros _; exists s; reflexivity | reflexivity].
  - destruct s as [|y s]; simpl.
    + split; [discriminate | intros [q Hq]; discriminate].
    + destruct (ascii_dec x y) as [->|Hne].
      * rewrite IH. split; intros [q Hq]; exists q; congruence.
      * split; [discriminate | intros [q Hq]; congruence].
Qed.

(** [a in s] holds exactly when [s] is some text, [a], some text. *)
Lemma contains_iff (a s : string) :
  Py.contains a s = true <-> exists p q, s = (p ++ a ++ q)%string.
Proof.
  induction s as [|y s IH]; cbn [Py.contains].
  - rewrite orb_false_r, prefix_iff. split.
    + intros [q Hq]. exists EmptyString, q. exact Hq.
    + intros [p [q Hq]]. destruct p; [exists q; exact Hq | discriminate].
  - rewrite orb_true_iff, prefix_iff, IH. split.
    + intros [[q Hq]|[p [q Hq]]].
      * exists EmptyString, q. exact Hq.
      * exists (String y p), q. simpl. congruence.
    + intros [[|x p] [q Hq]].
      * left. exists q. exact Hq.
      * right. exists p, q. simpl in Hq. congruence.
Qed.

Lemma contains_trans (a b c : string) :
  Py.contains a b = true -> Py.contains b c = true -> Py.contains a c = true.
Proof.
  rewrite !contains_iff. intros [p1 [q1 ->]] [p2 [q2 ->]].
  exists (p2 ++ p1)%string, (q1 ++ q2)%string.
  rewrite !append_assoc. reflexivity.
Qed.

Lemma split_from_occurs (s cur tok : string) :
  In tok (Py.split_from cur s) ->
  exists p q, (cur ++ s)%string = (p ++ tok ++ q)%string.
Proof.
  revert cur. induction s as [|c s IH]; intros cur; simpl.
  - destruct cur; [contradiction|]. intros [<-|[]].
    exists EmptyString, EmptyString. rewrite !append_empty_r. reflexivity.
  - destruct (Py.isspace c).
    + destruct cur as [|x cur].
      * intros H. destruct (IH EmptyString H) as [p [q Hq]]. simpl in Hq.
        exists (String c p), q. simpl. congruence.
      * intros [<-|H].
        -- exists EmptyString, (String c s). reflexivity.
        -- destruct (IH EmptyString H) as [p [q Hq]]. simpl in Hq.
           exists (String x cur ++ String c p)%string, q.
           rewrite append_assoc. simpl. congruence.
    + intros H. destruct (IH _ H) as [p [q Hq]].
      exists p, q. rewrite <- Hq, append_assoc. reflexivity.
Qed.

(** A token of [s.split()] occurs in [s]. *)
Lemma split_occurs (s tok : string) :
  In tok (Py.split s) -> Py.contains tok s = true.
Proof.
  intros H. apply contains_iff. exact (split_from_occurs s EmptyString tok H).
Qed.

Lemma lower_char_idem (c : ascii) :
  Py.lower_char (Py.lower_char c) = Py.lower_char c.
Proof.
  destruct c as [[] [] [] [] [] [] [] []]; vm_compute; reflexivity.
Qed.

Lemma lower_idem (s : string) : Py.lower (Py.lower s) = Py.lower s.
Proof.
  induction s as [|c s IH]; simpl; [reflexivity|].
  rewrite lower_char_idem, IH. reflexivity.
Qed.

(** *** Lists without repeated ids *)

Lemma NoDup_firstn {A : Type} (k : nat) (l : list A) :
  NoDup l -> NoDup (firstn k l).
Proof.
  revert l. induction k as [|k IH]; intros l H; simpl; [constructor|].
  destruct H as [|x l Hx Hl]; constructor.
  - intros Hin. apply Hx. eapply In_firstn. exact Hin.
  - apply IH. exact Hl.
Qed.

Lemma firstn_map {A B : Type} (f : A -> B) (k : nat) (l : list A) :
  firstn k (map f l) = map f (firstn k l).
Proof.
  revert l. induction k as [|k IH]; intros [|x l]; simpl; try reflexivity.
  rewrite IH. reflexivity.
Qed.

Lemma slice_to_map {A B : Type} (f : A -> B) (n : Z) (l : list A) :
  Py.slice_to n (map f l) = map f (Py.slice_to n l).
Proof.
  unfold Py.slice_to. rewrite length_map.
  destruct (0 <=? n)%Z; apply firstn_map.
Qed.

Lemma NoDup_slice_ids (n : Z) (l : list (Z * float)) :
  NoDup (map fst l) -> NoDup (map fst (Py.slice_to n l)).
Proof.
  intros H. rewrite <- slice_to_map.
  destruct (slice_to_prefix n (map fst l)) as [k ->].
  apply NoDup_firstn. exact H.
Qed.

Lemma NoDup_filter_ids (p : Z * float -> bool) (l : list (Z * float)) :
  NoDup (map fst l) -> NoDup (map fst (filter p l)).
Proof.
  induction l as [|x l IH]; simpl; intros H; [constructor|].
  inversion H as [|? ? Hx Hl]; subst.
  destruct (p x); simpl; [|apply IH; exact Hl].
  constructor; [|apply IH; exact Hl].
  intros Hin. apply Hx. apply in_map_iff in Hin.
  destruct Hin as [y [Hy Hin]]. apply filter_In in Hin.
  apply in_map_iff. exists y. tauto.
Qed.

Lemma NoDup_scan (ql : string) (ts : list string) (filters : filters_t)
    (items : store) :
  NoDup (dict_keys items) -> NoDup (map fst (scan ql ts filters items)).
Proof.
  induction items as [|[k d] rest IH]; simpl; intros H; [constructor|].
  inversion H as [|? ? Hk Hrest]; subst.
  destruct (skip_ticket filters d); [apply IH; exact Hrest|].
  destruct (ltb f0_0 (raw_score ql ts d)); [|apply IH; exact Hrest].
  simpl. constructor; [|apply IH; exact Hrest].
  intros Hin. apply Hk. eapply scan_ids. exact Hin.
Qed.

Lemma NoDup_ranked (self : service) (query : string) (filters : filters_t) :
  wf self -> NoDup (map fst (ranked self query filters)).
Proof.
  intros [Hnd _]. unfold ranked.
  eapply Permutation_NoDup.
  - apply Permutation_map. apply sort_desc_perm.
  - apply NoDup_scan. exact Hnd.
Qed.

Lemma NoDup_search (self : service) (query : string) (limit : Z)
    (filters : filters_t) :
  wf self -> NoDup (map fst (fst (search_tickets self query limit filters))).
Proof.
  intros H. rewrite fst_search_tickets.
  apply NoDup_slice_ids, NoDup_ranked, wf_initialize, H.
Qed.

(** Dropping the pairs of one id from the first [n + 1] pairs and keeping
    [n] gives what dropping them from the whole list and keeping [n]
    gives, when no id is repeated. *)
Lemma firstn_without_id (ticket_id : Z) (l : list (Z * float)) (n : nat) :
  NoDup (map fst l) ->
  firstn n (without_id ticket_id (firstn (S n) l))
  = firstn n (without_id ticket_id l).
Proof.
  revert n. induction l as [|x l IH]; intros n Hnd; [reflexivity|].
  inversion Hnd as [|? ? Hx Hl]; subst.
  cbn [firstn without_id filter].
  destruct (fst x =? ticket_id)%Z eqn:E; cbn [negb].
  - apply Z.eqb_eq in E.
    assert (Hall : forall l0, incl l0 l -> without_id ticket_id l0 = l0).
    { intros l0 Hl0. unfold without_id. apply forallb_filter_id.
      apply forallb_forall. intros y Hy. apply negb_true_iff, Z.eqb_neq.
      intros Hy'. apply Hx. apply in_map_iff. exists y.
      split; [congruence | apply Hl0, Hy]. }
    fold (without_id ticket_id (firstn n l)). fold (without_id ticket_id l).
    rewrite (Hall (firstn n l)) by (intros y Hy; eapply In_firstn; exact Hy).
    rewrite (Hall l) by apply incl_refl.
    rewrite firstn_firstn. f_equal. lia.
  - fold (without_id ticket_id (firstn n l)). fold (without_id ticket_id l).
    destruct n as [|n]; [reflexivity|].
    cbn [firstn]. f_equal. apply IH. exact Hl.
Qed.

End MoreFacts.

(** ** More on the store *)

Module IndexFacts.
Import F64 F64Facts PyFacts RankFacts ScoreFacts StoreFacts SearchFacts MoreFacts.

Lemma dict_mem_false (k : Z) (m : store) :
  dict_mem k m = false <-> ~ In k (dict_keys m).
Proof.
  rewrite <- dict_mem_In. destruct (dict_mem k m); split; congruence.
Qed.

Lemma dict_set_absent (k : Z) (v : Doc.t) (m : store) :
  dict_mem k m = false -> dict_set k v m = m ++ [(k, v)].
Proof.
  unfold dict_mem. induction m as [|[k' v'] m IH]; simpl; [reflexivity|].
  intros H. apply orb_false_iff in H. destruct H as [H1 H2].
  rewrite H1, IH by exact H2. reflexivity.
Qed.

Lemma dict_set_length_present (k : Z) (v : Doc.t) (m : store) :
  dict_mem k m = true -> List.length (dict_set k v m) = List.length m.
Proof.
  intros H. pose proof (dict_set_keys k v m) as Hk. rewrite H in Hk.
  unfold dict_keys in Hk.
  rewrite <- (length_map fst (dict_set k v m)), Hk, length_map. reflexivity.
Qed.

Lemma In_dict_set (k k0 : Z) (v d : Doc.t) (m : store) :
  In (k0, d) (dict_set k v m) -> (k0 = k /\ d = v) \/ In (k0, d) m.
Proof.
  induction m as [|[k' v'] m IH]; simpl.
  - intros [H|[]]. inversion H. auto.
  - destruct (k' =? k)%Z eqn:E; simpl.
    + apply Z.eqb_eq in E. intros [H|H]; [inversion H; subst; auto | auto].
    + intros [H|H]; [auto | destruct (IH H); auto].
Qed.

Lemma dict_get_del_eq (k : Z) (m : store) : dict_get k (dict_del k m) = None.
Proof.
  unfold dict_del. induction m as [|[k' v'] m IH]; simpl; [reflexivity|].
  destruct (k' =? k)%Z eqn:E; simpl; [exact IH | rewrite E; exact IH].
Qed.

Lemma dict_get_absent (k : Z) (m : store) :
  dict_mem k m = false -> dict_get k m = None.
Proof.
  unfold dict_mem. induction m as [|[k' v'] m IH]; simpl; [reflexivity|].
  intros H. apply orb_false_iff in H. destruct H as [H1 H2].
  rewrite H1. apply IH. exact H2.
Qed.

Lemma dict_del_length (k : Z) (m : store) :
  NoDup (dict_keys m) -> dict_mem k m = true ->
  S (List.length (dict_del k m)) = List.length m.
Proof.
  unfold dict_del, dict_mem.
  induction m as [|[k' v'] m IH]; simpl; intros Hnd H; [discriminate|].
  inversion Hnd as [|? ? Hk' Hm]; subst.
  destruct (k' =? k)%Z eqn:E; simpl.
  - apply Z.eqb_eq in E. subst k'. f_equal.
    change (List.length (dict_del k m) = List.length m).
    rewrite dict_del_absent; [reflexivity|].
    apply dict_mem_false. exact Hk'.
  - f_equal. apply IH; assumption.
Qed.

Lemma dict_del_app_last (k : Z) (v : Doc.t) (m : store) :
  dict_mem k m = false -> dict_del k (m ++ [(k, v)]) = m.
Proof.
  intros H. unfold dict_del. rewrite filter_app. simpl.
  rewrite Z.eqb_refl. simpl. rewrite app_nil_r.
  apply (dict_del_absent k m H).
Qed.

(** A store that is empty stays empty under every call that does not
    write. *)
Lemma empty_step (self : service) (c : call) :
  tickets_store self = [] -> writes c = false -> tickets_store (step self c) = [].
Proof.
  intros He Hc.
  assert (Hi : tickets_store (initialize self) = []).
  { unfold initialize. destruct (_initialized self); [exact He | reflexivity]. }
  destruct c as [t|t|rid|q l f|t l| | ]; simpl in *; try discriminate;
    try exact Hi; try reflexivity.
  rewrite Hi. simpl. exact Hi.
Qed.

Lemma empty_run (calls : list call) (self : service) :
  tickets_store self = [] ->
  forallb (fun c => negb (writes c)) calls = true ->
  tickets_store (run self calls) = [].
Proof.
  revert self. induction calls as [|c calls IH]; intros self He Hall; simpl in *.
  - exact He.
  - apply andb_true_iff in Hall. destruct Hall as [Hc Hall].
    apply IH; [|exact Hall].
    apply empty_step; [exact He | apply negb_true_iff, Hc].
Qed.

End IndexFacts.

(** ** The index beyond the statements of the design document *)

Module Extras.
Import F64 F64Facts PyFacts RankFacts ScoreFacts StoreFacts SearchFacts.
Import MoreFacts IndexFacts.

(** *** reset_collection, get_collection_stats *)

(** X1: [reset_collection] returns [True], and after it, through any
    calls among which none is an [add_ticket] or [update_ticket], every
    search returns the empty list and [get_collection_stats] counts 0
    documents. *)
Theorem X1_reset_empties_index
    (self : service) (calls : list call)
    (query : string) (limit : Z) (filters : filters_t) :
  forallb (fun c => negb (writes c)) calls = true ->
  fst (reset_collection self) = true
  /\ fst (search_tickets (run (snd (reset_collection self)) calls)
            query limit filters) = []
  /\ total_documents
       (fst (get_collection_stats (run (snd (reset_collection self)) calls))) = 0%Z.
Proof.
  intros Hcalls.
  assert (He : tickets_store (run (snd (reset_collection self)) calls) = [])
    by (apply empty_run; [reflexivity | exact Hcalls]).
  assert (Hi : tickets_store
                 (initialize (run (snd (reset_collection self)) calls)) = []).
  { unfold initialize.
    destruct (_initialized (run (snd (reset_collection self)) calls));
      [exact He | reflexivity]. }
  split; [reflexivity | split].
  - rewrite fst_search_tickets. unfold ranked. rewrite Hi. simpl.
    unfold Py.slice_to. destruct (0 <=? limit)%Z; apply firstn_nil.
  - cbn [get_collection_stats fst total_documents]. rewrite Hi. reflexivity.
Qed.

Lemma X1_witness :
  fst (search_tickets
         (run (snd (reset_collection Examples.two_tickets))
              [Search "server" 5 None; Remove 1; Stats])
         "server" 10 None) = [].
Proof.
  apply (X1_reset_empties_index Examples.two_tickets
           [Search "server" 5 None; Remove 1; Stats] "server" 10 None).
  reflexivity.
Defined.

(** X2: on a state of the service, [add_ticket] stores the document
    built from the ticket under the ticket's id; for an id that is not
    indexed the entry goes last and [total_documents] grows by one; for an
    indexed id the keys keep their order and [total_documents] stays. *)
Theorem X2_add_ticket_counts (self : service) (ticket : Ticket.t) :
  reachable self ->
  dict_get (Ticket.id ticket) (tickets_store (snd (add_ticket self ticket)))
  = Some (make_document ticket)
  /\ (dict_mem (Ticket.id ticket) (tickets_store self) = false ->
      tickets_store (snd (add_ticket self ticket))
      = tickets_store self ++ [(Ticket.id ticket, make_document ticket)]
      /\ total_documents (fst (get_collection_stats (snd (add_ticket self ticket))))
         = (total_documents (fst (get_collection_stats self)) + 1)%Z)
  /\ (dict_mem (Ticket.id ticket) (tickets_store self) = true ->
      dict_keys (tickets_store (snd (add_ticket self ticket)))
      = dict_keys (tickets_store self)
      /\ total_documents (fst (get_collection_stats (snd (add_ticket self ticket))))
         = total_documents (fst (get_collection_stats self))).
Proof.
  intros Hreach.
  pose proof (initialize_store self (reachable_wf self Hreach)) as Hst.
  assert (Hinit : initialize (snd (add_ticket self ticket)) = snd (add_ticket self ticket)).
  { unfold initialize. cbn [add_ticket snd _initialized].
    rewrite initialize_initialized. reflexivity. }
  cbn [get_collection_stats fst total_documents]. rewrite Hinit, Hst.
  cbn [add_ticket snd tickets_store]. rewrite Hst.
  split; [apply dict_get_set_eq | split]; intros Hmem.
  - rewrite (dict_set_absent _ _ _ Hmem). split; [reflexivity|].
    rewrite length_app. simpl. lia.
  - split.
    + rewrite dict_set_keys, Hmem. reflexivity.
    + rewrite (dict_set_length_present _ _ _ Hmem). reflexivity.
Qed.

Lemma X2_witness :
  dict_keys (tickets_store (snd (add_ticket Examples.two_tickets Examples.ticket1)))
  = dict_keys (tickets_store Examples.two_tickets)
  /\ total_documents
       (fst (get_collection_stats (snd (add_ticket Examples.two_tickets Examples.ticket1))))
     = total_documents (fst (get_collection_stats Examples.two_tickets)).
Proof.
  apply (proj2 (proj2 (X2_add_ticket_counts Examples.two_tickets Examples.ticket1
                         Claims.reachable_two_tickets))).
  reflexivity.
Defined.

(** X3: on a state of the service, after [remove_ticket] the id has no
    entry; [total_documents] drops by one when the id was indexed and
    stays when it was not. *)
Theorem X3_remove_ticket_counts (self : service) (ticket_id : Z) :
  reachable self ->
  dict_get ticket_id (tickets_store (snd (remove_ticket self ticket_id))) = None
  /\ (dict_mem ticket_id (tickets_store self) = true ->
      total_documents (fst (get_collection_stats (snd (remove_ticket self ticket_id))))
      = (total_documents (fst (get_collection_stats self)) - 1)%Z)
  /\ (dict_mem ticket_id (tickets_store self) = false ->
      total_documents (fst (get_collection_stats (snd (remove_ticket self ticket_id))))
      = total_documents (fst (get_collection_stats self))).
Proof.
  intros Hreach. pose proof (reachable_wf self Hreach) as Hwf.
  pose proof (initialize_store self Hwf) as Hst.
  assert (Hinit : initialize (snd (remove_ticket self ticket_id))
                  = snd (remove_ticket self ticket_id)).
  { unfold initialize, remove_ticket. cbn [snd].
    destruct (dict_mem ticket_id (tickets_store (initialize self)));
      cbn [_initialized]; rewrite initialize_initialized; reflexivity. }
  cbn [get_collection_stats fst total_documents]. rewrite Hinit, Hst.
  unfold remove_ticket. cbn [snd]. rewrite Hst.
  destruct (dict_mem ticket_id (tickets_store self)) eqn:Hmem;
    cbn [tickets_store]; rewrite ?Hst.
  - split; [apply dict_get_del_eq | split; [intros _ | discriminate]].
    pose proof (dict_del_length ticket_id _ (proj1 Hwf) Hmem). lia.
  - split; [apply dict_get_absent; exact Hmem | split; [discriminate | reflexivity]].
Qed.

Lemma X3_witness :
  total_documents (fst (get_collection_stats (snd (remove_ticket Examples.two_tickets 2))))
  = (total_documents (fst (get_collection_stats Examples.two_tickets)) - 1)%Z.
Proof.
  apply (proj1 (proj2 (X3_remove_ticket_counts Examples.two_tickets 2
                         Claims.reachable_two_tickets))).
  reflexivity.
Defined.

(** X4: on a state of the service, adding a ticket whose id is not
    indexed and removing that id again leaves the store as it was; removing
    an id and adding a ticket with that id puts its document last, behind
    every other entry. *)
Theorem X4_add_remove_round_trip (self : service) (ticket : Ticket.t) :
  reachable self ->
  (dict_mem (Ticket.id ticket) (tickets_store self) = false ->
   tickets_store (snd (remove_ticket (snd (add_ticket self ticket)) (Ticket.id ticket)))
   = tickets_store self)
  /\ tickets_store (snd (add_ticket (snd (remove_ticket self (Ticket.id ticket))) ticket))
     = dict_del (Ticket.id ticket) (tickets_store self)
       ++ [(Ticket.id ticket, make_document ticket)].
Proof.
  intros Hreach. pose proof (reachable_wf self Hreach) as Hwf.
  pose proof (initialize_store self Hwf) as Hst.
  split.
  - intros Hmem.
    assert (Hinit : initialize (snd (add_ticket self ticket)) = snd (add_ticket self ticket)).
    { unfold initialize. cbn [add_ticket snd _initialized].
      rewrite initialize_initialized. reflexivity. }
    unfold remove_ticket. cbn [snd]. rewrite Hinit.
    cbn [add_ticket snd tickets_store]. rewrite Hst.
    rewrite (dict_set_absent _ _ _ Hmem).
    assert (Hin : dict_mem (Ticket.id ticket)
                    (tickets_store self ++ [(Ticket.id ticket, make_document ticket)]) = true).
    { apply dict_mem_In. unfold dict_keys. rewrite map_app, in_app_iff.
      right. left. reflexivity. }
    rewrite Hin. cbn [tickets_store]. apply dict_del_app_last. exact Hmem.
  - assert (Hrem : tickets_store (snd (remove_ticket self (Ticket.id ticket)))
                   = dict_del (Ticket.id ticket) (tickets_store self)).
    { unfold remove_ticket. cbn [snd]. rewrite Hst.
      destruct (dict_mem (Ticket.id ticket) (tickets_store self)) eqn:Hmem;
        cbn [tickets_store]; [reflexivity|].
      rewrite Hst. symmetry. apply dict_del_absent. exact Hmem. }
    assert (Hinit : initialize (snd (remove_ticket self (Ticket.id ticket)))
                    = snd (remove_ticket self (Ticket.id ticket))).
    { unfold initialize, remove_ticket. cbn [snd].
      destruct (dict_mem (Ticket.id ticket) (tickets_store (initialize self)));
        cbn [_initialized]; rewrite initialize_initialized; reflexivity. }
    cbn [add_ticket snd tickets_store]. rewrite Hinit, Hrem.
    apply dict_set_absent. apply dict_mem_false.
    rewrite dict_del_keys. tauto.
Qed.

Lemma X4_witness :
  tickets_store (snd (remove_ticket (snd (add_ticket Examples.one_ticket Examples.ticket2)) 2))
  = tickets_store Examples.one_ticket.
Proof.
  apply (proj1 (X4_add_remove_round_trip Examples.one_ticket Examples.ticket2
                  Claims.reachable_one_ticket)).
  reflexivity.
Defined.

(** *** What the store holds *)

Lemma built_step (self : service) (c : call) :
  built_from_tickets (tickets_store self) ->
  built_from_tickets (tickets_store (step self c)).
Proof.
  intros H.
  assert (Hi : built_from_tickets (tickets_store (initialize self))).
  { unfold initialize. destruct (_initialized self); [exact H|].
    intros k d []. }
  destruct c as [t|t|rid|q l f|t l| | ]; simpl; try exact Hi.
  - intros k d Hin. apply In_dict_set in Hin.
    destruct Hin as [[-> ->]|Hin]; [exists t; auto | apply Hi; exact Hin].
  - rewrite ?initialize_idem. intros k d Hin. apply In_dict_set in Hin.
    destruct Hin as [[-> ->]|Hin]; [exists t; auto | apply Hi; exact Hin].
  - destruct (dict_mem rid (tickets_store (initialize self))); [|exact Hi].
    simpl. intros k d Hin. apply filter_In in Hin. apply Hi. tauto.
  - intros k d [].
Qed.

Lemma built_run (calls : list call) (self : service) :
  built_from_tickets (tickets_store self) ->
  built_from_tickets (tickets_store (run self calls)).
Proof.
  revert self. induction calls as [|c calls IH]; intros self H; simpl;
    [exact H | apply IH, built_step, H].
Qed.

(** X5: on a state of the service, every entry of the store is the
    document built from some ticket whose id is the key; so the
    [ticket_id] field is the key, and the title, description, tags and
    document text are stored lower-cased. *)
Theorem X5_store_holds_built_documents (self : service) (k : Z) (d : Doc.t) :
  reachable self ->
  In (k, d) (tickets_store self) ->
  (exists ticket, Ticket.id ticket = k /\ d = make_document ticket)
  /\ Doc.ticket_id d = k
  /\ Py.lower (Doc.title d) = Doc.title d
  /\ Py.lower (Doc.description d) = Doc.description d
  /\ Py.lower (Doc.tags d) = Doc.tags d
  /\ Py.lower (Doc.document_text d) = Doc.document_text d.
Proof.
  intros [calls ->] Hin.
  assert (Hb : built_from_tickets (tickets_store (run init calls)))
    by (apply built_run; intros ? ? []).
  destruct (Hb k d Hin) as [t [Hk ->]].
  split; [exists t; auto|].
  cbn [make_document Doc.ticket_id Doc.title Doc.description Doc.tags
       Doc.document_text].
  rewrite !lower_idem. auto.
Qed.

Lemma X5_witness :
  Doc.ticket_id (make_document Examples.ticket2) = 2%Z
  /\ Py.lower (Doc.title (make_document Examples.ticket2))
     = Doc.title (make_document Examples.ticket2).
Proof.
  destruct (X5_store_holds_built_documents Examples.two_tickets 2
              (make_document Examples.ticket2) Claims.reachable_two_tickets)
    as [_ [H1 [H2 _]]].
  - right. left. reflexivity.
  - split; [exact H1 | exact H2].
Defined.

(** *** What a search returns *)

(** X6: on a state of the service, no id occurs twice in the result of
    [search_tickets], nor in the result of [get_similar_tickets]. *)
Theorem X6_result_ids_distinct
    (self : service) (query : string) (limit : Z) (filters : filters_t)
    (ticket : Ticket.t) :
  reachable self ->
  NoDup (map fst (fst (search_tickets self query limit filters)))
  /\ NoDup (map fst (fst (get_similar_tickets self ticket limit))).
Proof.
  intros Hreach. pose proof (reachable_wf self Hreach) as Hwf. split.
  - apply NoDup_search. exact Hwf.
  - change (fst (get_similar_tickets self ticket limit))
      with (Py.slice_to limit
              (without_id (Ticket.id ticket)
                 (fst (search_tickets self
                         (Ticket.title ticket ++ " " ++ Ticket.description ticket)%string
                         (limit + 1) None)))).
    apply NoDup_slice_ids, NoDup_filter_ids, NoDup_search. exact Hwf.
Qed.

Lemma X6_witness :
  NoDup (map fst (fst (search_tickets Examples.two_tickets "server" 10 None))).
Proof.
  exact (proj1 (X6_result_ids_distinct Examples.two_tickets "server" 10 None
                  Examples.ticket1 Claims.reachable_two_tickets)).
Defined.

(** X7: the result for a limit is the beginning of the result for any
    greater limit: for [0 <= limit1 <= limit2], [search_tickets] with
    [limit1] returns the first [limit1] pairs of what it returns with
    [limit2]. *)
Theorem X7_smaller_limit_is_prefix
    (self : service) (query : string) (limit1 limit2 : Z) (filters : filters_t) :
  (0 <= limit1)%Z -> (limit1 <= limit2)%Z ->
  fst (search_tickets self query limit1 filters)
  = Py.slice_to limit1 (fst (search_tickets self query limit2 filters)).
Proof.
  intros H1 H2. rewrite !fst_search_tickets. unfold Py.slice_to.
  destruct (0 <=? limit1)%Z eqn:E1; [|apply Z.leb_gt in E1; lia].
  destruct (0 <=? limit2)%Z eqn:E2; [|apply Z.leb_gt in E2; lia].
  rewrite firstn_firstn. f_equal. lia.
Qed.

Lemma X7_witness :
  fst (search_tickets Examples.two_tickets "server" 1 None)
  = Py.slice_to 1 (fst (search_tickets Examples.two_tickets "server" 2 None)).
Proof.
  apply (X7_smaller_limit_is_prefix Examples.two_tickets "server" 1 2 None); lia.
Defined.

(** X8: for a query without any token (empty or only whitespace), a
    returned pair has score 0.5 when the lower-cased query occurs in the
    title of its document, and score 0.3 when it does not but occurs in
    the description; no other document is returned. *)
Theorem X8_query_without_tokens
    (self : service) (query : string) (limit : Z) (filters : filters_t)
    (i : Z) (s : float) :
  reachable self ->
  Py.split query = [] ->
  In (i, s) (fst (search_tickets self query limit filters)) ->
  exists d,
    In (i, d) (tickets_store self)
    /\ ((Py.contains (Py.lower query) (Doc.title d) = true /\ s = f0_5)
        \/ (Py.contains (Py.lower query) (Doc.title d) = false
            /\ Py.contains (Py.lower query) (Doc.description d) = true
            /\ s = f0_3)).
Proof.
  intros Hreach Hq Hin.
  pose proof (initialize_store self (reachable_wf self Hreach)) as Hst.
  apply In_search_ranked, In_ranked in Hin.
  destruct Hin as [d [Hd [_ [Hpos ->]]]]. rewrite Hst in Hd.
  exists d. split; [exact Hd|].
  rewrite split_lower, Hq in *. cbn [map] in *.
  rewrite raw_score_no_terms in *.
  destruct (Py.contains (Py.lower query) (Doc.title d)).
  - left. split; reflexivity.
  - destruct (Py.contains (Py.lower query) (Doc.description d)).
    + right. split; [reflexivity | split; [reflexivity | vm_compute; reflexivity]].
    + discriminate Hpos.
Qed.

Lemma X8_witness :
  exists d,
    In (2%Z, d) (tickets_store Examples.two_tickets)
    /\ ((Py.contains (Py.lower " ") (Doc.title d) = true /\ f0_5 = f0_5)
        \/ (Py.contains (Py.lower " ") (Doc.title d) = false
            /\ Py.contains (Py.lower " ") (Doc.description d) = true
            /\ f0_5 = f0_3)).
Proof.
  apply (X8_query_without_tokens Examples.two_tickets " " 10 None 2 f0_5).
  - exact Claims.reachable_two_tickets.
  - reflexivity.
  - vm_compute. right. left. reflexivity.
Defined.

(** The score of the one token of a one-word query, by the first field
    it occurs in. *)
Lemma raw_score_one_token (ql tok : string) (d : Doc.t) :
  Py.contains tok ql = true ->
  (Py.contains tok (Doc.title d) = true
   /\ ltb f0_0 (raw_score ql [tok] d) = true
   /\ py_min (raw_score ql [tok] d) f1_0 = f1_0)
  \/ (Py.contains tok (Doc.title d) = false
      /\ Py.contains tok (Doc.description d) = true
      /\ ltb f0_0 (raw_score ql [tok] d) = true
      /\ (py_min (raw_score ql [tok] d) f1_0 = div (of_int 2) (of_int 3)
          \/ py_min (raw_score ql [tok] d) f1_0
             = add (div (of_int 2) (of_int 3)) f0_3))
  \/ (Py.contains tok (Doc.title d) = false
      /\ Py.contains tok (Doc.description d) = false
      /\ Py.contains tok (Doc.tags d) = true
      /\ ltb f0_0 (raw_score ql [tok] d) = true
      /\ py_min (raw_score ql [tok] d) f1_0 = div (of_int 2) (of_int 3))
  \/ (Py.contains tok (Doc.title d) = false
      /\ Py.contains tok (Doc.description d) = false
      /\ Py.contains tok (Doc.tags d) = false
      /\ Py.contains tok (Doc.document_text d) = true
      /\ ltb f0_0 (raw_score ql [tok] d) = true
      /\ py_min (raw_score ql [tok] d) f1_0 = div (of_int 1) (of_int 3))
  \/ (Py.contains tok (Doc.title d) = false
      /\ Py.contains tok (Doc.description d) = false
      /\ Py.contains tok (Doc.tags d) = false
      /\ Py.contains tok (Doc.document_text d) = false
      /\ ltb f0_0 (raw_score ql [tok] d) = false).
Proof.
  intros Htok. unfold raw_score. cbn [List.length fold_left Z.of_nat].
  change (0 <? Z.pos (Pos.of_succ_nat 0))%Z with true. cbv iota. unfold term_step.
  assert (Ht : Py.contains ql (Doc.title d) = true ->
               Py.contains tok (Doc.title d) = true)
    by apply contains_trans, Htok.
  assert (Hd : Py.contains ql (Doc.description d) = true ->
               Py.contains tok (Doc.description d) = true)
    by apply contains_trans, Htok.
  destruct (Py.contains tok (Doc.title d)) eqn:E1.
  { left. split; [reflexivity|].
    destruct (Py.contains ql (Doc.title d));
      [|destruct (Py.contains ql (Doc.description d))];
      split; vm_compute; reflexivity. }
  right.
  destruct (Py.contains ql (Doc.title d)); [discriminate (Ht eq_refl)|].
  destruct (Py.contains tok (Doc.description d)) eqn:E2.
  { left. split; [reflexivity | split; [reflexivity|]].
    destruct (Py.contains ql (Doc.description d)).
    - split; [vm_compute; reflexivity | right; vm_compute; reflexivity].
    - split; [vm_compute; reflexivity | left; vm_compute; reflexivity]. }
  right.
  destruct (Py.contains ql (Doc.description d)); [discriminate (Hd eq_refl)|].
  destruct (Py.contains tok (Doc.tags d)) eqn:E3.
  { left. repeat (split; [reflexivity|]). split; vm_compute; reflexivity. }
  right.
  destruct (Py.contains tok (Doc.document_text d)) eqn:E4.
  { left. repeat (split; [reflexivity|]). split; vm_compute; reflexivity. }
  right. repeat (split; [reflexivity|]). vm_compute. reflexivity.
Qed.

(** X9: for a query of exactly one word, a stored document that passes
    the filters and whose title holds the lower-cased word is ranked with
    score exactly 1.0; and every returned pair belongs to a stored
    document that holds the word in its title (score 1.0), else in its
    description (score 2.0/3.0, or that plus 0.3), else in its tags (score
    2.0/3.0), else in its document text (score 1.0/3.0). *)
Theorem X9_one_word_query
    (self : service) (query word : string) (limit : Z) (filters : filters_t) :
  reachable self ->
  Py.split query = [word] ->
  (forall i d,
      In (i, d) (tickets_store self) ->
      skip_ticket filters d = false ->
      Py.contains (Py.lower word) (Doc.title d) = true ->
      In (i, f1_0) (ranked self query filters))
  /\ (forall i s,
         In (i, s) (fst (search_tickets self query limit filters)) ->
         exists d,
           In (i, d) (tickets_store self)
           /\ ((Py.contains (Py.lower word) (Doc.title d) = true /\ s = f1_0)
               \/ (Py.contains (Py.lower word) (Doc.title d) = false
                   /\ Py.contains (Py.lower word) (Doc.description d) = true
                   /\ (s = div (of_int 2) (of_int 3)
                       \/ s = add (div (of_int 2) (of_int 3)) f0_3))
               \/ (Py.contains (Py.lower word) (Doc.title d) = false
                   /\ Py.contains (Py.lower word) (Doc.description d) = false
                   /\ Py.contains (Py.lower word) (Doc.tags d) = true
                   /\ s = div (of_int 2) (of_int 3))
               \/ (Py.contains (Py.lower word) (Doc.title d) = false
                   /\ Py.contains (Py.lower word) (Doc.description d) = false
                   /\ Py.contains (Py.lower word) (Doc.tags d) = false
                   /\ Py.contains (Py.lower word) (Doc.document_text d) = true
                   /\ s = div (of_int 1) (of_int 3)))).
Proof.
  intros Hreach Hq.
  pose proof (initialize_store self (reachable_wf self Hreach)) as Hst.
  assert (Hts : Py.split (Py.lower query) = [Py.lower word])
    by (rewrite split_lower, Hq; reflexivity).
  assert (Htok : Py.contains (Py.lower word) (Py.lower query) = true).
  { apply split_occurs. rewrite Hts. left. reflexivity. }
  split.
  - intros i d Hin Hskip Htitle. apply In_ranked. exists d. rewrite Hts.
    destruct (raw_score_one_token (Py.lower query) (Py.lower word) d Htok)
      as [[_ [Hp Hm]]|[[E _]|[[E _]|[[E _]|[E _]]]]]; try congruence.
    repeat split; try assumption. symmetry. exact Hm.
  - intros i s Hin. apply In_search_ranked, In_ranked in Hin.
    destruct Hin as [d [Hd [_ [Hpos ->]]]]. rewrite Hst in Hd.
    exists d. split; [exact Hd|]. rewrite Hts in *.
    destruct (raw_score_one_token (Py.lower query) (Py.lower word) d Htok)
      as [[E1 [_ Hm]]|[[E1 [E2 [_ Hm]]]|[[E1 [E2 [E3 [_ Hm]]]]
         |[[E1 [E2 [E3 [E4 [_ Hm]]]]]|[_ [_ [_ [_ Hz]]]]]]]].
    + left. auto.
    + right. left. auto.
    + right. right. left. auto.
    + right. right. right. auto 6.
    + congruence.
Qed.

Lemma X9_witness :
  In (1%Z, f1_0) (ranked Examples.two_tickets "Performance" None).
Proof.
  apply (proj1 (X9_one_word_query Examples.two_tickets "Performance" "Performance"
                  10 None Claims.reachable_two_tickets eq_refl)
           1%Z (make_document Examples.ticket1)).
  - left. reflexivity.
  - reflexivity.
  - vm_compute. reflexivity.
Defined.

(** *** Filters *)

(** X10: filters whose values are all [None] change nothing: the search
    returns what it returns without filters. *)
Theorem X10_none_filters_are_ignored
    (self : service) (query : string) (limit : Z)
    (items : list (string * pyval)) :
  (forall kv, In kv items -> snd kv = PNone) ->
  fst (search_tickets self query limit (Some items))
  = fst (search_tickets self query limit None).
Proof.
  intros Hnone.
  assert (Hloop : forall d, filter_loop d items = false).
  { intros d. induction items as [|[key value] rest IH]; [reflexivity|].
    pose proof (Hnone (key, value) (or_introl eq_refl)) as Hv.
    cbn [snd] in Hv. subst value. cbn [filter_loop].
    apply IH. intros kv Hkv. apply Hnone. right. exact Hkv. }
  assert (Hskip : forall d, skip_ticket (Some items) d = skip_ticket None d).
  { intros d. destruct items as [|kv rest]; [reflexivity|].
    cbn [skip_ticket]. apply Hloop. }
  rewrite !fst_search_tickets. unfold ranked. f_equal. f_equal.
  induction (tickets_store (initialize self)) as [|[k d] m IH]; [reflexivity|].
  cbn [scan]. rewrite Hskip, IH. reflexivity.
Qed.

Lemma X10_witness :
  fst (search_tickets Examples.two_tickets "server" 10
         (Some [("status", PNone); ("severity", PNone)]))
  = fst (search_tickets Examples.two_tickets "server" 10 None).
Proof.
  apply (X10_none_filters_are_ignored Examples.two_tickets "server" 10
           [("status", PNone); ("severity", PNone)]).
  intros kv [<-|[<-|[]]]; reflexivity.
Defined.

(** X11: a filter whose value is the empty list excludes every
    document, also on a key the documents have: the search returns the
    empty list. *)
Theorem X11_empty_list_filter
    (self : service) (query : string) (limit : Z)
    (items : list (string * pyval)) (key : string) :
  In (key, PList []) items ->
  fst (search_tickets self query limit (Some items)) = [].
Proof.
  intros Hin.
  assert (Hskip : forall d, skip_ticket (Some items) d = true).
  { intros d. destruct items as [|kv rest]; [contradiction|].
    cbn [skip_ticket]. apply filter_loop_true. exists (key, PList []).
    split; [exact Hin|]. unfold Spec.satisfies. simpl. discriminate. }
  rewrite fst_search_tickets. unfold ranked.
  assert (Hscan : forall m, scan (Py.lower query) (Py.split (Py.lower query))
                              (Some items) m = []).
  { induction m as [|[k d] m IH]; [reflexivity|].
    cbn [scan]. rewrite Hskip. exact IH. }
  rewrite Hscan. unfold Py.slice_to. destruct (0 <=? limit)%Z; apply firstn_nil.
Qed.

Lemma X11_witness :
  fst (search_tickets Examples.two_tickets "server" 10
         (Some [("status", PList [])])) = [].
Proof.
  apply (X11_empty_list_filter Examples.two_tickets "server" 10
           [("status", PList [])] "status").
  left. reflexivity.
Defined.

Lemma filter_loop_satisfied (d : Doc.t) (items : list (string * pyval)) :
  (forall kv, In kv items -> Spec.satisfies d kv) -> filter_loop d items = false.
Proof.
  induction items as [|[key value] rest IH]; intros H; [reflexivity|].
  pose proof (H (key, value) (or_introl eq_refl)) as Hkv.
  assert (Hrest : filter_loop d rest = false)
    by (apply IH; intros kv Hin; apply H; right; exact Hin).
  unfold Spec.satisfies in Hkv. cbn [fst snd] in Hkv. cbn [filter_loop].
  destruct value as [ |b|n|s|l]; try exact Hrest;
    unfold py_ne; rewrite Hkv; exact Hrest.
Qed.

(** X12: the filter loop skips a document exactly when some filter is
    not satisfied by it (a list by membership, another value that is not
    [None] by equality); so a stored document that satisfies every filter
    and has a positive score is among the candidates of the query. *)
Theorem X12_filters_exclude_nothing_else
    (self : service) (query : string) (filters : filters_t) (i : Z) (d : Doc.t) :
  (skip_ticket filters d = false <-> Spec.satisfies_all filters d)
  /\ (In (i, d) (tickets_store self) ->
      Spec.satisfies_all filters d ->
      ltb f0_0 (raw_score (Py.lower query) (Py.split (Py.lower query)) d) = true ->
      In i (map fst (ranked self query filters))).
Proof.
  assert (Hiff : skip_ticket filters d = false <-> Spec.satisfies_all filters d).
  { split; [apply skip_ticket_false|].
    destruct filters as [[|kv items]|]; simpl; try reflexivity.
    intros H. apply (filter_loop_satisfied d (kv :: items)). exact H. }
  split; [exact Hiff|].
  intros Hin Hsat Hpos. apply in_map_iff.
  exists (i, py_min (raw_score (Py.lower query) (Py.split (Py.lower query)) d) f1_0).
  split; [reflexivity|]. apply In_ranked. exists d.
  repeat split; try assumption. apply Hiff. exact Hsat.
Qed.

Lemma X12_witness :
  In 2%Z (map fst (ranked Examples.two_tickets "server"
                     (Some [("priority", PList [PStr "low"]); ("assignee", PStr "bob")]))).
Proof.
  apply (proj2 (X12_filters_exclude_nothing_else Examples.two_tickets "server"
                  (Some [("priority", PList [PStr "low"]); ("assignee", PStr "bob")])
                  2%Z (make_document Examples.ticket2))).
  - right. left. reflexivity.
  - intros kv [<-|[<-|[]]]; reflexivity.
  - vm_compute. reflexivity.
Defined.

(** *** get_similar_tickets *)

Lemma strongly_sorted_filter (R : Z * float -> Z * float -> Prop)
    (p : Z * float -> bool) (l : list (Z * float)) :
  StronglySorted R l -> StronglySorted R (filter p l).
Proof.
  induction 1 as [|x l Hl IH Hx]; simpl; [constructor|].
  destruct (p x); [|exact IH].
  constructor; [exact IH|].
  rewrite Forall_forall in *. intros y Hy. apply Hx.
  apply filter_In in Hy. tauto.
Qed.

(** What [get_similar_tickets] cuts from: the ranking of its query without
    the pairs of the ticket's id. *)
Lemma similar_top (self : service) (ticket : Ticket.t) (limit : Z) :
  wf self ->
  (0 <= limit)%Z ->
  fst (get_similar_tickets self ticket limit)
  = firstn (Z.to_nat limit)
      (without_id (Ticket.id ticket)
         (ranked self
            (Ticket.title ticket ++ " " ++ Ticket.description ticket)%string None)).
Proof.
  intros Hwf Hlimit.
  change (fst (get_similar_tickets self ticket limit))
    with (Py.slice_to limit
            (without_id (Ticket.id ticket)
               (Py.slice_to (limit + 1)
                  (ranked (initialize self)
                     (Ticket.title ticket ++ " " ++ Ticket.description ticket)%string
                     None)))).
  assert (Hr : forall q, ranked (initialize self) q None = ranked self q None).
  { intros q. unfold ranked. rewrite (initialize_store self Hwf). reflexivity. }
  rewrite Hr. unfold Py.slice_to.
  destruct (0 <=? limit)%Z eqn:E1; [|apply Z.leb_gt in E1; lia].
  destruct (0 <=? limit + 1)%Z eqn:E2; [|apply Z.leb_gt in E2; lia].
  replace (Z.to_nat (limit + 1)) with (S (Z.to_nat limit)) by lia.
  apply firstn_without_id. apply NoDup_ranked. exact Hwf.
Qed.

(** X13: asking the search for [limit + 1] results is enough to make up
    for the ticket's own pair: on a state of the service and for a limit
    that is not negative, [get_similar_tickets] returns the first [limit]
    pairs of the whole ranking for its query without the pairs of the
    ticket's id. *)
Theorem X13_similar_is_top_of_ranking
    (self : service) (ticket : Ticket.t) (limit : Z) :
  reachable self ->
  (0 <= limit)%Z ->
  fst (get_similar_tickets self ticket limit)
  = firstn (Z.to_nat limit)
      (without_id (Ticket.id ticket)
         (ranked self
            (Ticket.title ticket ++ " " ++ Ticket.description ticket)%string None)).
Proof.
  intros Hreach Hlimit. apply similar_top; [|exact Hlimit].
  apply reachable_wf. exact Hreach.
Qed.

Lemma X13_witness :
  fst (get_similar_tickets Examples.two_tickets Examples.ticket1 1)
  = firstn (Z.to_nat 1)
      (without_id 1
         (ranked Examples.two_tickets
            (Ticket.title Examples.ticket1 ++ " "
             ++ Ticket.description Examples.ticket1)%string None)).
Proof.
  apply (X13_similar_is_top_of_ranking Examples.two_tickets Examples.ticket1 1).
  - exact Claims.reachable_two_tickets.
  - lia.
Defined.

(** X14: the pairs [get_similar_tickets] returns are in order of
    non-increasing score, every score is greater than 0 and at most 1.0,
    and every id is a key of the store. *)
Theorem X14_similar_ranked_and_bounded
    (self : service) (ticket : Ticket.t) (limit : Z) :
  Spec.non_increasing (fst (get_similar_tickets self ticket limit))
  /\ (forall i s,
         In (i, s) (fst (get_similar_tickets self ticket limit)) ->
         ltb f0_0 s = true /\ leb s f1_0 = true
         /\ In i (dict_keys (tickets_store self))).
Proof.
  change (fst (get_similar_tickets self ticket limit))
    with (Py.slice_to limit
            (without_id (Ticket.id ticket)
               (fst (search_tickets self
                       (Ticket.title ticket ++ " " ++ Ticket.description ticket)%string
                       (limit + 1) None)))).
  set (q := (Ticket.title ticket ++ " " ++ Ticket.description ticket)%string).
  split.
  - destruct (slice_to_prefix limit
                (without_id (Ticket.id ticket)
                   (fst (search_tickets self q (limit + 1) None)))) as [k ->].
    apply sorted_firstn. apply StronglySorted_Sorted.
    apply strongly_sorted_filter. apply non_increasing_strongly.
    rewrite fst_search_tickets.
    destruct (slice_to_prefix (limit + 1) (ranked (initialize self) q None)) as [k' ->].
    apply sorted_firstn. apply ranked_non_increasing.
  - intros i s Hin. apply In_slice_to in Hin. apply filter_In in Hin.
    destruct Hin as [Hin _].
    assert (Hkey : In i (dict_keys (tickets_store self))).
    { apply (search_ids self q (limit + 1) None). apply in_map_iff.
      exists (i, s). auto. }
    apply In_search_ranked, In_ranked in Hin.
    destruct Hin as [d [_ [_ [Hpos ->]]]].
    destruct (py_min_one_bounds _ Hpos) as [H1 H2]. auto.
Qed.


(** *** The callers of get_similar_tickets *)

Lemma without_id_idem (ticket_id : Z) (l : list (Z * float)) :
  without_id ticket_id (without_id ticket_id l) = without_id ticket_id l.
Proof.
  unfold without_id. apply forallb_filter_id. apply forallb_forall.
  intros x Hx. apply filter_In in Hx. tauto.
Qed.

Lemma without_id_firstn (ticket_id : Z) (k : nat) (l : list (Z * float)) :
  without_id ticket_id (firstn k (without_id ticket_id l))
  = firstn k (without_id ticket_id l).
Proof.
  unfold without_id. apply forallb_filter_id. apply forallb_forall.
  intros x Hx. apply In_firstn, filter_In in Hx. tauto.
Qed.

(** The ids of the first [n] pairs, taken from the first [m >= n] pairs
    once more without the id. *)
Lemma ids_of_top (ticket_id : Z) (n m : nat) (l : list (Z * float)) :
  (n <= m)%nat ->
  firstn n (map fst (without_id ticket_id (firstn m (without_id ticket_id l))))
  = map fst (firstn n (without_id ticket_id l)).
Proof.
  intros Hnm. rewrite without_id_firstn, firstn_map, firstn_firstn.
  f_equal. f_equal. lia.
Qed.

(** X15: the route for similar tickets asks [get_similar_tickets] for
    [limit + 1] results and drops the ticket's id once more; on a state of
    the service and for [limit >= 0] the ids it looks up are exactly the
    ids [get_similar_tickets] returns for [limit]: at most [limit], none
    of them the ticket's own, none repeated. *)
Theorem X15_route_similar_ids
    (vector_store : service) (ticket : Ticket.t) (limit : Z) :
  reachable vector_store ->
  (0 <= limit)%Z ->
  fst (route_similar_ticket_ids vector_store (Ticket.id ticket) ticket limit)
  = map fst (fst (get_similar_tickets vector_store ticket limit))
  /\ (Z.of_nat (List.length
                  (fst (route_similar_ticket_ids vector_store (Ticket.id ticket)
                          ticket limit))) <= limit)%Z
  /\ ~ In (Ticket.id ticket)
         (fst (route_similar_ticket_ids vector_store (Ticket.id ticket) ticket limit))
  /\ NoDup (fst (route_similar_ticket_ids vector_store (Ticket.id ticket) ticket limit)).
Proof.
  intros Hreach Hlimit. pose proof (reachable_wf vector_store Hreach) as Hwf.
  set (q := (Ticket.title ticket ++ " " ++ Ticket.description ticket)%string).
  assert (Heq : fst (route_similar_ticket_ids vector_store (Ticket.id ticket) ticket limit)
                = map fst (fst (get_similar_tickets vector_store ticket limit))).
  { change (fst (route_similar_ticket_ids vector_store (Ticket.id ticket) ticket limit))
      with (Py.slice_to limit
              (map fst (without_id (Ticket.id ticket)
                          (fst (get_similar_tickets vector_store ticket (limit + 1)))))).
    rewrite (similar_top vector_store ticket (limit + 1) Hwf) by lia.
    rewrite (similar_top vector_store ticket limit Hwf) by lia.
    unfold Py.slice_to.
    destruct (0 <=? limit)%Z eqn:E; [|apply Z.leb_gt in E; lia].
    apply ids_of_top. lia. }
  rewrite Heq. split; [reflexivity | split; [|split]].
  - rewrite length_map, (similar_top vector_store ticket limit Hwf) by lia.
    rewrite length_firstn. lia.
  - intros Hin. apply in_map_iff in Hin. destruct Hin as [[i s] [Hi Hin]].
    simpl in Hi. subst i.
    rewrite (similar_top vector_store ticket limit Hwf) in Hin by lia.
    apply In_firstn, filter_In in Hin. destruct Hin as [_ Hne].
    simpl in Hne. rewrite Z.eqb_refl in Hne. discriminate.
  - change (fst (get_similar_tickets vector_store ticket limit))
      with (Py.slice_to limit
              (without_id (Ticket.id ticket)
                 (fst (search_tickets vector_store q (limit + 1) None)))).
    apply NoDup_slice_ids, NoDup_filter_ids, NoDup_search. exact Hwf.
Qed.

Lemma X15_witness :
  fst (route_similar_ticket_ids Examples.two_tickets 1 Examples.ticket1 3)
  = map fst (fst (get_similar_tickets Examples.two_tickets Examples.ticket1 3)).
Proof.
  apply (proj1 (X15_route_similar_ids Examples.two_tickets Examples.ticket1 3
                  Claims.reachable_two_tickets ltac:(lia))).
Defined.

(** X16: the ids [get_ticket_with_ai_insights] reports as similar are, on
    a state of the service, the ids of the three best pairs
    [get_similar_tickets] ranks for the ticket: at most three, and never
    the ticket's own. *)
Theorem X16_insights_similar_ids (vector_store : service) (ticket : Ticket.t) :
  reachable vector_store ->
  fst (insights_similar_ticket_ids vector_store ticket)
  = map fst (fst (get_similar_tickets vector_store ticket 3))
  /\ (List.length (fst (insights_similar_ticket_ids vector_store ticket)) <= 3)%nat
  /\ ~ In (Ticket.id ticket) (fst (insights_similar_ticket_ids vector_store ticket)).
Proof.
  intros Hreach. pose proof (reachable_wf vector_store Hreach) as Hwf.
  assert (Heq : fst (insights_similar_ticket_ids vector_store ticket)
                = map fst (fst (get_similar_tickets vector_store ticket 3))).
  { change (fst (insights_similar_ticket_ids vector_store ticket))
      with (Py.slice_to 3
              (map fst (without_id (Ticket.id ticket)
                          (fst (get_similar_tickets vector_store ticket 5))))).
    rewrite (similar_top vector_store ticket 5 Hwf) by lia.
    rewrite (similar_top vector_store ticket 3 Hwf) by lia.
    change (Py.slice_to 3) with (@firstn Z 3).
    change (Z.to_nat 5) with 5%nat. change (Z.to_nat 3) with 3%nat.
    apply ids_of_top. lia. }
  rewrite Heq. split; [reflexivity | split].
  - rewrite length_map, (similar_top vector_store ticket 3 Hwf) by lia.
    rewrite length_firstn. lia.
  - intros Hin. apply in_map_iff in Hin. destruct Hin as [[i s] [Hi Hin]].
    simpl in Hi. subst i.
    rewrite (similar_top vector_store ticket 3 Hwf) in Hin by lia.
    apply In_firstn, filter_In in Hin. destruct Hin as [_ Hne].
    simpl in Hne. rewrite Z.eqb_refl in Hne. discriminate.
Qed.

Lemma X16_witness :
  fst (insights_similar_ticket_ids Examples.two_tickets Examples.ticket1)
  = map fst (fst (get_similar_tickets Examples.two_tickets Examples.ticket1 3)).
Proof.
  apply (proj1 (X16_insights_similar_ids Examples.two_tickets Examples.ticket1
                  Claims.reachable_two_tickets)).
Defined.

(** *** search_tickets_with_context *)

Lemma py_in_values {A : Type} (value : A -> string) (x : string) (l : list A) :
  py_in (PStr x) (map (fun a => PStr (value a)) l) = true <->
  exists a, In a l /\ x = value a.
Proof.
  unfold py_in. rewrite existsb_exists. split.
  - intros [v [Hin Hv]]. apply in_map_iff in Hin. destruct Hin as [a [<- Ha]].
    simpl in Hv. apply String.eqb_eq in Hv. exists a. auto.
  - intros [a [Ha ->]]. exists (PStr (value a)). split.
    + apply in_map_iff. exists a. auto.
    + simpl. apply String.eqb_refl.
Qed.

(** The entries of the dict that lines 50-60 build. *)
Lemma In_build_filters (r : SearchRequest.t) (kv : string * pyval) :
  In kv (build_filters r) <->
  (truthy_list (SearchRequest.status r) = true
   /\ kv = ("status", PList (map (fun s => PStr (status_value s))
                               (list_or (SearchRequest.status r) []))))
  \/ (truthy_list (SearchRequest.priority r) = true
      /\ kv = ("priority", PList (map (fun p => PStr (priority_value p))
                                    (list_or (SearchRequest.priority r) []))))
  \/ (truthy_list (SearchRequest.category r) = true
      /\ kv = ("category", PList (map (fun c => PStr (category_value c))
                                    (list_or (SearchRequest.category r) []))))
  \/ (truthy_str (SearchRequest.assignee r) = true
      /\ kv = ("assignee", PStr (str_or (SearchRequest.assignee r) "")))
  \/ (truthy_str (SearchRequest.reporter r) = true
      /\ kv = ("reporter", PStr (str_or (SearchRequest.reporter r) ""))).
Proof.
  unfold build_filters.
  destruct (truthy_list (SearchRequest.status r));
    destruct (truthy_list (SearchRequest.priority r));
    destruct (truthy_list (SearchRequest.category r));
    destruct (truthy_str (SearchRequest.assignee r));
    destruct (truthy_str (SearchRequest.reporter r));
    cbn [app In]; split; intros H;
    repeat match goal with
           | H : _ \/ _ |- _ => destruct H
           | H : _ /\ _ |- _ => destruct H
           | H : False |- _ => destruct H
           | H : false = true |- _ => discriminate H
           end; subst; auto 10.
Qed.

Lemma context_ids (self : SimpleRAGService) (vector_store : service)
    (r : SearchRequest.t) (t : float) :
  SearchRequest.use_semantic_search r = true ->
  ticket_ids (fst (fst (search_tickets_with_context self vector_store r t)))
  = map fst (fst (search_tickets vector_store (SearchRequest.query r)
                    (SearchRequest.limit r) (Some (build_filters r)))).
Proof.
  intros H. unfold search_tickets_with_context. rewrite H. reflexivity.
Qed.

(** X17: with semantic search on, every id [search_tickets_with_context]
    returns belongs to a stored document that meets the request: its
    status, priority and category are among the ones the request lists,
    and its assignee and reporter are the ones the request names, for
    each of these the request gives (a list that is not empty, a string
    that is not empty). *)
Theorem X17_context_search_respects_request
    (self : SimpleRAGService) (vector_store : service)
    (r : SearchRequest.t) (t : float) (i : Z) :
  reachable vector_store ->
  SearchRequest.use_semantic_search r = true ->
  In i (ticket_ids (fst (fst (search_tickets_with_context self vector_store r t)))) ->
  exists d,
    dict_get i (tickets_store vector_store) = Some d
    /\ (truthy_list (SearchRequest.status r) = true ->
        exists s, In s (list_or (SearchRequest.status r) [])
                  /\ Doc.status d = status_value s)
    /\ (truthy_list (SearchRequest.priority r) = true ->
        exists p, In p (list_or (SearchRequest.priority r) [])
                  /\ Doc.priority d = priority_value p)
    /\ (truthy_list (SearchRequest.category r) = true ->
        exists c, In c (list_or (SearchRequest.category r) [])
                  /\ Doc.category d = category_value c)
    /\ (truthy_str (SearchRequest.assignee r) = true ->
        SearchRequest.assignee r = Some (Doc.assignee d))
    /\ (truthy_str (SearchRequest.reporter r) = true ->
        SearchRequest.reporter r = Some (Doc.reporter d)).
Proof.
  intros Hreach Hsem Hin. pose proof (reachable_wf vector_store Hreach) as Hwf.
  rewrite (context_ids self vector_store r t Hsem) in Hin.
  apply in_map_iff in Hin. destruct Hin as [[i' s] [Hi Hin]].
  simpl in Hi. subst i'.
  apply In_search_ranked, In_ranked in Hin.
  destruct Hin as [d [Hd [Hskip _]]].
  rewrite (initialize_store vector_store Hwf) in Hd.
  apply skip_ticket_false in Hskip. cbn [Spec.satisfies_all] in Hskip.
  exists d. split; [apply dict_get_In; [apply Hwf | exact Hd]|].
  assert (Hstr : forall o : option string,
             truthy_str o = true -> forall x, str_or o "" = x -> o = Some x).
  { intros [[|c o]|] Ho x Hx; try discriminate. simpl in Hx. congruence. }
  repeat split; intros Ht.
  - assert (Hk := Hskip _ (proj2 (In_build_filters r _) (or_introl (conj Ht eq_refl)))).
    apply (py_in_values status_value). exact Hk.
  - assert (Hk := Hskip _ (proj2 (In_build_filters r _)
                             (or_intror (or_introl (conj Ht eq_refl))))).
    apply (py_in_values priority_value). exact Hk.
  - assert (Hk := Hskip _ (proj2 (In_build_filters r _)
                             (or_intror (or_intror (or_introl (conj Ht eq_refl)))))).
    apply (py_in_values category_value). exact Hk.
  - assert (Hk := Hskip _ (proj2 (In_build_filters r _)
                             (or_intror (or_intror (or_intror
                                (or_introl (conj Ht eq_refl))))))).
    unfold Spec.satisfies in Hk. simpl in Hk. apply String.eqb_eq in Hk.
    apply (Hstr _ Ht). symmetry. exact Hk.
  - assert (Hk := Hskip _ (proj2 (In_build_filters r _)
                             (or_intror (or_intror (or_intror
                                (or_intror (conj Ht eq_refl))))))).
    unfold Spec.satisfies in Hk. simpl in Hk. apply String.eqb_eq in Hk.
    apply (Hstr _ Ht). symmetry. exact Hk.
Qed.

Lemma X17_witness :
  exists d,
    dict_get 1 (tickets_store Examples.two_tickets) = Some d
    /\ (exists s, In s [OPEN; PENDING] /\ Doc.status d = status_value s)
    /\ Some "alice" = Some (Doc.reporter d).
Proof.
  destruct (X17_context_search_respects_request MoreExamples.rag0
              Examples.two_tickets MoreExamples.request_open f0_0 1%Z
              Claims.reachable_two_tickets eq_refl)
    as [d [Hd [Hs [_ [_ [_ Hr]]]]]].
  - vm_compute. left. reflexivity.
  - exists d. split; [exact Hd | split].
    + apply Hs. reflexivity.
    + apply Hr. reflexivity.
Defined.

Lemma score_dict_set_new (k : Z) (v : float) (m : list (Z * float)) :
  ~ In k (map fst m) -> score_dict_set k v m = m ++ [(k, v)].
Proof.
  induction m as [|[k' v'] m IH]; simpl; intros H; [reflexivity|].
  destruct (k' =? k)%Z eqn:E.
  - apply Z.eqb_eq in E. tauto.
  - rewrite IH by tauto. reflexivity.
Qed.

Lemma similarity_dict_from (l acc : list (Z * float)) :
  NoDup (map fst (acc ++ l)) ->
  fold_left (fun m result => score_dict_set (fst result) (snd result) m) l acc
  = acc ++ l.
Proof.
  revert acc. induction l as [|[k v] l IH]; intros acc H; simpl.
  - rewrite app_nil_r. reflexivity.
  - rewrite score_dict_set_new.
    + rewrite IH; rewrite <- app_assoc; [reflexivity | exact H].
    + rewrite map_app in H. apply NoDup_remove_2 in H.
      intros Hin. apply H. apply in_app_iff. left. exact Hin.
Qed.

(** A list of pairs with distinct ids gives the dict with the same
    entries in the same order. *)
Lemma similarity_dict_distinct (l : list (Z * float)) :
  NoDup (map fst l) -> similarity_dict l = l.
Proof. intros H. apply (similarity_dict_from l []). exact H. Qed.

(** X18: for a request that meets the constraints of the model, on a
    state of the service, [search_tickets_with_context] returns at most
    [limit] ids, none of them twice; [total_results] is their number,
    [similarity_scores] holds one entry for each of them, in the same
    order, with the score of the search; and with semantic search off it
    returns no id and leaves the vector store as it is. *)
Theorem X18_context_search_shape
    (self : SimpleRAGService) (vector_store : service)
    (r : SearchRequest.t) (t : float) :
  reachable vector_store ->
  SearchRequest.valid r ->
  total_results (fst (fst (search_tickets_with_context self vector_store r t)))
  = Z.of_nat (List.length
                (ticket_ids (fst (fst (search_tickets_with_context self vector_store r t)))))
  /\ (total_results (fst (fst (search_tickets_with_context self vector_store r t)))
      <= SearchRequest.limit r)%Z
  /\ NoDup (ticket_ids (fst (fst (search_tickets_with_context self vector_store r t))))
  /\ map fst (similarity_scores
                (fst (fst (search_tickets_with_context self vector_store r t))))
     = ticket_ids (fst (fst (search_tickets_with_context self vector_store r t)))
  /\ (SearchRequest.use_semantic_search r = true ->
      similarity_scores (fst (fst (search_tickets_with_context self vector_store r t)))
      = fst (search_tickets vector_store (SearchRequest.query r)
               (SearchRequest.limit r) (Some (build_filters r))))
  /\ (SearchRequest.use_semantic_search r = false ->
      ticket_ids (fst (fst (search_tickets_with_context self vector_store r t))) = []
      /\ snd (search_tickets_with_context self vector_store r t) = vector_store).
Proof.
  intros Hreach [_ [Hlo Hhi]]. pose proof (reachable_wf vector_store Hreach) as Hwf.
  unfold search_tickets_with_context.
  destruct (SearchRequest.use_semantic_search r) eqn:Hsem.
  - set (res := search_tickets vector_store (SearchRequest.query r)
                  (SearchRequest.limit r) (Some (build_filters r))).
    assert (Hnd : NoDup (map fst (fst res))) by (apply NoDup_search; exact Hwf).
    replace (let '(ticket_results, vector_store0) := res in
             ({| ticket_ids := map fst ticket_results;
                 similarity_scores := similarity_dict ticket_results;
                 search_time_ms := t;
                 total_results := Z.of_nat (List.length (map fst ticket_results)) |},
              rag_initialize self, vector_store0))
      with ({| ticket_ids := map fst (fst res);
               similarity_scores := similarity_dict (fst res);
               search_time_ms := t;
               total_results := Z.of_nat (List.length (map fst (fst res))) |},
            rag_initialize self, snd res)
      by (destruct res; reflexivity).
    cbn [fst snd ticket_ids similarity_scores total_results].
    rewrite (similarity_dict_distinct _ Hnd).
    split; [reflexivity | split; [|split; [exact Hnd | split; [reflexivity|]]]].
    + rewrite length_map. unfold res. rewrite fst_search_tickets.
      rewrite length_slice_to_nonneg by lia. lia.
    + split; [reflexivity | discriminate].
  - cbn [fst snd ticket_ids similarity_scores total_results List.length map].
    split; [reflexivity | split; [simpl; lia | split; [constructor|]]].
    split; [reflexivity | split; [discriminate | auto]].
Qed.

Lemma X18_witness :
  total_results
    (fst (fst (search_tickets_with_context MoreExamples.rag0 Examples.two_tickets
                 MoreExamples.request_open f0_0))) = 1%Z.
Proof.
  assert (Hv : SearchRequest.valid MoreExamples.request_open).
  { split; [simpl; lia | simpl; lia]. }
  rewrite (proj1 (X18_context_search_shape MoreExamples.rag0 Examples.two_tickets
                    MoreExamples.request_open f0_0 Claims.reachable_two_tickets Hv)).
  vm_compute. reflexivity.
Defined.

(** X19: a request never hides a ticket that meets it: the document
    built from a ticket whose status, priority and category are among the
    ones the request lists, and whose assignee and reporter are the ones
    the request names (for each of these the request gives), passes the
    filters the request is turned into. *)
Theorem X19_matching_ticket_passes_filters
    (r : SearchRequest.t) (ticket : Ticket.t) :
  (truthy_list (SearchRequest.status r) = true ->
   In (Ticket.status ticket) (list_or (SearchRequest.status r) [])) ->
  (truthy_list (SearchRequest.priority r) = true ->
   In (Ticket.priority ticket) (list_or (SearchRequest.priority r) [])) ->
  (truthy_list (SearchRequest.category r) = true ->
   In (Ticket.category ticket) (list_or (SearchRequest.category r) [])) ->
  (truthy_str (SearchRequest.assignee r) = true ->
   SearchRequest.assignee r = Ticket.assignee ticket) ->
  (truthy_str (SearchRequest.reporter r) = true ->
   SearchRequest.reporter r = Some (Ticket.reporter ticket)) ->
  skip_ticket (Some (build_filters r)) (make_document ticket) = false.
Proof.
  intros Hs Hp Hc Ha Hr.
  assert (Hall : forall kv, In kv (build_filters r) ->
                           Spec.satisfies (make_document ticket) kv).
  2:{ destruct (build_filters r) as [|kv0 rest] eqn:E; [reflexivity|].
      cbn [skip_ticket]. apply filter_loop_satisfied. exact Hall. }
  intros kv Hkv. apply In_build_filters in Hkv.
  destruct Hkv as [[Ht ->]|[[Ht ->]|[[Ht ->]|[[Ht ->]|[Ht ->]]]]];
    unfold Spec.satisfies; cbn [fst snd].
  - apply (py_in_values status_value). exists (Ticket.status ticket). auto.
  - apply (py_in_values priority_value). exists (Ticket.priority ticket). auto.
  - apply (py_in_values category_value). exists (Ticket.category ticket). auto.
  - simpl. rewrite (Ha Ht). apply String.eqb_refl.
  - pose proof (Hr Ht) as Hr'. rewrite Hr' in Ht |- *.
    destruct (Ticket.reporter ticket) as [|c rep] eqn:E; [discriminate Ht|].
    simpl. rewrite E. apply String.eqb_refl.
Qed.

Lemma X19_witness :
  skip_ticket (Some (build_filters MoreExamples.request_open))
    (make_document Examples.ticket1) = false.
Proof.
  apply (X19_matching_ticket_passes_filters MoreExamples.request_open Examples.ticket1).
  - intros _. left. reflexivity.
  - discriminate.
  - discriminate.
  - discriminate.
  - reflexivity.
Defined.

(** *** analyze_ticket_sentiment *)

Lemma count_from_ge (kws : list string) (text : string) (n : Z) :
  (n <= fold_left (fun n word => if Py.contains word text then n + 1 else n) kws n)%Z.
Proof.
  revert n. induction kws as [|w kws IH]; intros n; simpl; [lia|].
  destruct (Py.contains w text); [specialize (IH (n + 1)%Z) | specialize (IH n)]; lia.
Qed.

Lemma count_from_same (kws : list string) (text : string) (n : Z) :
  fold_left (fun n word => if Py.contains word text then n + 1 else n)%Z kws n = n
  <-> forall w, In w kws -> Py.contains w text = false.
Proof.
  revert n. induction kws as [|w kws IH]; intros n; simpl.
  - split; [intros _ ? [] | reflexivity].
  - destruct (Py.contains w text) eqn:E.
    + split.
      * intros H. pose proof (count_from_ge kws text (n + 1)). lia.
      * intros H. specialize (H w (or_introl eq_refl)). congruence.
    + rewrite IH. split.
      * intros H x [<-|Hx]; auto.
      * intros H x Hx. apply H. auto.
Qed.

(** No keyword of the list occurs in the text exactly when the count
    is 0; the count is never negative. *)
Lemma count_keywords_zero (kws : list string) (text : string) :
  (0 <= count_keywords kws text)%Z
  /\ (count_keywords kws text = 0%Z
      <-> forall w, In w kws -> Py.contains w text = false).
Proof.
  split; [apply count_from_ge | apply count_from_same].
Qed.

(** X20: [analyze_ticket_sentiment] always returns an analysis; its
    urgency is never lower than the priority of the ticket; the list of
    concerns is never empty and names "High priority issue" exactly for
    the priorities high and critical; the recommended action is
    "immediate" exactly for the urgency "critical" and "priority" exactly
    for "high". *)
Theorem X20_sentiment_urgency_and_action
    (self : SimpleRAGService) (ticket : Ticket.t) :
  exists r,
    fst (analyze_ticket_sentiment self ticket) = Some r
    /\ (level (priority_value (Ticket.priority ticket)) <= level (urgency r))%Z
    /\ concerns r <> []
    /\ (In "High priority issue" (concerns r)
        <-> (2 <= level (priority_value (Ticket.priority ticket)))%Z)
    /\ (recommended_action r = "immediate" <-> urgency r = "critical")
    /\ (recommended_action r = "priority" <-> urgency r = "high").
Proof.
  unfold analyze_ticket_sentiment. cbv zeta.
  set (text := Py.lower (Ticket.title ticket ++ " " ++ Ticket.description ticket)%string).
  set (u := count_keywords urgent_keywords text).
  set (n := count_keywords negative_keywords text).
  set (p := count_keywords positive_keywords text).
  clearbody u n p.
  eexists. split; [reflexivity|].
  cbn [urgency concerns recommended_action].
  destruct (Ticket.priority ticket); cbn [priority_value];
    destruct (2 <=? u)%Z, (1 <=? u)%Z, (0 <? u)%Z, (0 <? n)%Z;
    vm_compute; repeat split; intros; try discriminate; try lia;
    repeat match goal with
           | H : _ \/ _ |- _ => destruct H
           | H : False |- _ => destruct H
           end; try discriminate; auto 10.
Qed.

(** X21: the sentiment is "neutral" exactly when no keyword of the three
    lists occurs in the lower-cased title and description; it is
    "positive" only when a positive keyword occurs; and the urgency is
    "low" only for a ticket of low priority in which no urgent keyword
    occurs. *)
Theorem X21_sentiment_follows_keywords
    (self : SimpleRAGService) (ticket : Ticket.t) :
  exists r,
    fst (analyze_ticket_sentiment self ticket) = Some r
    /\ (sentiment r = "neutral"
        <-> forall w,
              In w (urgent_keywords ++ negative_keywords ++ positive_keywords) ->
              Py.contains w
                (Py.lower (Ticket.title ticket ++ " " ++ Ticket.description ticket)%string)
              = false)
    /\ (sentiment r = "positive" ->
        exists w,
          In w positive_keywords
          /\ Py.contains w
               (Py.lower (Ticket.title ticket ++ " " ++ Ticket.description ticket)%string)
             = true)
    /\ (urgency r = "low" ->
        Ticket.priority ticket = LOW
        /\ forall w,
             In w urgent_keywords ->
             Py.contains w
               (Py.lower (Ticket.title ticket ++ " " ++ Ticket.description ticket)%string)
             = false).
Proof.
  unfold analyze_ticket_sentiment. cbv zeta.
  set (text := Py.lower (Ticket.title ticket ++ " " ++ Ticket.description ticket)%string).
  destruct (count_keywords_zero urgent_keywords text) as [Hu0 Hu].
  destruct (count_keywords_zero negative_keywords text) as [Hn0 Hn].
  destruct (count_keywords_zero positive_keywords text) as [Hp0 Hp].
  set (u := count_keywords urgent_keywords text) in *.
  set (n := count_keywords negative_keywords text) in *.
  set (p := count_keywords positive_keywords text) in *.
  clearbody u n p.
  eexists. split; [reflexivity|].
  cbn [sentiment urgency].
  split; [|split].
  - destruct (n <? p)%Z eqn:E1.
    + split; [discriminate|]. intros H. apply Z.ltb_lt in E1.
      assert (p = 0%Z) by (apply Hp; intros w Hw; apply H; rewrite !in_app_iff; auto).
      lia.
    + apply Z.ltb_ge in E1.
      destruct (0 <? n)%Z eqn:E2; [|destruct (0 <? u)%Z eqn:E3]; cbn [orb].
      * split; [discriminate|]. intros H. apply Z.ltb_lt in E2.
        assert (n = 0%Z) by (apply Hn; intros w Hw; apply H; rewrite !in_app_iff; auto).
        lia.
      * split; [discriminate|]. intros H. apply Z.ltb_lt in E3.
        assert (u = 0%Z) by (apply Hu; intros w Hw; apply H; rewrite !in_app_iff; auto).
        lia.
      * apply Z.ltb_ge in E2, E3. split; [intros _|reflexivity].
        intros w Hw. rewrite !in_app_iff in Hw.
        destruct Hw as [Hw|[Hw|Hw]].
        -- apply Hu; [lia | exact Hw].
        -- apply Hn; [lia | exact Hw].
        -- apply Hp; [lia | exact Hw].
  - destruct (n <? p)%Z eqn:E1.
    + intros _. apply Z.ltb_lt in E1.
      destruct (existsb (fun w => Py.contains w text) positive_keywords) eqn:Ex.
      * apply existsb_exists in Ex. exact Ex.
      * exfalso. assert (p = 0%Z); [|lia].
        apply Hp. intros w Hw.
        destruct (Py.contains w text) eqn:Ew; [|reflexivity].
        assert (existsb (fun w => Py.contains w text) positive_keywords = true)
          by (apply existsb_exists; exists w; auto).
        congruence.
    + destruct ((0 <? n)%Z || (0 <? u)%Z); discriminate.
  - destruct (Ticket.priority ticket); cbn [priority_value];
      destruct (2 <=? u)%Z eqn:E2, (1 <=? u)%Z eqn:E1;
      vm_compute; try discriminate.
    intros _. split; [reflexivity|]. apply Hu.
    change ((1 ?= u)%Z = Gt -> False) with (1 <= u)%Z in *.
    apply Z.leb_gt in E1. lia.
Qed.

(** *** generate_ticket_insights *)

Lemma counts_get_set_eq (k : string) (v : Z) (m : counts) :
  counts_get k (counts_set k v m) = v.
Proof.
  induction m as [|[k' n] m IH]; simpl.
  - rewrite String.eqb_refl. reflexivity.
  - destruct (String.eqb k' k) eqn:E; simpl; rewrite E; [reflexivity | exact IH].
Qed.

Lemma counts_get_set_ne (k k0 : string) (v : Z) (m : counts) :
  k0 <> k -> counts_get k0 (counts_set k v m) = counts_get k0 m.
Proof.
  intros Hne. induction m as [|[k' n] m IH]; simpl.
  - destruct (String.eqb_spec k k0); [congruence | reflexivity].
  - destruct (String.eqb_spec k' k) as [->|Hk]; simpl.
    + destruct (String.eqb_spec k k0); [congruence | reflexivity].
    + destruct (String.eqb k' k0); [reflexivity | exact IH].
Qed.

Lemma counts_total_incr (k : string) (m : counts) :
  counts_total (counts_set k (counts_get k m + 1) m) = (counts_total m + 1)%Z.
Proof.
  unfold counts_total. induction m as [|[k' n] m IH]; simpl; [lia|].
  destruct (String.eqb k' k); simpl; lia.
Qed.

Lemma counts_set_keys (k k0 : string) (v : Z) (m : counts) :
  In k0 (map fst (counts_set k v m)) <-> k0 = k \/ In k0 (map fst m).
Proof.
  induction m as [|[k' n] m IH]; simpl.
  - intuition auto.
  - destruct (String.eqb_spec k' k) as [->|Hk]; simpl.
    + intuition auto.
    + rewrite IH. intuition auto.
Qed.

Lemma tally_from_total (keys : list string) (m : counts) :
  counts_total (tally_from m keys) = (counts_total m + Z.of_nat (List.length keys))%Z.
Proof.
  unfold tally_from. revert m. induction keys as [|k keys IH]; intros m; simpl.
  - lia.
  - rewrite IH, counts_total_incr. lia.
Qed.

Lemma tally_from_get (keys : list string) (m : counts) (k : string) :
  counts_get k (tally_from m keys)
  = (counts_get k m + Z.of_nat (count_occ string_dec keys k))%Z.
Proof.
  unfold tally_from. revert m. induction keys as [|k' keys IH]; intros m; simpl.
  - lia.
  - rewrite IH. destruct (string_dec k' k) as [->|Hne].
    + rewrite counts_get_set_eq. lia.
    + rewrite counts_get_set_ne by congruence. lia.
Qed.

Lemma tally_from_keys (keys : list string) (m : counts) (k : string) :
  In k (map fst (tally_from m keys)) <-> In k (map fst m) \/ In k keys.
Proof.
  unfold tally_from. revert m. induction keys as [|k' keys IH]; intros m; simpl.
  - tauto.
  - rewrite IH, counts_set_keys. intuition auto.
Qed.

(** The count the loops give a value is the number of times it occurs,
    and the counts add up to the number of keys counted. *)
Lemma tally_counts (keys : list string) :
  counts_total (tally keys) = Z.of_nat (List.length keys)
  /\ (forall k, counts_get k (tally keys) = Z.of_nat (count_occ string_dec keys k))
  /\ (forall k, In k (map fst (tally keys)) <-> In k keys).
Proof.
  change (tally keys) with (tally_from [] keys). split; [|split].
  - rewrite tally_from_total. reflexivity.
  - intros k. rewrite tally_from_get. reflexivity.
  - intros k. rewrite tally_from_keys. simpl. tauto.
Qed.

Lemma max_key_from_spec (m : counts) (keys : list string) (best : string) :
  In (max_key_from best m keys) (best :: keys)
  /\ (counts_get best m <= counts_get (max_key_from best m keys) m)%Z
  /\ (forall k, In k keys ->
                (counts_get k m <= counts_get (max_key_from best m keys) m)%Z).
Proof.
  revert best. induction keys as [|k keys IH]; intros best; simpl.
  - split; [auto | split; [lia | intros ? []]].
  - destruct (counts_get best m <? counts_get k m)%Z eqn:E.
    + apply Z.ltb_lt in E. destruct (IH k) as [H1 [H2 H3]].
      split; [destruct H1; auto | split; [lia|]].
      intros k0 [<-|Hk0]; [exact H2 | apply H3; exact Hk0].
    + apply Z.ltb_ge in E. destruct (IH best) as [H1 [H2 H3]].
      split; [destruct H1; auto | split; [exact H2|]].
      intros k0 [<-|Hk0]; [lia | apply H3; exact Hk0].
Qed.

(** [max(m, key=m.get)] on the counts of a list that is not empty: a key
    that was counted, with a count no other value exceeds. *)
Lemma max_key_tally (keys : list string) :
  keys <> [] ->
  exists k,
    max_key (tally keys) = Some k
    /\ In k keys
    /\ forall k', (counts_get k' (tally keys) <= counts_get k (tally keys))%Z.
Proof.
  intros Hne. destruct (tally_counts keys) as [_ [Hget Hkeys]].
  unfold max_key. destruct (map fst (tally keys)) as [|k0 rest] eqn:E.
  - destruct keys as [|k keys]; [congruence|]. exfalso.
    exact (proj2 (Hkeys k) (or_introl eq_refl)).
  - destruct (max_key_from_spec (tally keys) rest k0) as [H1 [H2 H3]].
    exists (max_key_from k0 (tally keys) rest). split; [reflexivity | split].
    + apply Hkeys. exact H1.
    + intros k'. destruct (in_dec string_dec k' (k0 :: rest)) as [[<-|Hin]|Hnot].
      * exact H2.
      * apply H3. exact Hin.
      * assert (Hno : ~ In k' keys) by (intros H; apply Hnot, Hkeys, H).
        rewrite (Hget k'), (proj1 (count_occ_not_In string_dec keys k') Hno).
        rewrite Hget. lia.
Qed.

Lemma count_occ_map_filter {A : Type} (f : A -> string) (v : string) (l : list A) :
  count_occ string_dec (map f l) v
  = List.length (filter (fun x => String.eqb (f x) v) l).
Proof.
  induction l as [|x l IH]; simpl; [reflexivity|].
  destruct (string_dec (f x) v) as [->|Hne].
  - rewrite String.eqb_refl. simpl. rewrite IH. reflexivity.
  - destruct (String.eqb_spec (f x) v); [congruence | exact IH].
Qed.

Lemma contains_app_r (a p s : string) :
  Py.contains a s = true -> Py.contains a (p ++ s)%string = true.
Proof.
  rewrite !contains_iff. intros [p1 [q1 ->]].
  exists (p ++ p1)%string, q1. rewrite append_assoc. reflexivity.
Qed.

Lemma contains_app_here (a q : string) : Py.contains a (a ++ q)%string = true.
Proof. apply contains_iff. exists EmptyString, q. reflexivity. Qed.

(** The sentence on the most common value, inside a text that goes on. *)
Lemma contains_most_common (label k n q : string) :
  Py.contains (label ++ k ++ " (" ++ n ++ " tickets)")%string
    (label ++ k ++ " (" ++ n ++ " tickets)" ++ q)%string = true.
Proof.
  apply contains_iff. exists EmptyString, q.
  rewrite !append_assoc. reflexivity.
Qed.

(** What [generate_ticket_insights] returns for a list that is not
    empty, with the two keys [max] picks. *)
Lemma insights_of_tickets (self : SimpleRAGService) (tickets : list Ticket.t)
    (now : datetime) (kc kp : string) :
  tickets <> [] ->
  max_key (tally (map (fun t => category_value (Ticket.category t)) tickets)) = Some kc ->
  max_key (tally (map (fun t => priority_value (Ticket.priority t)) tickets)) = Some kp ->
  exists text,
    fst (generate_ticket_insights self tickets now)
    = Some {| insights := text;
              analyzed_tickets := Z.of_nat (List.length tickets);
              sample_size := Z.of_nat (List.length tickets);
              generated_at := isoformat now;
              statistics :=
                {| status_distribution :=
                     tally (map (fun t => status_value (Ticket.status t)) tickets);
                   priority_distribution :=
                     tally (map (fun t => priority_value (Ticket.priority t)) tickets);
                   category_distribution :=
                     tally (map (fun t => category_value (Ticket.category t)) tickets) |} |}
    /\ Py.contains
         ("Most common category: " ++ kc ++ " ("
          ++ PyText.str_of_int
               (counts_get kc
                  (tally (map (fun t => category_value (Ticket.category t)) tickets)))
          ++ " tickets)")%string text = true
    /\ Py.contains
         ("Most common priority: " ++ kp ++ " ("
          ++ PyText.str_of_int
               (counts_get kp
                  (tally (map (fun t => priority_value (Ticket.priority t)) tickets)))
          ++ " tickets)")%string text = true.
Proof.
  intros Hne Hc Hp. destruct tickets as [|t0 rest]; [congruence|].
  unfold generate_ticket_insights. cbv beta iota zeta. rewrite Hc, Hp.
  eexists. split; [reflexivity | split].
  - do 7 apply contains_app_r.
    match goal with |- Py.contains ?a (_ ++ ?x)%string = true =>
      change (Py.contains a ("   - " ++ ("Most common category: " ++ x))%string = true) end.
    apply contains_app_r. apply (contains_most_common "Most common category: ").
  - do 13 apply contains_app_r.
    match goal with |- Py.contains ?a (_ ++ ?x)%string = true =>
      change (Py.contains a ("   - " ++ ("Most common priority: " ++ x))%string = true) end.
    apply contains_app_r. apply (contains_most_common "Most common priority: ").
Qed.

(** X22: [generate_ticket_insights] returns [None] exactly for an empty
    list of tickets.  Otherwise ["analyzed_tickets"] and ["sample_size"]
    are the number of tickets, each of the three distributions adds up
    to that number, and the count a distribution gives a value (0 for a
    value it does not list) is the number of tickets with that status,
    priority or category. *)
Theorem X22_insights_statistics
    (self : SimpleRAGService) (tickets : list Ticket.t) (now : datetime) :
  (fst (generate_ticket_insights self tickets now) = None <-> tickets = [])
  /\ forall r,
       fst (generate_ticket_insights self tickets now) = Some r ->
       let n := Z.of_nat (List.length tickets) in
       let st := statistics r in
       analyzed_tickets r = n /\ sample_size r = n
       /\ counts_total (status_distribution st) = n
       /\ counts_total (priority_distribution st) = n
       /\ counts_total (category_distribution st) = n
       /\ (forall v,
             counts_get v (status_distribution st)
             = Z.of_nat (List.length
                 (filter (fun t => String.eqb (status_value (Ticket.status t)) v)
                    tickets)))
       /\ (forall v,
             counts_get v (priority_distribution st)
             = Z.of_nat (List.length
                 (filter (fun t => String.eqb (priority_value (Ticket.priority t)) v)
                    tickets)))
       /\ (forall v,
             counts_get v (category_distribution st)
             = Z.of_nat (List.length
                 (filter (fun t => String.eqb (category_value (Ticket.category t)) v)
                    tickets))).
Proof.
  destruct tickets as [|t0 rest].
  - split; [split; reflexivity | intros r H; discriminate H].
  - set (tickets := t0 :: rest).
    assert (Hne : tickets <> []) by discriminate.
    destruct (max_key_tally (map (fun t => category_value (Ticket.category t)) tickets))
      as [kc [Hkc _]].
    { discriminate. }
    destruct (max_key_tally (map (fun t => priority_value (Ticket.priority t)) tickets))
      as [kp [Hkp _]].
    { discriminate. }
    destruct (insights_of_tickets self tickets now kc kp Hne Hkc Hkp)
      as [text [Heq _]].
    rewrite Heq. split.
    + split; [discriminate | intros H; exfalso; exact (Hne H)].
    + intros r Hr. assert (Er : r = _) by (symmetry; injection Hr as Hr; exact Hr).
      rewrite Er. cbv zeta.
      cbn [analyzed_tickets sample_size statistics status_distribution
           priority_distribution category_distribution].
      destruct (tally_counts (map (fun t => status_value (Ticket.status t)) tickets))
        as [Hs1 [Hs2 _]].
      destruct (tally_counts (map (fun t => priority_value (Ticket.priority t)) tickets))
        as [Hp1 [Hp2 _]].
      destruct (tally_counts (map (fun t => category_value (Ticket.category t)) tickets))
        as [Hc1 [Hc2 _]].
      rewrite length_map in Hs1, Hp1, Hc1.
      repeat (split; [first [reflexivity | assumption]|]).
      split; [|split]; intros v.
      * rewrite Hs2, count_occ_map_filter. reflexivity.
      * rewrite Hp2, count_occ_map_filter. reflexivity.
      * rewrite Hc2, count_occ_map_filter. reflexivity.
Qed.

(** X23: for a list of tickets that is not empty,
    [generate_ticket_insights] returns a result whose text names, as
    most common category and most common priority, a category and a
    priority some ticket has, with the number of tickets that have it,
    and no category or priority belongs to more tickets. *)
Theorem X23_insights_most_common
    (self : SimpleRAGService) (tickets : list Ticket.t) (now : datetime) :
  tickets <> [] ->
  exists r c p,
    fst (generate_ticket_insights self tickets now) = Some r
    /\ In c (map Ticket.category tickets)
    /\ In p (map Ticket.priority tickets)
    /\ (forall c',
          (List.length
             (filter (fun t => String.eqb (category_value (Ticket.category t))
                                 (category_value c')) tickets)
           <= List.length
                (filter (fun t => String.eqb (category_value (Ticket.category t))
                                    (category_value c)) tickets))%nat)
    /\ (forall p',
          (List.length
             (filter (fun t => String.eqb (priority_value (Ticket.priority t))
                                 (priority_value p')) tickets)
           <= List.length
                (filter (fun t => String.eqb (priority_value (Ticket.priority t))
                                    (priority_value p)) tickets))%nat)
    /\ Py.contains
         ("Most common category: " ++ category_value c ++ " ("
          ++ PyText.str_of_int
               (Z.of_nat
                  (List.length
                     (filter (fun t => String.eqb (category_value (Ticket.category t))
                                         (category_value c)) tickets)))
          ++ " tickets)")%string (insights r) = true
    /\ Py.contains
         ("Most common priority: " ++ priority_value p ++ " ("
          ++ PyText.str_of_int
               (Z.of_nat
                  (List.length
                     (filter (fun t => String.eqb (priority_value (Ticket.priority t))
                                         (priority_value p)) tickets)))
          ++ " tickets)")%string (insights r) = true.
Proof.
  intros Hne.
  destruct (max_key_tally (map (fun t => category_value (Ticket.category t)) tickets))
    as [kc [Hkc [Hinc Hmaxc]]].
  { destruct tickets; [congruence | discriminate]. }
  destruct (max_key_tally (map (fun t => priority_value (Ticket.priority t)) tickets))
    as [kp [Hkp [Hinp Hmaxp]]].
  { destruct tickets; [congruence | discriminate]. }
  destruct (insights_of_tickets self tickets now kc kp Hne Hkc Hkp)
    as [text [Heq [Htc Htp]]].
  destruct (tally_counts (map (fun t => priority_value (Ticket.priority t)) tickets))
    as [_ [Hp2 _]].
  destruct (tally_counts (map (fun t => category_value (Ticket.category t)) tickets))
    as [_ [Hc2 _]].
  apply in_map_iff in Hinc. destruct Hinc as [tc [Etc Hintc]].
  apply in_map_iff in Hinp. destruct Hinp as [tp [Etp Hintp]].
  subst kc kp.
  eexists. exists (Ticket.category tc), (Ticket.priority tp).
  split; [exact Heq|].
  split; [apply in_map; exact Hintc|].
  split; [apply in_map; exact Hintp|].
  cbn [insights].
  split; [|split; [|split]].
  - intros c'. pose proof (Hmaxc (category_value c')) as H.
    rewrite !Hc2, !count_occ_map_filter in H. lia.
  - intros p'. pose proof (Hmaxp (priority_value p')) as H.
    rewrite !Hp2, !count_occ_map_filter in H. lia.
  - rewrite Hc2, count_occ_map_filter in Htc. exact Htc.
  - rewrite Hp2, count_occ_map_filter in Htp. exact Htp.
Qed.

Lemma X23_witness :
  exists r c p,
    fst (generate_ticket_insights MoreExamples.rag0
           [Examples.ticket1; Examples.ticket2; MoreExamples.ticket3]
           {| isoformat := "2024-01-20T12:00:00" |}) = Some r
    /\ In c (map Ticket.category
               [Examples.ticket1; Examples.ticket2; MoreExamples.ticket3])
    /\ In p (map Ticket.priority
               [Examples.ticket1; Examples.ticket2; MoreExamples.ticket3])
    /\ (forall c',
          (List.length
             (filter (fun t => String.eqb (category_value (Ticket.category t))
                                 (category_value c'))
                [Examples.ticket1; Examples.ticket2; MoreExamples.ticket3])
           <= List.length
                (filter (fun t => String.eqb (category_value (Ticket.category t))
                                    (category_value c))
                   [Examples.ticket1; Examples.ticket2; MoreExamples.ticket3]))%nat)
    /\ (forall p',
          (List.length
             (filter (fun t => String.eqb (priority_value (Ticket.priority t))
                                 (priority_value p'))
                [Examples.ticket1; Examples.ticket2; MoreExamples.ticket3])
           <= List.length
                (filter (fun t => String.eqb (priority_value (Ticket.priority t))
                                    (priority_value p))
                   [Examples.ticket1; Examples.ticket2; MoreExamples.ticket3]))%nat)
    /\ Py.contains
         ("Most common category: " ++ category_value c ++ " ("
          ++ PyText.str_of_int
               (Z.of_nat
                  (List.length
                     (filter (fun t => String.eqb (category_value (Ticket.category t))
                                         (category_value c))
                        [Examples.ticket1; Examples.ticket2; MoreExamples.ticket3])))
          ++ " tickets)")%string (insights r) = true
    /\ Py.contains
         ("Most common priority: " ++ priority_value p ++ " ("
          ++ PyText.str_of_int
               (Z.of_nat
                  (List.length
                     (filter (fun t => String.eqb (priority_value (Ticket.priority t))
                                         (priority_value p))
                        [Examples.ticket1; Examples.ticket2; MoreExamples.ticket3])))
          ++ " tickets)")%string (insights r) = true.
Proof.
  apply (X23_insights_most_common MoreExamples.rag0
           [Examples.ticket1; Examples.ticket2; MoreExamples.ticket3]
           {| isoformat := "2024-01-20T12:00:00" |}).
  discriminate.
Defined.

(** *** The validators of TicketBase *)

Lemma lstrip_app (s : string) : exists p, s = (p ++ PyText.lstrip s)%string.
Proof.
  induction s as [|c s [p IH]]; [exists EmptyString; reflexivity|].
  cbn [PyText.lstrip]. destruct (Py.isspace c).
  - exists (String c p). cbn [append]. rewrite <- IH. reflexivity.
  - exists EmptyString. reflexivity.
Qed.

Lemma rstrip_app (s : string) : exists q, s = (PyText.rstrip s ++ q)%string.
Proof.
  induction s as [|c s [q IH]]; [exists EmptyString; reflexivity|].
  cbn [PyText.rstrip]. destruct (PyText.rstrip s) as [|a r].
  - destruct (Py.isspace c).
    + exists (String c s). reflexivity.
    + exists s. cbn [append] in IH |- *. reflexivity.
  - exists q. cbn [append] in IH |- *. rewrite <- IH. reflexivity.
Qed.

Lemma lstrip_head (s : string) (c : ascii) (r : string) :
  PyText.lstrip s = String c r -> Py.isspace c = false.
Proof.
  induction s as [|x s IH]; cbn [PyText.lstrip]; [discriminate|].
  destruct (Py.isspace x) eqn:E; [exact IH|].
  intros H. injection H as -> _. exact E.
Qed.

Lemma rstrip_head (c : ascii) (s : string) :
  Py.isspace c = false -> exists r, PyText.rstrip (String c s) = String c r.
Proof.
  intros E. cbn [PyText.rstrip]. destruct (PyText.rstrip s) as [|a r].
  - rewrite E. exists EmptyString. reflexivity.
  - exists (String a r). reflexivity.
Qed.

Lemma rstrip_last (s p : string) (c : ascii) :
  PyText.rstrip s = (p ++ String c EmptyString)%string -> Py.isspace c = false.
Proof.
  revert p. induction s as [|x s IH]; intros p; cbn [PyText.rstrip].
  - destruct p; discriminate.
  - destruct (PyText.rstrip s) as [|a r].
    + destruct (Py.isspace x) eqn:E.
      * destruct p; discriminate.
      * destruct p as [|y p]; cbn [append]; intros H.
        -- injection H as -> . exact E.
        -- injection H as _ H. destruct p; discriminate H.
    + destruct p as [|y p]; cbn [append]; intros H.
      * discriminate H.
      * injection H as _ H. exact (IH p H).
Qed.

Lemma rstrip_idem (s : string) : PyText.rstrip (PyText.rstrip s) = PyText.rstrip s.
Proof.
  induction s as [|c s IH]; [reflexivity|].
  cbn [PyText.rstrip]. destruct (PyText.rstrip s) as [|a r] eqn:E.
  - destruct (Py.isspace c) eqn:Ec; [reflexivity|].
    cbn [PyText.rstrip]. rewrite Ec. reflexivity.
  - change (PyText.rstrip (String c (String a r)))
      with (match PyText.rstrip (String a r) with
            | EmptyString =>
                if Py.isspace c then EmptyString else String c EmptyString
            | String _ _ as r0 => String c r0
            end).
    rewrite IH. reflexivity.
Qed.

Lemma strip_idem (s : string) : PyText.strip (PyText.strip s) = PyText.strip s.
Proof.
  unfold PyText.strip. destruct (PyText.lstrip s) as [|a r] eqn:E; [reflexivity|].
  pose proof (lstrip_head _ _ _ E) as Ha.
  destruct (rstrip_head a r Ha) as [r' Hr']. rewrite Hr'.
  cbn [PyText.lstrip]. rewrite Ha, <- Hr'. apply rstrip_idem.
Qed.

Lemma split_lstrip (s : string) :
  Py.split_from EmptyString (PyText.lstrip s) = Py.split_from EmptyString s.
Proof.
  induction s as [|c s IH]; [reflexivity|].
  cbn [PyText.lstrip]. destruct (Py.isspace c) eqn:E; [|reflexivity].
  cbn [Py.split_from]. rewrite E. exact IH.
Qed.

Lemma rstrip_empty_split (s cur : string) :
  PyText.rstrip s = EmptyString ->
  Py.split_from cur s = match cur with EmptyString => [] | _ => [cur] end.
Proof.
  revert cur. induction s as [|c s IH]; intros cur; [reflexivity|].
  cbn [PyText.rstrip Py.split_from]. destruct (PyText.rstrip s) as [|a r].
  - destruct (Py.isspace c); [|discriminate]. intros _.
    rewrite (IH EmptyString eq_refl). destruct cur; reflexivity.
  - discriminate.
Qed.

Lemma split_rstrip (s cur : string) :
  Py.split_from cur (PyText.rstrip s) = Py.split_from cur s.
Proof.
  revert cur. induction s as [|c s IH]; intros cur; [reflexivity|].
  destruct (PyText.rstrip s) as [|a r] eqn:E.
  - cbn [PyText.rstrip]. rewrite E. destruct (Py.isspace c) eqn:Ec.
    + symmetry. apply rstrip_empty_split. cbn [PyText.rstrip]. rewrite E, Ec. reflexivity.
    + cbn [Py.split_from]. rewrite Ec.
      rewrite (rstrip_empty_split s _ E). reflexivity.
  - cbn [PyText.rstrip]. rewrite E, <- E. cbn [Py.split_from].
    rewrite E, !IH. reflexivity.
Qed.

Lemma split_strip (s : string) : Py.split (PyText.strip s) = Py.split s.
Proof. unfold Py.split, PyText.strip. rewrite split_rstrip. apply split_lstrip. Qed.

Lemma split_from_nil (s cur : string) :
  Py.split_from cur s = [] -> cur = EmptyString /\ PyText.lstrip s = EmptyString.
Proof.
  revert cur. induction s as [|c s IH]; intros cur; cbn [Py.split_from PyText.lstrip].
  - destruct cur; [split; reflexivity | discriminate].
  - destruct (Py.isspace c).
    + destruct cur; [|discriminate]. intros H.
      split; [reflexivity | exact (proj2 (IH _ H))].
    + intros H. destruct (IH _ H) as [Hc _]. destruct cur; discriminate Hc.
Qed.

(** [s.strip()] is empty exactly when [s] has no word. *)
Lemma strip_empty_iff (s : string) :
  PyText.strip s = EmptyString <-> Py.split s = [].
Proof.
  split; intros H.
  - rewrite <- split_strip, H. reflexivity.
  - unfold PyText.strip. destruct (split_from_nil s EmptyString H) as [_ ->].
    reflexivity.
Qed.

(** The test of the two validators, [not v or not v.strip()]. *)
Lemma validator_test (v : string) :
  String.eqb v "" || String.eqb (PyText.strip v) "" = true <-> Py.split v = [].
Proof.
  rewrite orb_true_iff, <- strip_empty_iff. split.
  - intros [H|H]; apply String.eqb_eq in H; [subst v; reflexivity | exact H].
  - intros H. right. apply String.eqb_eq. exact H.
Qed.

(** X24: [validate_title] and [validate_description] raise their
    [ValueError] exactly for a text without a word (empty, or whitespace
    only), and return the stripped text for every other one. *)
Theorem X24_validators_reject_blank (v : string) :
  (validate_title v = ValueError "Title cannot be empty" <-> Py.split v = [])
  /\ (validate_description v = ValueError "Description cannot be empty"
      <-> Py.split v = [])
  /\ (validate_title v = Accepted (PyText.strip v) <-> Py.split v <> [])
  /\ (validate_description v = Accepted (PyText.strip v) <-> Py.split v <> []).
Proof.
  pose proof (validator_test v) as Ht.
  unfold validate_title, validate_description.
  destruct (String.eqb v "" || String.eqb (PyText.strip v) "").
  - pose proof (proj1 Ht eq_refl) as Hs.
    repeat split; intros H; first [exact Hs | reflexivity | discriminate H | congruence].
  - assert (Hs : Py.split v <> []) by (intros H; apply Ht in H; discriminate H).
    repeat split; intros H; first [exact Hs | reflexivity | discriminate H | congruence].
Qed.

(** X25: a title the validator accepts is returned without the
    whitespace at its ends: the value is not empty, occurs in the text
    given, has the same words, neither starts nor ends with a whitespace
    character, and is accepted unchanged when validated again.  The
    description validator returns the same value. *)
Theorem X25_accepted_title_is_trimmed (v w : string) :
  validate_title v = Accepted w ->
  w <> EmptyString
  /\ Py.contains w v = true
  /\ Py.split w = Py.split v
  /\ (forall c rest, w = String c rest -> Py.isspace c = false)
  /\ (forall p c, w = (p ++ String c EmptyString)%string -> Py.isspace c = false)
  /\ validate_title w = Accepted w
  /\ validate_description v = Accepted w.
Proof.
  unfold validate_title, validate_description.
  destruct (String.eqb v "" || String.eqb (PyText.strip v) "") eqn:E; [discriminate|].
  intros H. injection H as <-.
  apply orb_false_iff in E. destruct E as [_ E]. apply String.eqb_neq in E.
  split; [exact E|].
  split.
  { apply contains_iff. destruct (lstrip_app v) as [p Hp].
    destruct (rstrip_app (PyText.lstrip v)) as [q Hq].
    exists p, q. unfold PyText.strip. rewrite <- Hq. exact Hp. }
  split; [apply split_strip|].
  split.
  { intros c rest Hw. unfold PyText.strip in Hw, E.
    destruct (PyText.lstrip v) as [|a r] eqn:El; [contradiction E; reflexivity|].
    pose proof (lstrip_head _ _ _ El) as Ha.
    destruct (rstrip_head a r Ha) as [r' Hr']. rewrite Hr' in Hw.
    injection Hw as <- _. exact Ha. }
  split.
  { intros p c Hw. exact (rstrip_last _ _ _ Hw). }
  split; [|reflexivity].
  rewrite strip_idem.
  destruct (String.eqb (PyText.strip v) "" || String.eqb (PyText.strip v) "") eqn:E2;
    [|reflexivity].
  apply orb_true_iff in E2. destruct E2 as [E2|E2]; apply String.eqb_eq in E2;
    contradiction.
Qed.

Lemma X25_witness :
  "Server down" <> EmptyString
  /\ Py.contains "Server down" "  Server down  " = true
  /\ Py.split "Server down" = Py.split "  Server down  "
  /\ (forall c rest, "Server down" = String c rest -> Py.isspace c = false)
  /\ (forall p c, "Server down" = (p ++ String c EmptyString)%string ->
                  Py.isspace c = false)
  /\ validate_title "Server down" = Accepted "Server down"
  /\ validate_description "  Server down  " = Accepted "Server down".
Proof.
  apply (X25_accepted_title_is_trimmed "  Server down  " "Server down").
  reflexivity.
Defined.

(** *** Enum lookup *)

(** X26: looking a member of [TicketStatus], [TicketPriority] or
    [TicketCategory] up by its value gives that member, also after
    [.lower()] as the MCP tools do; a text is the value of at most one
    member, and the lookup of a text succeeds only with the member whose
    value it is. *)
Theorem X26_enum_value_round_trip :
  (forall m, status_of_value (Py.lower (status_value m)) = Some m)
  /\ (forall m, priority_of_value (Py.lower (priority_value m)) = Some m)
  /\ (forall m, category_of_value (Py.lower (category_value m)) = Some m)
  /\ (forall s m, status_of_value s = Some m <-> status_value m = s)
  /\ (forall s m, priority_of_value s = Some m <-> priority_value m = s)
  /\ (forall s m, category_of_value s = Some m <-> category_value m = s).
Proof.
  assert (H1 : forall m, status_of_value (status_value m) = Some m)
    by (intros []; reflexivity).
  assert (H2 : forall m, priority_of_value (priority_value m) = Some m)
    by (intros []; reflexivity).
  assert (H3 : forall m, category_of_value (category_value m) = Some m)
    by (intros []; reflexivity).
  split; [intros []; reflexivity|].
  split; [intros []; reflexivity|].
  split; [intros []; reflexivity|].
  split; [|split]; intros s m; (split; [|intros <-; auto]); intros H.
  - unfold status_of_value in H. apply find_some in H. destruct H as [_ H].
    apply String.eqb_eq. exact H.
  - unfold priority_of_value in H. apply find_some in H. destruct H as [_ H].
    apply String.eqb_eq. exact H.
  - unfold category_of_value in H. apply find_some in H. destruct H as [_ H].
    apply String.eqb_eq. exact H.
Qed.

End Extras.
